(** * twitter_scheduler: a shallow embedding of [scheduler.py]

    The script pulls articles from Feedly and Clicky, drops the ones whose
    URL is already in [posted.txt], draws one posting time per configured
    hour and schedules the tweets through Buffer.  The embedding keeps the
    functions of the script under their own names.  Effects (the clock, the
    random generator, the three web APIs, the two state files, [sys.exit]
    and exceptions) are threaded through a state-and-exception monad [M].

    Conventions of the embedding:
    - a Python [int] is a [Z]; a [str] is a [string] of code points below
      256; a value that may be [None] is an [option];
    - a [dict] read from [config.json] is a [gmap];
    - the JSON answers of the APIs are records with the fields the script
      reads; a field that may be absent is an [option];
    - a call of [make_request] is recorded as a [Request], which keeps the
      endpoint and the payload and leaves out base URLs and credentials;
      its assertions on [method] and [payload] always hold in the script;
    - Feedly's [published] is an integer; [published / 1000] is the
      binary64 quotient, and [datetime.utcfromtimestamp] rounds it and
      checks its range as CPython 3.11 does on 64-bit Linux;
    - writing a state file fails when the outside world says so
      ([disk_fault]);
    - text sent to [print] is kept in abbreviated form. *)

From Stdlib Require Import ZArith String Ascii DecimalString.
From Stdlib Require Import Sorting.Sorted.
From Stdlib Require DecimalPos.
From stdpp Require Import gmap strings list sorting.

Local Open Scope string_scope.
Local Open Scope list_scope.
Local Open Scope Z_scope.

(** ** The parts of the Python runtime the script relies on *)

Module Py.

(** Exceptions the script can raise, directly or through the runtime. *)
Inductive exn : Type :=
| AssertionError
| NotImplementedError
| IndexError
| KeyError
| ValueError
| FileNotFoundError
| RequestException
| OverflowError
| OSError.

(** How a call ends: with a value, through [sys.exit], or by raising. *)
Inductive outcome (A : Type) : Type :=
| Return (a : A)
| SysExit (code : Z)
| Raised (e : exn).
Arguments Return {A} a.
Arguments SysExit {A} code.
Arguments Raised {A} e.

(** [str(x)] of a value that may be [None]. *)
Definition str_opt (x : option string) : string :=
  match x with Some s => s | None => "None" end.

(** [str(n)] for an [int]. *)
Definition str (n : Z) : string := NilZero.string_of_int (Z.to_int n).
Arguments str : simpl never.

(** [len(s)] for a [str]. *)
Definition len (s : string) : Z := Z.of_nat (String.length s).

(** [s.split(sep)] for a one-character separator. *)
Fixpoint split (sep : ascii) (s : string) : list string :=
  match s with
  | EmptyString => [""]
  | String c s' =>
      if Ascii.eqb c sep then "" :: split sep s'
      else match split sep s' with
           | [] => [String c ""]
           | piece :: pieces => String c piece :: pieces
           end
  end.

(** [c.isspace()] on the code points below 256. *)
Definition isspace (c : ascii) : bool :=
  let n := nat_of_ascii c in
  ((9 <=? n) && (n <=? 13) || (28 <=? n) && (n <=? 32)
   || (n =? 133) || (n =? 160))%nat.

Fixpoint lstrip (s : string) : string :=
  match s with
  | EmptyString => ""
  | String c s' => if isspace c then lstrip s' else s
  end.

Fixpoint rstrip (s : string) : string :=
  match s with
  | EmptyString => ""
  | String c s' =>
      match rstrip s' with
      | EmptyString => if isspace c then "" else String c ""
      | r => String c r
      end
  end.

(** [s.strip()] *)
Definition strip (s : string) : string := lstrip (rstrip s).

(** Text-mode reading translates ["\r\n"] and ["\r"] to ["\n"]: each
    ["\r"] becomes a ["\n"], and a ["\n"] that follows a ["\r"] is dropped. *)
Definition LF : ascii := ascii_of_nat 10.
Definition CR : ascii := ascii_of_nat 13.
Definition TAB : ascii := ascii_of_nat 9.

Fixpoint translate_newlines (after_cr : bool) (s : string) : string :=
  match s with
  | EmptyString => ""
  | String c s' =>
      if Ascii.eqb c CR then String LF (translate_newlines true s')
      else if Ascii.eqb c LF then
        if after_cr then translate_newlines false s'
        else String LF (translate_newlines false s')
      else String c (translate_newlines false s')
  end.

Definition universal_newlines (s : string) : string :=
  translate_newlines false s.

(** Cut a text at each ["\n"], keeping the terminator, as [readlines]. *)
Fixpoint splitlines_keep (s : string) : list string :=
  match s with
  | EmptyString => []
  | String c s' =>
      if Ascii.eqb c LF then String c "" :: splitlines_keep s'
      else match splitlines_keep s' with
           | [] => [String c ""]
           | line :: lines => String c line :: lines
           end
  end.

(** [f.readlines()] on a file opened in text mode. *)
Definition readlines (content : string) : list string :=
  splitlines_keep (universal_newlines content).

(** [f.read()] on a file opened in text mode. *)
Definition read (content : string) : string := universal_newlines content.

(** *** [float] *)

(** The integer nearest to [n / d], for [d > 0]; of two that are equally
    near, the even one. *)
Definition round_half_even (n d : Z) : Z :=
  let q := n / d in
  let r := n mod d in
  if 2 * r <? d then q
  else if d <? 2 * r then q + 1
  else if Z.even q then q else q + 1.

(** A finite binary64 number, [mantissa * 2 ^ exponent]. *)
Record float : Type := { mantissa : Z; exponent : Z }.

(** The number [x] as the fraction [numerator x / denominator x]. *)
Definition numerator (x : float) : Z :=
  mantissa x * 2 ^ Z.max 0 (exponent x).
Definition denominator (x : float) : Z := 2 ^ Z.max 0 (- exponent x).

(** The largest [k] with [2 ^ k <= n / d], for [n > 0] and [d > 0]. *)
Definition log2_ratio (n d : Z) : Z :=
  let k := Z.log2 n - Z.log2 d in
  if n * 2 ^ Z.max 0 (- k) <? d * 2 ^ Z.max 0 k then k - 1 else k.

(** The binary64 number nearest to [n / d], for [n >= 0] and [d > 0]: a
    mantissa of 53 bits, ties to the even mantissa, no exponent below
    -1074; [None] when that number is beyond the largest finite one. *)
Definition nearest_float (n d : Z) : option float :=
  if n =? 0 then Some {| mantissa := 0; exponent := 0 |}
  else
    let e := Z.max (log2_ratio n d - 52) (-1074) in
    let m := round_half_even (n * 2 ^ Z.max 0 (- e)) (d * 2 ^ Z.max 0 e) in
    if 2 ^ 1024 <=? m * 2 ^ e then None
    else Some {| mantissa := m; exponent := e |}.

Definition neg (x : float) : float :=
  {| mantissa := - mantissa x; exponent := exponent x |}.

(** [a / b] for two [int]s, [b > 0]: the nearest binary64 number, or
    [OverflowError] when the quotient is too large for a [float]. *)
Definition truediv (a b : Z) : outcome float :=
  match nearest_float (Z.abs a) b with
  | Some x => Return (if a <? 0 then neg x else x)
  | None => Raised OverflowError
  end.

(** How CPython turns a [float] timestamp into whole seconds and
    microseconds: [modf] splits it, the fraction is multiplied by [1e6] in
    binary64 and rounded half to even, and a microsecond count of a full
    second or below zero is carried into the seconds. *)
Definition to_timeval (x : float) : option (Z * Z) :=
  let intpart := Z.quot (numerator x) (denominator x) in
  let frac := Z.rem (numerator x) (denominator x) in
  match nearest_float (Z.abs frac * 1000000) (denominator x) with
  | None => None
  | Some y =>
      let us := Z.sgn frac * round_half_even (numerator y) (denominator y) in
      Some (if 1000000 <=? us then (intpart + 1, us - 1000000)
            else if us <? 0 then (intpart - 1, us + 1000000)
            else (intpart, us))
  end.

(** *** [datetime] *)

Record datetime : Type := {
  year : Z; month : Z; day : Z;
  hour : Z; minute : Z; second : Z; microsecond : Z
}.

Definition is_leap (y : Z) : bool :=
  (y mod 4 =? 0) && (negb (y mod 100 =? 0) || (y mod 400 =? 0)).

Definition days_before_year (y : Z) : Z :=
  let y' := y - 1 in y' * 365 + y' / 4 - y' / 100 + y' / 400.

Definition days_before_month (y m : Z) : Z :=
  nth (Z.to_nat m) [0; 0; 31; 59; 90; 120; 151; 181; 212; 243; 273; 304; 334] 0
  + (if (2 <? m) && is_leap y then 1 else 0).

Definition days_in_month (y m : Z) : Z :=
  if (m =? 2) && is_leap y then 29
  else nth (Z.to_nat m) [0; 31; 28; 31; 30; 31; 30; 31; 31; 30; 31; 30; 31] 0.

(** [date(y, m, d).toordinal()] *)
Definition ymd2ord (y m d : Z) : Z :=
  days_before_year y + days_before_month y m + d.

Definition EPOCH_ORD : Z := 719163.

(** [calendar.timegm(t.timetuple())] *)
Definition timegm (t : datetime) : Z :=
  let days := ymd2ord (year t) (month t) 1 - EPOCH_ORD + day t - 1 in
  let hours := days * 24 + hour t in
  let minutes := hours * 60 + minute t in
  minutes * 60 + second t.
Arguments timegm : simpl never.

(** Microseconds since the epoch of a naive UTC [datetime]. *)
Definition to_micros (t : datetime) : Z := timegm t * 1000000 + microsecond t.

(** [datetime.utcfromtimestamp(x)], given by the microseconds from the
    epoch to the result. The seconds must fit [time_t] ([OverflowError]
    otherwise), [gmtime] must take them ([OSError]), and the year must be
    one of 1 to 9999 ([ValueError]). *)
Definition utcfromtimestamp (x : float) : outcome Z :=
  match to_timeval x with
  | None => Raised OverflowError
  | Some (seconds, us) =>
      if (seconds <? - 2 ^ 63) || (2 ^ 63 <? seconds)
      then Raised OverflowError
      else if (seconds <? -67768040609740800)
              || (67768036191676799 <? seconds)
      then Raised OSError
      else if (seconds <? -62135596800) || (253402300799 <? seconds)
      then Raised ValueError
      else Return (seconds * 1000000 + us)
  end.
Arguments utcfromtimestamp : simpl never.

(** [(now - t).days], for a [t] given by its microseconds from the epoch:
    the whole days of the difference, rounded down. *)
Definition delta_days (now : datetime) (t : Z) : Z :=
  (to_micros now - t) / 86400000000.
Arguments delta_days : simpl never.

(** The hour-of-day field of the UTC time with epoch [ts]. *)
Definition hour_of_timestamp (ts : Z) : Z := (ts / 3600) mod 24.

(** The fields a [datetime] returned by [utcnow()] can have. *)
Definition valid_datetime (t : datetime) : Prop :=
  1 <= year t <= 9999 /\ 1 <= month t <= 12 /\
  1 <= day t <= days_in_month (year t) (month t) /\
  0 <= hour t <= 23 /\ 0 <= minute t <= 59 /\ 0 <= second t <= 59 /\
  0 <= microsecond t <= 999999.

Definition digit (n : Z) : ascii :=
  match n mod 10 with
  | 0 => "0" | 1 => "1" | 2 => "2" | 3 => "3" | 4 => "4"
  | 5 => "5" | 6 => "6" | 7 => "7" | 8 => "8" | _ => "9"
  end%char.

Definition pad2 (n : Z) : string :=
  String (digit (n / 10)) (String (digit n) "").

Definition pad4 (n : Z) : string :=
  String (digit (n / 1000)) (String (digit (n / 100)) (pad2 n)).

(** [t.strftime("%Y-%m-%d")] *)
Definition strftime_date (t : datetime) : string :=
  pad4 (year t) +:+ "-" +:+ pad2 (month t) +:+ "-" +:+ pad2 (day t).

(** [t.strftime("%H:%M:%S")] *)
Definition strftime_time (t : datetime) : string :=
  pad2 (hour t) +:+ ":" +:+ pad2 (minute t) +:+ ":" +:+ pad2 (second t).

(** [t.strftime("%Y-%m-%d %H:%M:%S")] *)
Definition strftime (t : datetime) : string :=
  strftime_date t +:+ " " +:+ strftime_time t.

End Py.
Import Py.

(** ** Data model *)

(** [Article = namedtuple("Article", ["title", "url", "engagement", "published"])] *)
Module Article.
Record t : Type := make {
  title : option string;
  url : option string;
  engagement : Z;
  published : Z
}.
End Article.

(** [CArticle = namedtuple("CArticle", ["title", "url"])] *)
Module CArticle.
Record t : Type := make { title : string; url : string }.
End CArticle.

(** What [check_posted] and the scheduling loop read from an item: its
    [.title] and its [.url]. *)
Class Candidate (A : Type) : Type := {
  title : A -> option string;
  url : A -> option string
}.

#[export] Instance Article_candidate : Candidate Article.t :=
  {| title := Article.title; url := Article.url |}.

#[export] Instance CArticle_candidate : Candidate CArticle.t :=
  {| title := fun c => Some (CArticle.title c);
     url := fun c => Some (CArticle.url c) |}.

(** [feedly_urls + clicky_urls] holds items of both kinds. *)
Definition Post : Type := Article.t + CArticle.t.

#[export] Instance Post_candidate : Candidate Post :=
  {| title := fun p => match p with inl a => title a | inr c => title c end;
     url := fun p => match p with inl a => url a | inr c => url c end |}.

(** The JSON answer of the Feedly stream endpoint. *)
Module Feedly.
Record item : Type := {
  published : option Z;
  title : option string;
  originId : option string;
  engagement : option Z
}.
Record response : Type := {
  items : list item;
  errorCode : option Z;
  errorMessage : option string
}.
End Feedly.

(** The JSON answer of the Clicky pages endpoint:
    [response[0]['dates'][0]['items']]. *)
Module Clicky.
Record item : Type := { title : string; url : string }.
Record bucket : Type := { items : list item }.
Record result_set : Type := { dates : list bucket }.
Abbreviation response := (list result_set).
End Clicky.

(** The JSON answers of Buffer. *)
Module Buffer.
Record response : Type := {
  success : option bool;
  message : option string
}.
Record profile : Type := { service : string; _id : string }.
End Buffer.

(** [config.json], restricted to what the decision logic reads. *)
Record Config : Type := {
  posting_hours : list Z;
  articles : gmap string Z;
  buffer_profiles : gmap string string
}.

(** The [payload] of a Buffer update: [{"now": True}] or
    [{"scheduled_at": scheduled}]. *)
Inductive Timing : Type :=
| Now
| ScheduledAt (scheduled : Z).

(** One call of [make_request]. *)
Inductive Request : Type :=
| GetFeedlyStream (params : list (string * string))
| GetClickyPages (date output : string) (limit : Z)
| GetBufferProfiles
| PostBufferUpdate (profile_ids : string) (text : string) (timing : Timing).

(** A request that fetches candidates, and one that schedules a post. *)
Definition is_fetch (r : Request) : bool :=
  match r with
  | GetFeedlyStream _ | GetClickyPages _ _ _ => true
  | _ => false
  end.

Definition is_schedule (r : Request) : bool :=
  match r with PostBufferUpdate _ _ _ => true | _ => false end.

(** The [profile] argument of [schedule_buffer]: a [str] or a [list]. *)
Inductive ProfileArg : Type :=
| ProfileStr (p : string)
| ProfileList (ps : list string).

(** The [scheduled] argument of [schedule_buffer]: an [int] or a [str]. *)
Inductive ScheduledArg : Type :=
| SchedInt (n : Z)
| SchedStr (s : string).

(** ** The world the script runs in *)

(** How writing a state file can fail: [open(path, 'w')] raises and the
    file is as it was, or the file is opened, which empties it, and the
    error comes when only the first [written] characters have reached
    it. *)
Inductive WriteFault : Type :=
| OpenFails
| WriteFails (written : nat).

(** What a run cannot change: the command line, the configuration and the
    behaviour of the outside (clock, random generator, remote services,
    and the disk, which says for the name of a state file whether writing
    it fails). Each oracle is indexed by what happened before. *)
Record Env : Type := {
  argv : list string;
  config : Config;
  utcnow_oracle : nat -> datetime;
  entropy : nat -> nat;
  feedly_api : list Request -> option Feedly.response;
  clicky_api : list Request -> option Clicky.response;
  buffer_api : list Request -> Request -> option Buffer.response;
  profiles_api : list Request -> option (list Buffer.profile);
  disk_fault : string -> option WriteFault
}.

(** What a run changes: the two state files, the position in the oracles,
    the requests sent so far (oldest first), the output, the sleeps. *)
Record State : Type := {
  done_today_txt : option string;
  posted_txt : option string;
  clock_reads : nat;
  draws : nat;
  sent : list Request;
  stdout : list string;
  slept : Z
}.

Definition set_done_today (v : option string) (s : State) : State :=
  {| done_today_txt := v; posted_txt := posted_txt s;
     clock_reads := clock_reads s; draws := draws s; sent := sent s;
     stdout := stdout s; slept := slept s |}.

Definition set_posted (v : option string) (s : State) : State :=
  {| done_today_txt := done_today_txt s; posted_txt := v;
     clock_reads := clock_reads s; draws := draws s; sent := sent s;
     stdout := stdout s; slept := slept s |}.

Definition set_clock_reads (v : nat) (s : State) : State :=
  {| done_today_txt := done_today_txt s; posted_txt := posted_txt s;
     clock_reads := v; draws := draws s; sent := sent s;
     stdout := stdout s; slept := slept s |}.

Definition set_draws (v : nat) (s : State) : State :=
  {| done_today_txt := done_today_txt s; posted_txt := posted_txt s;
     clock_reads := clock_reads s; draws := v; sent := sent s;
     stdout := stdout s; slept := slept s |}.

Definition set_sent (v : list Request) (s : State) : State :=
  {| done_today_txt := done_today_txt s; posted_txt := posted_txt s;
     clock_reads := clock_reads s; draws := draws s; sent := v;
     stdout := stdout s; slept := slept s |}.

Definition set_stdout (v : list string) (s : State) : State :=
  {| done_today_txt := done_today_txt s; posted_txt := posted_txt s;
     clock_reads := clock_reads s; draws := draws s; sent := sent s;
     stdout := v; slept := slept s |}.

Definition set_slept (v : Z) (s : State) : State :=
  {| done_today_txt := done_today_txt s; posted_txt := posted_txt s;
     clock_reads := clock_reads s; draws := draws s; sent := sent s;
     stdout := stdout s; slept := v |}.

(** A computation of the script. *)
Definition M (A : Type) : Type := Env -> State -> outcome A * State.

#[export] Instance M_ret : MRet M := fun A a _ s => (Return a, s).

#[export] Instance M_bind : MBind M := fun A B f m env s =>
  match m env s with
  | (Return a, s') => f a env s'
  | (SysExit code, s') => (SysExit code, s')
  | (Raised e, s') => (Raised e, s')
  end.

Definition raise {A} (e : exn) : M A := fun _ s => (Raised e, s).

(** An outcome that depends on neither the world nor the state. *)
Definition lift {A} (o : outcome A) : M A := fun _ s => (o, s).

(** [sys.exit(code)] *)
Definition sys_exit {A} (code : Z) : M A := fun _ s => (SysExit code, s).

Definition ask : M Env := fun env s => (Return env, s).

(** [assert b] *)
Definition py_assert (b : bool) : M unit :=
  if b then mret tt else raise AssertionError.

(** [l[i]] *)
Definition getitem {A} (l : list A) (i : nat) : M A :=
  match l !! i with Some x => mret x | None => raise IndexError end.

(** [d[k]] *)
Definition getkey {A} (d : gmap string A) (k : string) : M A :=
  match d !! k with Some x => mret x | None => raise KeyError end.

(** [d[k]] for a field of a JSON answer that may be absent. *)
Definition getfield {A} (field : option A) : M A :=
  match field with Some x => mret x | None => raise KeyError end.

Definition print (text : string) : M unit :=
  fun _ s => (Return tt, set_stdout (stdout s ++ [text]) s).

(** [time.sleep(seconds)] *)
Definition sleep (seconds : Z) : M unit :=
  fun _ s => (Return tt, set_slept (slept s + seconds) s).

(** [datetime.utcnow()] *)
Definition utcnow : M datetime :=
  fun env s =>
    (Return (utcnow_oracle env (clock_reads s)),
     set_clock_reads (S (clock_reads s)) s).

(** A uniform draw below [n], as the random module's [_randbelow(n)]. *)
Definition randbelow (n : nat) : M nat :=
  fun env s =>
    (Return (entropy env (draws s) `mod` n)%nat, set_draws (S (draws s)) s).

(** [random.randint(a, b)] *)
Definition randint (a b : Z) : M Z :=
  r ← randbelow (Z.to_nat (b - a + 1)); mret (a + Z.of_nat r).

(** [random.shuffle(x)]: for [i] from [len(x) - 1] down to [1], swap
    [x[i]] with [x[j]] for a random [j <= i]. *)
Definition swap {A} (i j : nat) (x : list A) : list A :=
  match x !! i, x !! j with
  | Some xi, Some xj => <[j := xi]> (<[i := xj]> x)
  | _, _ => x
  end.

Fixpoint shuffle_from {A} (i : nat) (x : list A) : M (list A) :=
  match i with
  | O => mret x
  | S i' => j ← randbelow (S i); shuffle_from i' (swap i j x)
  end.

Definition shuffle {A} (x : list A) : M (list A) :=
  shuffle_from (length x - 1) x.

(** [open(path).read()] on a state file. *)
Definition open_read (file : State -> option string) : M string :=
  fun _ s =>
    match file s with
    | Some content => (Return content, s)
    | None => (Raised FileNotFoundError, s)
    end.

(** [with open(path, 'w') as f: ... f.write(...)]: the file comes to hold
    [text], unless the disk makes the write fail with an [OSError]. *)
Definition open_write (name : string)
    (set : option string -> State -> State) (text : string) : M unit :=
  fun env s =>
    match disk_fault env name with
    | None => (Return tt, set (Some text) s)
    | Some OpenFails => (Raised OSError, s)
    | Some (WriteFails written) =>
        (Raised OSError, set (Some (substring 0 written text)) s)
    end.

Definition write_done_today (text : string) : M unit :=
  open_write "done_today.txt" set_done_today text.

Definition write_posted (text : string) : M unit :=
  open_write "posted.txt" set_posted text.

(** [datetime(y, m, d, hour, minute, second)], which raises [ValueError]
    on a field out of range. *)
Definition datetime_new (y m d hh mm ss : Z) : M datetime :=
  if (1 <=? y) && (y <=? 9999) && (1 <=? m) && (m <=? 12)
     && (1 <=? d) && (d <=? days_in_month y m)
     && (0 <=? hh) && (hh <=? 23) && (0 <=? mm) && (mm <=? 59)
     && (0 <=? ss) && (ss <=? 59)
  then mret {| year := y; month := m; day := d; hour := hh; minute := mm;
               second := ss; microsecond := 0 |}
  else raise ValueError.


(** ** The functions of [scheduler.py] *)

(** [make_request(url, method, headers, params, payload)]: one network
    call; the request is recorded in [sent] and the decoded JSON body comes
    from the remote side, or the call raises when the remote side fails. *)
Definition make_request {A} (r : Request)
    (remote : Env -> list Request -> option A) : M A :=
  fun env s =>
    let s' := set_sent (sent s ++ [r]) s in
    match remote env (sent s) with
    | Some body => (Return body, s')
    | None => (Raised RequestException, s')
    end.

(** [articles.sort(key=lambda f: f.engagement, reverse=True)]: a stable
    sort, by decreasing engagement. *)
Fixpoint insert_by_engagement (a : Article.t) (l : list Article.t)
    : list Article.t :=
  match l with
  | [] => [a]
  | b :: l' =>
      if Article.engagement a <? Article.engagement b
      then b :: insert_by_engagement a l'
      else a :: l
  end.

Definition sort_by_engagement (l : list Article.t) : list Article.t :=
  foldr insert_by_engagement [] l.

(** The loop of [get_feed] over [data]: [continue] on an item without
    [published]; otherwise [published / 1000] and [utcfromtimestamp], which
    can raise, and [break] on the first item for which [delta.days] equals
    [time_delta]. *)
Fixpoint feed_articles (now : datetime) (time_delta : Z)
    (data : list Feedly.item) : M (list Article.t) :=
  match data with
  | [] => mret []
  | i :: rest =>
      match Feedly.published i with
      | None => feed_articles now time_delta rest
      | Some published =>
          if published =? 0 then feed_articles now time_delta rest
          else
            seconds ← lift (truediv published 1000);
            t ← lift (utcfromtimestamp seconds);
            if delta_days now t =? time_delta then mret []
            else
              articles ← feed_articles now time_delta rest;
              mret (Article.make (Feedly.title i) (Feedly.originId i)
                      (default 0 (Feedly.engagement i)) published
                    :: articles)
      end
  end.

Definition get_feed (time_delta count : Z) (kwargs : list (string * string))
    : M (list Article.t) :=
  response ← make_request (GetFeedlyStream kwargs) feedly_api;
  match Feedly.items response with
  | [] =>
      match Feedly.errorCode response with
      | Some code =>
          if code =? 0
          then print "ERROR getting feedly content! Message: response";;
               sys_exit 1
          else print ("ERROR getting feedly content! Code: " +:+ str code);;
               sys_exit 1
      | None =>
          print "ERROR getting feedly content! Message: response";;
          sys_exit 1
      end
  | data =>
      now ← utcnow;
      articles ← feed_articles now time_delta data;
      mret (sort_by_engagement articles)
  end.

(** The loop of [get_clicky] over the items: [url[3]] is read first, then
    [len(url) > 4]. *)
Fixpoint clicky_articles (items : list Clicky.item) : M (list CArticle.t) :=
  match items with
  | [] => mret []
  | i :: rest =>
      let url := split "/" (Clicky.url i) in
      segment ← getitem url 3;
      articles ← clicky_articles rest;
      if String.eqb segment "news" && (4 <? Z.of_nat (length url))
      then mret (CArticle.make (Clicky.title i) (Clicky.url i) :: articles)
      else mret articles
  end.

Definition get_clicky (date output : string) (limit : Z)
    : M (list CArticle.t) :=
  response ← make_request (GetClickyPages date output limit) clicky_api;
  first ← getitem response 0;
  bucket ← getitem (Clicky.dates first) 0;
  clicky_articles (Clicky.items bucket).

(** [not scheduled] *)
Definition falsy (scheduled : ScheduledArg) : bool :=
  match scheduled with
  | SchedInt n => n =? 0
  | SchedStr s => String.eqb s ""
  end.

Definition schedule_buffer (status_text : string) (profile : ProfileArg)
    (scheduled : ScheduledArg) : M Buffer.response :=
  env ← ask;
  profile_id ←
    match profile with
    | ProfileStr p =>
        py_assert (bool_decide (p ∈ ["twitter"; "linkedin"]));;
        getkey (buffer_profiles (config env)) p
    | ProfileList _ => raise NotImplementedError
    end;
  timing ←
    (if falsy scheduled then mret Now
     else match scheduled with
          | SchedStr _ => raise NotImplementedError
          | SchedInt n =>
              py_assert (len (str n) =? 10);;
              mret (ScheduledAt n)
          end);
  make_request (PostBufferUpdate profile_id status_text timing)
    (fun env log => buffer_api env log
                      (PostBufferUpdate profile_id status_text timing)).

Definition _get_buffer_profiles : M unit :=
  response ← make_request GetBufferProfiles profiles_api;
  foldr (fun i rest =>
           print (Buffer.service i +:+ String TAB "" +:+ Buffer._id i);;
           rest)
        (mret tt) response.

(** The loop of [get_posting_times] over [posting_hrs]. *)
Fixpoint posting_times_from (today : datetime) (posting_hrs : list Z)
    : M (list Z) :=
  match posting_hrs with
  | [] => mret []
  | hour :: rest =>
      let h := Py.hour today in
      if hour <? h then posting_times_from today rest
      else
        let hour := if h =? hour then hour + 1 else hour in
        mm ← randint 1 59;
        ss ← randint 1 59;
        posting_time ← datetime_new (year today) (month today) (day today)
                          hour mm ss;
        timestamps ← posting_times_from today rest;
        mret (timegm posting_time :: timestamps)
  end.

Definition get_posting_times : M (list Z) :=
  env ← ask;
  today ← utcnow;
  posting_times_from today (posting_hours (config env)).

(** The loop of [check_posted], with its counter [added]. *)
Fixpoint check_posted_from {A} `{Candidate A} (source : list A)
    (count added : Z) (posted : list (option string)) : list A :=
  match source with
  | [] => []
  | i :: rest =>
      if added =? count then []
      else if bool_decide (url i ∈ posted)
           then check_posted_from rest count added posted
           else i :: check_posted_from rest count (added + 1) posted
  end.

Definition check_posted {A} `{Candidate A} (source : list A) (count : Z)
    (posted : list (option string)) : list A :=
  check_posted_from source count 0 posted.

(** The scheduling loop of [main]: slot [index] goes with
    [to_schedule[index]]. *)
Fixpoint schedule_posts (index : nat) (posting_times : list Z)
    (to_schedule : list Post) (posted : list (option string))
    : M (list (option string)) :=
  match posting_times with
  | [] => mret posted
  | i :: later =>
      item ← getitem to_schedule index;
      print ("Scheduling... URL: " +:+ str_opt (url item)
             +:+ " Time: " +:+ str i);;
      tweet ← schedule_buffer
                (str_opt (title item) +:+ " " +:+ str_opt (url item))
                (ProfileStr "twitter") (SchedInt i);
      ok ← getfield (Buffer.success tweet);
      posted' ←
        (if ok : bool
         then print "Scheduled successfully!";;
              mret (posted ++ [url item])
         else print ("Something went wrong scheduling "
                     +:+ str_opt (url item));;
              msg ← getfield (Buffer.message tweet);
              print ("ERROR: " +:+ msg);;
              print "(the response)";;
              mret posted);
      sleep 1;;
      schedule_posts (S index) later to_schedule posted'
  end.

(** [posted = [i.strip() for i in f.readlines()]] *)
Definition load_posted (content : string) : list (option string) :=
  map (fun line => Some (strip line)) (readlines content).

(** [for i in posted: f.write(f"{i}\n")] *)
Definition dump_posted (posted : list (option string)) : string :=
  foldr (fun i text => str_opt i +:+ String LF "" +:+ text) "" posted.

(** [sum(articles.values())] *)
Definition sum_values (d : gmap string Z) : Z :=
  map_fold (fun _ v total => v + total) 0 d.

Definition main : M unit :=
  env ← ask;
  let args := argv env in
  if bool_decide (length args = 2%nat) then
    arg ← getitem args 1;
    if String.eqb arg "streams"
    then _get_buffer_profiles;; sys_exit 0
    else print ("Invalid argument! " +:+ arg);; sys_exit 1
  else
    now ← utcnow;
    let utc_today := strftime now in
    print ("UTC Time now: " +:+ utc_today);;
    (* Check if done today *)
    content ← open_read done_today_txt;
    let last := strip (read content) in
    today ← getitem (split " " utc_today) 0;
    if String.eqb last today
    then print "Already scheduled today! Exiting...";; sys_exit 0
    else
      (* Load number of articles to post from each source *)
      let articles := articles (config env) in
      feedly_count ← getkey articles "feedly";
      clicky_count ← getkey articles "clicky";
      (* Number of posting hours must match number of articles to post *)
      py_assert (Z.of_nat (length (posting_hours (config env)))
                 =? sum_values articles);;
      (* Get lists of URLS from APIs *)
      feedly ← get_feed 1 100 [];
      clicky ← get_clicky "today" "json" 50;
      (* Check if posted before and select URLs *)
      content ← open_read posted_txt;
      let posted := load_posted content in
      let feedly_urls := check_posted feedly feedly_count posted in
      let clicky_urls := check_posted clicky clicky_count posted in
      (* Get posting times and urls *)
      posting_times ← get_posting_times;
      (* Randomize order *)
      to_schedule ← shuffle ((inl <$> feedly_urls) ++ (inr <$> clicky_urls));
      (* Schedule posts *)
      posted ← schedule_posts 0 posting_times to_schedule posted;
      (* Update posted articles *)
      write_posted (dump_posted posted);;
      (* Update today check *)
      today ← getitem (split " " utc_today) 0;
      write_done_today today.


(** ** Definitions used to state the properties *)

(** The Clicky filter as the specification words it: the segment at index
    3 of the URL split on ["/"] is ["news"], and there are more than four
    segments. *)
Definition is_news_item (i : Clicky.item) : bool :=
  let segments := split "/" (Clicky.url i) in
  match segments !! 3%nat with
  | Some segment => String.eqb segment "news" && (4 <? Z.of_nat (length segments))
  | None => false
  end.

Definition to_CArticle (i : Clicky.item) : CArticle.t :=
  CArticle.make (Clicky.title i) (Clicky.url i).

(** A Clicky answer with one result set, one date bucket and these items. *)
Definition clicky_answer (items : list Clicky.item) : Clicky.response :=
  [ {| Clicky.dates := [ {| Clicky.items := items |} ] |} ].

Definition page (url : string) : Clicky.item :=
  {| Clicky.title := "A page"; Clicky.url := url |}.

(** *** Sample data for the concrete runs *)

Definition sample_config (hours : list Z) (feedly clicky : Z) : Config :=
  {| posting_hours := hours;
     articles := {[ "feedly" := feedly; "clicky" := clicky ]};
     buffer_profiles := {[ "twitter" := "5d1a" ]} |}.

(** 2024-03-01 14:05:07 UTC *)
Definition sample_now : datetime :=
  {| year := 2024; month := 3; day := 1; hour := 14; minute := 5;
     second := 7; microsecond := 120 |}.

Definition story (published engagement : Z) (link : string) : Feedly.item :=
  {| Feedly.published := Some published;
     Feedly.title := Some "A story";
     Feedly.originId := Some link;
     Feedly.engagement := Some engagement |}.

Definition feed_answer (items : list Feedly.item) : Feedly.response :=
  {| Feedly.items := items; Feedly.errorCode := None;
     Feedly.errorMessage := None |}.

Definition accepted : Buffer.response :=
  {| Buffer.success := Some true; Buffer.message := None |}.

(** An outside world that answers every request the same way, with the
    clock stopped at [sample_now]. *)
Definition sample_env (cfg : Config) (feed : list Feedly.item)
    (pages : list Clicky.item) : Env :=
  {| argv := ["scheduler.py"];
     config := cfg;
     utcnow_oracle := fun _ => sample_now;
     entropy := fun n => (7 * n + 3)%nat;
     feedly_api := fun _ => Some (feed_answer feed);
     clicky_api := fun _ => Some (clicky_answer pages);
     buffer_api := fun _ _ => Some accepted;
     profiles_api := fun _ => Some [];
     disk_fault := fun _ => None |}.

(** The state files before a run: the marker and the history. *)
Definition sample_state (marker history : string) : State :=
  {| done_today_txt := Some marker; posted_txt := Some history;
     clock_reads := 0; draws := 0; sent := []; stdout := []; slept := 0 |}.

(** *** The feed window, as the specification words it *)

(** An item with a publish timestamp ([published] present and not zero). *)
Definition dated (i : Feedly.item) : bool :=
  match Feedly.published i with
  | Some published => negb (published =? 0)
  | None => false
  end.

(** The age in whole days, at [now], of what was published [ms]
    milliseconds after the epoch, in exact arithmetic. *)
Definition age_in_days (now : datetime) (ms : Z) : Z :=
  (to_micros now - ms * 1000) / 86400000000.
Arguments age_in_days : simpl never.

(** An item whose age in whole days equals the lookback window. *)
Definition aged_out (now : datetime) (time_delta : Z) (i : Feedly.item)
    : bool :=
  match Feedly.published i with
  | Some published => age_in_days now published =? time_delta
  | None => false
  end.

(** The publish times that the division and [utcfromtimestamp] render
    without rounding: from the epoch to [2 ^ 33] seconds after it, which is
    in the year 2242. *)
Definition exact_limit_ms : Z := 8589934592000.

Definition plausible (i : Feedly.item) : Prop :=
  match Feedly.published i with
  | Some published => 0 <= published < exact_limit_ms
  | None => True
  end.

(** The items before the first one on which [stop] holds. *)
Fixpoint take_until {A} (stop : A -> bool) (l : list A) : list A :=
  match l with
  | [] => []
  | x :: l' => if stop x then [] else x :: take_until stop l'
  end.

(** Skip the undated items, then stop at the first item aged out. *)
Definition feed_window (now : datetime) (time_delta : Z)
    (data : list Feedly.item) : list Feedly.item :=
  take_until (aged_out now time_delta) (filter (fun i => dated i) data).

Definition to_Article (i : Feedly.item) : Article.t :=
  Article.make (Feedly.title i) (Feedly.originId i)
    (default 0 (Feedly.engagement i)) (default 0 (Feedly.published i)).

(** Engagement does not increase from [a] to [b]. *)
Definition by_engagement (a b : Article.t) : Prop :=
  Article.engagement b <= Article.engagement a.

(** Three candidates, the second of which is in the history. *)
Definition sample_candidates : list CArticle.t :=
  [CArticle.make "One" "http://site.example/news/one";
   CArticle.make "Two" "http://site.example/news/two";
   CArticle.make "Three" "http://site.example/news/three"].

Definition sample_history : list (option string) :=
  [Some "http://site.example/news/two"].

(** Published at 2024-03-01 12:00:00 and 2024-02-29 13:00:00 UTC: at
    [sample_now], zero days and one day old. *)
Definition fresh_ms : Z := 1709294400000.
Definition day_old_ms : Z := 1709211600000.

(** The scenario of the specification: three fresh stories with
    engagements 5, 10 and 2. *)
Definition sample_feed : list Feedly.item :=
  [story fresh_ms 5 "http://blog.example/a";
   story fresh_ms 10 "http://blog.example/b";
   story fresh_ms 2 "http://blog.example/c"].

(** An item without a publish timestamp. *)
Definition undated_story : Feedly.item :=
  {| Feedly.published := None;
     Feedly.title := Some "No date";
     Feedly.originId := Some "http://blog.example/n";
     Feedly.engagement := Some 77 |}.

(** The scenario with an undated item in it, followed by a story that is
    one day old and a fresh story behind that one. *)
Definition mixed_feed : list Feedly.item :=
  [story fresh_ms 5 "http://blog.example/a";
   undated_story;
   story fresh_ms 10 "http://blog.example/b";
   story fresh_ms 2 "http://blog.example/c";
   story day_old_ms 99 "http://blog.example/old";
   story fresh_ms 50 "http://blog.example/late"].

(** One Clicky candidate for two time slots. *)
Definition lone_post : list Post :=
  [inr (CArticle.make "One" "http://site.example/news/one")].

(** 2024-03-01 15:04:11 and 20:18:25 UTC. *)
Definition two_slots : list Z := [1709305451; 1709324305].

(** A run with two slots still ahead (hours 15 and 20) and one fresh
    candidate: Feedly has one story, Clicky has no news page. *)
Definition short_env : Env :=
  sample_env (sample_config [15; 20] 1 1)
    [story fresh_ms 5 "http://blog.example/a"]
    [page "http://site.example/about/team"].

(** Every character of [s] satisfies [p]. *)
Fixpoint all_chars (p : ascii -> bool) (s : string) : bool :=
  match s with
  | EmptyString => true
  | String c s' => p c && all_chars p s'
  end.

(** A text without any whitespace character, as a URL is. *)
Definition no_whitespace (s : string) : Prop :=
  all_chars (fun c => negb (isspace c)) s = true.

(** The test of [main] on the run marker: the stripped content of
    [done_today.txt] is the date of [now]. *)
Definition marker_is (now : datetime) (s : State) : bool :=
  match done_today_txt s with
  | Some content => String.eqb (strip (read content)) (strftime_date now)
  | None => false
  end.

(** The state of [main] when it reaches the marker check: the clock was
    read once and the time was printed. *)
Definition at_marker_check (now : datetime) (s : State) : State :=
  set_stdout (stdout (set_clock_reads (S (clock_reads s)) s)
              ++ ["UTC Time now: " +:+ strftime now])
    (set_clock_reads (S (clock_reads s)) s).

(** The part of [main] that follows the marker check, under a name of its
    own so that the lemmas can speak of it; [main_cycle] shows that [main]
    continues with it. *)
Definition schedule_cycle (now : datetime) : M unit :=
  env ← ask;
  feedly_count ← getkey (articles (config env)) "feedly";
  clicky_count ← getkey (articles (config env)) "clicky";
  py_assert (Z.of_nat (length (posting_hours (config env)))
             =? sum_values (articles (config env)));;
  feedly ← get_feed 1 100 [];
  clicky ← get_clicky "today" "json" 50;
  content ← open_read posted_txt;
  posting_times ← get_posting_times;
  to_schedule ← shuffle
    ((inl <$> check_posted feedly feedly_count (load_posted content))
     ++ (inr <$> check_posted clicky clicky_count (load_posted content)));
  posted ← schedule_posts 0 posting_times to_schedule (load_posted content);
  write_posted (dump_posted posted);;
  today ← getitem (split " " (strftime now)) 0;
  write_done_today today.

(** A configuration with two posting hours for three requested articles,
    run a second time on 2024-03-01. *)
Definition mismatched_env : Env :=
  sample_env (sample_config [15; 20] 2 1) sample_feed [].

(** A day on which Feedly answers without items. *)
Definition empty_feed_env : Env :=
  sample_env (sample_config [15; 20] 1 1) [] [].

(** An ordinary run: three hours, of which two are still ahead, two
    stories wanted from Feedly and one page from Clicky. *)
Definition ordinary_env : Env :=
  sample_env (sample_config [9; 14; 20] 2 1) sample_feed
    [page "http://site.example/news/my-article"].

(** Published at 2024-02-28 13:00:00 UTC: at [sample_now], two days old. *)
Definition two_days_old_ms : Z := 1709125200000.

(** 2024-03-01 23:10:00 UTC, and a world whose clock shows [now]. *)
Definition late_now : datetime :=
  {| year := 2024; month := 3; day := 1; hour := 23; minute := 10;
     second := 0; microsecond := 0 |}.

Definition at_time (now : datetime) (env : Env) : Env :=
  {| argv := argv env; config := config env;
     utcnow_oracle := fun _ => now; entropy := entropy env;
     feedly_api := feedly_api env; clicky_api := clicky_api env;
     buffer_api := buffer_api env; profiles_api := profiles_api env;
     disk_fault := disk_fault env |}.

(** The hour asked of [datetime] for a configured hour: one more when it
    is the current hour. *)
Definition target_hour (h configured : Z) : Z :=
  if h =? configured then configured + 1 else configured.

(** The minute and the second of the UTC time with epoch [ts]. *)
Definition minute_of_timestamp (ts : Z) : Z := (ts / 60) mod 60.
Definition second_of_timestamp (ts : Z) : Z := ts mod 60.

(** *** Frames: what a computation leaves as it is *)

(** Whatever the outcome of [m], the states before and after it are
    related by [P]. *)
Definition preserves {A} (P : relation State) (m : M A) : Prop :=
  forall env s o s', m env s = (o, s') -> P s s'.

(** Either [m] returns, or it raises the [OSError] of a write that the
    disk makes fail, or the states before and after it are related by
    [P]. *)
Definition returns_or {A} (P : relation State) (m : M A) : Prop :=
  forall env s o s',
    m env s = (o, s') ->
    (exists a, o = Return a)
    \/ (o = Raised OSError /\ exists name, is_Some (disk_fault env name))
    \/ P s s'.

(** A world in which the disk behaves as [fault] says. *)
Definition with_disk_fault (fault : string -> option WriteFault) (env : Env)
    : Env :=
  {| argv := argv env; config := config env;
     utcnow_oracle := utcnow_oracle env; entropy := entropy env;
     feedly_api := feedly_api env; clicky_api := clicky_api env;
     buffer_api := buffer_api env; profiles_api := profiles_api env;
     disk_fault := fault |}.

(** The disk refuses to open [done_today.txt] for writing. *)
Definition marker_locked (name : string) : option WriteFault :=
  if String.eqb name "done_today.txt" then Some OpenFails else None.

(** A relation that printing, sleeping, reading the clock and drawing
    random numbers respect, and so does sending a request that is
    [allowed]. *)
Class Frame (allowed : Request -> Prop) (P : relation State) : Prop := {
  frame_refl s : P s s;
  frame_trans s1 s2 s3 : P s1 s2 -> P s2 s3 -> P s1 s3;
  frame_stdout v s : P s (set_stdout v s);
  frame_slept v s : P s (set_slept v s);
  frame_clock_reads v s : P s (set_clock_reads v s);
  frame_draws v s : P s (set_draws v s);
  frame_request r s : allowed r -> P s (set_sent (sent s ++ [r]) s)
}.

(** The two state files are as they were. *)
Definition same_files : relation State :=
  fun s s' =>
    done_today_txt s' = done_today_txt s /\ posted_txt s' = posted_txt s.

(** No request was sent. *)
Definition same_sent : relation State := fun s s' => sent s' = sent s.

(** No scheduling request was sent. *)
Definition same_posts : relation State :=
  fun s s' =>
    filter (fun r => is_schedule r) (sent s')
    = filter (fun r => is_schedule r) (sent s).

(** The line that [_get_buffer_profiles] prints for a profile: the service
    and the id, with a tab between them. *)
Definition profile_line (i : Buffer.profile) : string :=
  Buffer.service i +:+ String TAB "" +:+ Buffer._id i.

(** The sample world called with one argument, with two profiles
    connected to Buffer. *)
Definition with_argument (arg : string) : Env :=
  {| argv := ["scheduler.py"; arg];
     config := sample_config [9; 14; 20] 2 1;
     utcnow_oracle := fun _ => sample_now;
     entropy := fun n => n;
     feedly_api := fun _ => Some (feed_answer sample_feed);
     clicky_api := fun _ => Some (clicky_answer []);
     buffer_api := fun _ _ => Some accepted;
     profiles_api := fun _ =>
       Some [ {| Buffer.service := "twitter"; Buffer._id := "5d1a" |};
              {| Buffer.service := "linkedin"; Buffer._id := "77f0" |} ];
     disk_fault := fun _ => None |}.

(** The request that the loop of [main] sends for the slot [t] and the
    candidate [item]. *)
Definition update_for (profile_id : string) (t : Z) (item : Post) : Request :=
  PostBufferUpdate profile_id
    (str_opt (title item) +:+ " " +:+ str_opt (url item))
    (if t =? 0 then Now else ScheduledAt t).

(** Buffer answers every request, always with the same verdict [ok], and
    with a message when it refuses. *)
Definition buffer_answers (env : Env) (ok : bool) : Prop :=
  forall log r,
    exists tweet,
      buffer_api env log r = Some tweet
      /\ Buffer.success tweet = Some ok
      /\ (ok = false -> is_Some (Buffer.message tweet)).

Definition refused : Buffer.response :=
  {| Buffer.success := Some false; Buffer.message := Some "Limit reached" |}.

(** Two candidates for one slot, and a world in which Buffer refuses. *)
Definition two_posts : list Post :=
  [inr (CArticle.make "One" "http://site.example/news/one");
   inr (CArticle.make "Two" "http://site.example/news/two")].

Definition refusing_env : Env :=
  {| argv := ["scheduler.py"];
     config := sample_config [] 0 0;
     utcnow_oracle := fun _ => sample_now;
     entropy := fun n => n;
     feedly_api := fun _ => None;
     clicky_api := fun _ => None;
     buffer_api := fun _ _ => Some refused;
     profiles_api := fun _ => None;
     disk_fault := fun _ => None |}.

(** *** The requests of a run *)

(** Whatever the outcome of [m] in the world [env], the requests it sent
    satisfy [Q]. *)
Definition appends {A} (env : Env) (Q : list Request -> Prop) (m : M A)
    : Prop :=
  forall s o s',
    m env s = (o, s') -> exists reqs, sent s' = sent s ++ reqs /\ Q reqs.

(** At most [n] requests, all of them scheduling requests. *)
Definition posts_within (n : nat) (reqs : list Request) : Prop :=
  Forall (fun r => is_schedule r = true) reqs /\ (length reqs <= n)%nat.

(** The requests of a cycle: the Feedly request, then the Clicky request,
    then at most [n] scheduling requests, or a beginning of that. *)
Definition cycle_requests (n : nat) (reqs : list Request) : Prop :=
  exists posts,
    posts_within n posts
    /\ reqs `prefix_of`
         [GetFeedlyStream []; GetClickyPages "today" "json" 50] ++ posts.

(** *** The history round trip *)

(** The URLs that the loop of [main] appends to the history when the
    requests so far are [log]: the URL of each candidate whose update
    Buffer answers with a true [success]. *)
Fixpoint accepted_urls (env : Env) (log : list Request) (profile_id : string)
    (posting_times : list Z) (to_schedule : list Post)
    : list (option string) :=
  match posting_times, to_schedule with
  | t :: later, item :: rest =>
      let update := update_for profile_id t item in
      let more := accepted_urls env (log ++ [update]) profile_id later rest in
      match buffer_api env log update ≫= Buffer.success with
      | Some true => url item :: more
      | _ => more
      end
  | _, _ => []
  end.

(** A day with one posting hour ahead and one fresh story, whose URL ends
    in a blank. *)
Definition padded_env : Env :=
  sample_env (sample_config [20] 1 0)
    [story fresh_ms 5 "http://blog.example/a "] [].

(** 2024-03-02 00:30:00 UTC, the next date, when the story is not yet a
    day old. *)
Definition early_next_day : datetime :=
  {| year := 2024; month := 3; day := 2; hour := 0; minute := 30;
     second := 0; microsecond := 0 |}.

(** *** Decimal digits *)

(** The decimal digit [a] in front of the digits [l]. *)
Definition digit_cons (a : Z) (l : Decimal.uint) : Decimal.uint :=
  match a with
  | 0 => Decimal.D0 l | 1 => Decimal.D1 l | 2 => Decimal.D2 l
  | 3 => Decimal.D3 l | 4 => Decimal.D4 l | 5 => Decimal.D5 l
  | 6 => Decimal.D6 l | 7 => Decimal.D7 l | 8 => Decimal.D8 l
  | _ => Decimal.D9 l
  end.

(** The last [k] decimal digits of [n], in front of the digits [l]. *)
Fixpoint digits_of (k : nat) (n : Z) (l : Decimal.uint) : Decimal.uint :=
  match k with
  | O => l
  | S k' => digits_of k' (n / 10) (digit_cons (n mod 10) l)
  end.

(** ** Properties *)

Ltac unfold_M :=
  unfold getitem, getkey, getfield, py_assert, raise, sys_exit, ask;
  unfold mbind, M_bind, mret, M_ret; simpl.

(** *** The dedup filter *)

Section check_posted.
Context {A : Type} `{Candidate A}.
Implicit Types (source : list A) (posted : list (option string)).

Lemma check_posted_from_fresh source count added posted i :
  i ∈ check_posted_from source count added posted -> url i ∉ posted.
Proof.
  revert added. induction source as [|j rest IH]; intros added; simpl.
  - by intros ?%elem_of_nil.
  - destruct (added =? count); [by intros ?%elem_of_nil|].
    case_bool_decide as Hj.
    + apply IH.
    + intros [->|Hi]%elem_of_cons; [done|]. by eapply IH.
Qed.

Lemma check_posted_from_length source count added posted :
  added <= count ->
  Z.of_nat (length (check_posted_from source count added posted))
  <= count - added.
Proof.
  revert added. induction source as [|j rest IH]; intros added Hle; simpl.
  - lia.
  - destruct (Z.eqb_spec added count); [simpl; lia|].
    case_bool_decide.
    + by apply IH.
    + simpl length. specialize (IH (added + 1)). lia.
Qed.

Lemma check_posted_from_sublist source count added posted :
  check_posted_from source count added posted `sublist_of` source.
Proof.
  revert added. induction source as [|j rest IH]; intros added; simpl.
  - constructor.
  - destruct (added =? count); [apply sublist_nil_l|].
    case_bool_decide.
    + by apply sublist_cons.
    + by apply sublist_skip.
Qed.

(** Below zero the counter never meets [count]: only the history cuts. *)
Lemma check_posted_from_unbounded source count added posted :
  count < added ->
  check_posted_from source count added posted
  = filter (fun i => url i ∉ posted) source.
Proof.
  revert added. induction source as [|j rest IH]; intros added Hlt; simpl.
  - done.
  - destruct (Z.eqb_spec added count); [lia|].
    case_bool_decide.
    + rewrite filter_cons_False by tauto. apply IH. lia.
    + rewrite filter_cons_True by done. f_equal. apply IH. lia.
Qed.

(** The result is the first [count] candidates that are not in the
    history. *)
Lemma check_posted_from_take source count added posted :
  added <= count ->
  check_posted_from source count added posted
  = take (Z.to_nat (count - added)) (filter (fun i => url i ∉ posted) source).
Proof.
  revert added. induction source as [|j rest IH]; intros added Hle; simpl.
  - symmetry. apply take_nil.
  - destruct (Z.eqb_spec added count) as [->|Hne].
    + by rewrite Z.sub_diag.
    + case_bool_decide.
      * rewrite filter_cons_False by tauto. by apply IH.
      * rewrite filter_cons_True by done.
        replace (Z.to_nat (count - added))
          with (S (Z.to_nat (count - (added + 1)))) by lia.
        simpl. f_equal. apply IH. lia.
Qed.

(** C2: for every candidate sequence, every target count (a number of
    articles, so not negative) and every history, [check_posted] returns a
    list with no URL of the history, of length at most the count, and which
    is a subsequence of the input. *)
Theorem check_posted_spec source count posted :
  0 <= count ->
  (forall i, i ∈ check_posted source count posted -> url i ∉ posted)
  /\ Z.of_nat (length (check_posted source count posted)) <= count
  /\ check_posted source count posted `sublist_of` source.
Proof.
  intros Hcount. unfold check_posted. split_and!.
  - intros i. apply check_posted_from_fresh.
  - pose proof (check_posted_from_length source count 0 posted Hcount). lia.
  - apply check_posted_from_sublist.
Qed.

End check_posted.


(** *** The analytics fetcher *)

Lemma clicky_articles_filter items env s :
  Forall (fun i => (4 <= length (split "/" (Clicky.url i)))%nat) items ->
  clicky_articles items env s
  = (Return (to_CArticle <$> filter (fun i => is_news_item i) items), s).
Proof.
  induction 1 as [|i rest Hi _ IH]; [done|].
  simpl. unfold_M. unfold is_news_item in *.
  destruct (split "/" (Clicky.url i) !! 3%nat) as [segment|] eqn:Hseg.
  - rewrite IH.
    destruct (String.eqb segment "news" && _) eqn:Hkeep.
    + rewrite filter_cons_True; [reflexivity|].
      rewrite Hseg. by apply Is_true_true_2.
    + rewrite filter_cons_False; [reflexivity|].
      rewrite Hseg. by apply Is_true_false_2.
  - apply lookup_ge_None in Hseg. lia.
Qed.

Lemma clicky_articles_short items env s :
  Exists (fun i => (length (split "/" (Clicky.url i)) < 4)%nat) items ->
  clicky_articles items env s = (Raised IndexError, s).
Proof.
  induction items as [|i rest IH]; intros Hshort.
  - by apply Exists_nil in Hshort.
  - simpl. unfold_M.
    destruct (split "/" (Clicky.url i) !! 3%nat) as [segment|] eqn:Hseg; [|done].
    apply Exists_cons in Hshort as [Hi|Hrest].
    + apply lookup_lt_Some in Hseg. lia.
    + by rewrite IH.
Qed.

Lemma get_clicky_unfold date output limit env s response first bucket :
  clicky_api env (sent s) = Some response ->
  response !! 0%nat = Some first ->
  Clicky.dates first !! 0%nat = Some bucket ->
  get_clicky date output limit env s
  = clicky_articles (Clicky.items bucket) env
      (set_sent (sent s ++ [GetClickyPages date output limit]) s).
Proof.
  intros Hanswer Hfirst Hbucket.
  unfold get_clicky, make_request, getitem, mbind, M_bind, mret, M_ret.
  rewrite Hanswer. cbv beta iota zeta.
  rewrite Hfirst. cbv beta iota.
  by rewrite Hbucket.
Qed.

(** C4, as amended: when every URL of the answer splits on ["/"] into at
    least four segments, [get_clicky] keeps exactly the items whose segment
    at index 3 is ["news"] and which have more than four segments. *)
Theorem get_clicky_keeps_news date output limit env s response first bucket :
  clicky_api env (sent s) = Some response ->
  response !! 0%nat = Some first ->
  Clicky.dates first !! 0%nat = Some bucket ->
  Forall (fun i => (4 <= length (split "/" (Clicky.url i)))%nat)
    (Clicky.items bucket) ->
  (get_clicky date output limit env s).1
  = Return (to_CArticle <$> filter (fun i => is_news_item i) (Clicky.items bucket)).
Proof.
  intros Hanswer Hfirst Hbucket Hlong.
  erewrite get_clicky_unfold by done.
  by rewrite clicky_articles_filter.
Qed.

(** An absolute URL with a slug after [/news/] is kept; a URL of another
    category is rejected, and so is the path [/site/news/my-article], whose
    segment at index 3 is the slug. *)
Lemma get_clicky_keeps_news_witness :
  (get_clicky "today" "json" 50
     (sample_env (sample_config [] 0 0) []
        [page "http://site.example/news/my-article"; page "/site/other/x";
         page "/site/news/my-article"])
     (sample_state "" "")).1
  = Return [CArticle.make "A page" "http://site.example/news/my-article"].
Proof.
  apply (get_clicky_keeps_news "today" "json" 50
           (sample_env (sample_config [] 0 0) []
              [page "http://site.example/news/my-article";
               page "/site/other/x"; page "/site/news/my-article"])
           (sample_state "" "") _ _ _ eq_refl eq_refl eq_refl).
  repeat (constructor; [simpl; lia|]). constructor.
Defined.

(** C4, as stated, fails: the item with URL [/site/news/my-article] is not
    kept. *)
Lemma get_clicky_drops_site_news_path :
  (get_clicky "today" "json" 50
     (sample_env (sample_config [] 0 0) [] [page "/site/news/my-article"])
     (sample_state "" "")).1
  = Return [].
Proof. reflexivity. Qed.

(** C10: if some item of the answer has a URL that splits on ["/"] into
    fewer than four segments, [get_clicky] raises [IndexError]. *)
Theorem get_clicky_short_url_raises date output limit env s response first bucket :
  clicky_api env (sent s) = Some response ->
  response !! 0%nat = Some first ->
  Clicky.dates first !! 0%nat = Some bucket ->
  Exists (fun i => (length (split "/" (Clicky.url i)) < 4)%nat)
    (Clicky.items bucket) ->
  (get_clicky date output limit env s).1 = Raised IndexError.
Proof.
  intros Hanswer Hfirst Hbucket Hshort.
  erewrite get_clicky_unfold by done.
  by rewrite clicky_articles_short.
Qed.

Lemma get_clicky_short_url_raises_witness :
  split "/" "/site/news" = [""; "site"; "news"]
  /\ (get_clicky "today" "json" 50
        (sample_env (sample_config [] 0 0) [] [page "/site/news"])
        (sample_state "" "")).1
     = Raised IndexError.
Proof.
  split; [reflexivity|].
  apply (get_clicky_short_url_raises "today" "json" 50
           (sample_env (sample_config [] 0 0) [] [page "/site/news"])
           (sample_state "" "") _ _ _ eq_refl eq_refl eq_refl).
  apply Exists_cons_hd. simpl. lia.
Defined.

Lemma check_posted_spec_witness :
  0 <= 2
  /\ (forall i, i ∈ check_posted sample_candidates 2 sample_history ->
                url i ∉ sample_history)
  /\ Z.of_nat (length (check_posted sample_candidates 2 sample_history)) <= 2
  /\ check_posted sample_candidates 2 sample_history
     `sublist_of` sample_candidates.
Proof.
  split; [lia|]. apply (check_posted_spec sample_candidates 2 sample_history).
  lia.
Defined.

(** *** The monad *)

Lemma bind_Return {A B} (m : M A) (f : A -> M B) env s b s' :
  (m ≫= f) env s = (Return b, s') ->
  exists a s1, m env s = (Return a, s1) /\ f a env s1 = (Return b, s').
Proof.
  unfold mbind, M_bind.
  destruct (m env s) as [[a|code|e] s1]; [eauto|discriminate..].
Qed.

Lemma bind_step {A B} (m : M A) (f : A -> M B) env s a s1 :
  m env s = (Return a, s1) -> (m ≫= f) env s = f a env s1.
Proof. unfold mbind, M_bind. by intros ->. Qed.

Lemma bind_raise {A B} (m : M A) (f : A -> M B) env s e s1 :
  m env s = (Raised e, s1) -> (m ≫= f) env s = (Raised e, s1).
Proof. unfold mbind, M_bind. by intros ->. Qed.

Lemma bind_exit {A B} (m : M A) (f : A -> M B) env s code s1 :
  m env s = (SysExit code, s1) -> (m ≫= f) env s = (SysExit code, s1).
Proof. unfold mbind, M_bind. by intros ->. Qed.

(** *** Floating point *)

Lemma round_half_even_bound n d :
  0 < d -> - d <= 2 * (round_half_even n d * d - n) <= d.
Proof.
  intros Hd. unfold round_half_even.
  pose proof (Z.div_mod n d ltac:(lia)) as Hn.
  pose proof (Z.mod_pos_bound n d Hd) as Hr.
  destruct (Z.ltb_spec (2 * (n mod d)) d);
    [|destruct (Z.ltb_spec d (2 * (n mod d))); [|destruct (Z.even (n / d))]];
    nia.
Qed.

Lemma round_half_even_unique n d c :
  0 < d -> - d < 2 * (c * d - n) < d -> round_half_even n d = c.
Proof.
  intros Hd Hc. unfold round_half_even.
  pose proof (Z.div_mod n d ltac:(lia)) as Hn.
  pose proof (Z.mod_pos_bound n d Hd) as Hr.
  assert (c = n / d \/ c = n / d + 1) as [->| ->] by nia.
  - destruct (Z.ltb_spec (2 * (n mod d)) d); [done|nia].
  - destruct (Z.ltb_spec (2 * (n mod d)) d); [nia|].
    destruct (Z.ltb_spec d (2 * (n mod d))); [done|nia].
Qed.

Lemma log2_ratio_upper n d K :
  0 < n -> 0 < d -> 0 <= K + 1 -> n < d * 2 ^ (K + 1) -> log2_ratio n d <= K.
Proof.
  intros Hn Hd HK Hlt. unfold log2_ratio.
  set (k := Z.log2 n - Z.log2 d).
  assert (Hk : k <= K + 1).
  { assert (Hlog : Z.log2 n <= Z.log2 (d * 2 ^ (K + 1)))
      by (apply Z.log2_le_mono; lia).
    rewrite Z.log2_mul_pow2 in Hlog by lia. lia. }
  destruct (Z.ltb_spec (n * 2 ^ Z.max 0 (- k)) (d * 2 ^ Z.max 0 k)) as [|Hge];
    [lia|].
  destruct (Z.eq_dec k (K + 1)) as [Heq|]; [|lia].
  exfalso. rewrite Heq in Hge.
  rewrite (Z.max_l 0 (- (K + 1))), (Z.max_r 0 (K + 1)) in Hge by lia.
  rewrite Z.pow_0_r in Hge. lia.
Qed.

(** The nearest binary64 number to a fraction below [2 ^ 52] has a negative
    exponent, and is within half a unit of its last place. *)
Lemma nearest_float_fraction n d K :
  0 < n -> 0 < d -> K <= 51 -> 0 <= K + 1 -> n < d * 2 ^ (K + 1) ->
  exists m E,
    nearest_float n d = Some {| mantissa := m; exponent := - E |}
    /\ 52 - K <= E
    /\ - d <= 2 * (m * d - n * 2 ^ E) <= d.
Proof.
  intros Hn Hd HK HK' Hlt. unfold nearest_float.
  destruct (Z.eqb_spec n 0); [lia|].
  pose proof (log2_ratio_upper n d K Hn Hd HK' Hlt) as Hlog.
  set (e := Z.max (log2_ratio n d - 52) (-1074)).
  assert (He : e <= K - 52) by (unfold e; lia).
  rewrite (Z.max_r 0 (- e)), (Z.max_l 0 e) by lia.
  rewrite Z.pow_0_r, Z.mul_1_r.
  set (m := round_half_even (n * 2 ^ (- e)) d).
  assert (Hpow : 2 ^ e = 0) by (apply Z.pow_neg_r; lia).
  rewrite Hpow, Z.mul_0_r.
  destruct (Z.leb_spec (2 ^ 1024) 0) as [Hbad|_].
  { pose proof (Z.pow_pos_nonneg 2 1024). lia. }
  exists m, (- e). rewrite Z.opp_involutive. split; [reflexivity|].
  split; [lia|]. apply round_half_even_bound. lia.
Qed.

Lemma truediv_returns p :
  0 < p < exact_limit_ms -> exists x, truediv p 1000 = Return x.
Proof.
  unfold exact_limit_ms. intros Hp. unfold truediv.
  rewrite Z.abs_eq by lia.
  destruct (nearest_float_fraction p 1000 32) as (m & E & -> & _);
    [lia..|change (2 ^ (32 + 1)) with 8589934592; lia|].
  eauto.
Qed.

(** Below the limit, the whole seconds and the microseconds come out as
    they are in [p], although [p / 1000] itself is rounded. *)
Lemma to_timeval_exact p x :
  0 < p < exact_limit_ms ->
  truediv p 1000 = Return x ->
  to_timeval x = Some (p / 1000, 1000 * (p mod 1000)).
Proof.
  unfold exact_limit_ms. intros Hp. unfold truediv.
  rewrite Z.abs_eq by lia.
  destruct (nearest_float_fraction p 1000 32) as (m & E & -> & HE & Hm);
    [lia..|change (2 ^ (32 + 1)) with 8589934592; lia|].
  destruct (Z.ltb_spec p 0); [lia|]. intros [= <-].
  unfold to_timeval, numerator, denominator.
  cbn [mantissa exponent].
  rewrite (Z.max_l 0 (- E)), (Z.max_r 0 (- - E)) by lia.
  rewrite Z.opp_involutive, Z.pow_0_r, Z.mul_1_r.
  set (A := 2 ^ E) in *.
  assert (HA : 1048576 <= A).
  { change 1048576 with (2 ^ 20). apply Z.pow_le_mono_r; lia. }
  pose proof (Z.div_mod p 1000 ltac:(lia)) as Hdm.
  pose proof (Z.mod_pos_bound p 1000 ltac:(lia)) as Hr.
  set (s := p / 1000) in *. set (r := p mod 1000) in *.
  set (g := m - s * A).
  assert (Hg : 1000 * g = r * A + (1000 * m - p * A)) by (unfold g; nia).
  assert (HrA : 0 <= r * A <= 999 * A) by nia.
  assert (Hg_range : 0 <= g < A) by lia.
  assert (Hm_nonneg : 0 <= m) by nia.
  assert (Hquot : m ÷ A = s).
  { rewrite Z.quot_div_nonneg by lia. symmetry.
    apply (Z.div_unique m A s g); [lia|unfold g; lia]. }
  assert (Hrem : Z.rem m A = g).
  { rewrite Z.rem_mod_nonneg by lia. symmetry.
    apply (Z.mod_unique m A s g); [lia|unfold g; lia]. }
  rewrite Hquot, Hrem.
  destruct (Z.eq_dec g 0) as [Hz|Hnz].
  - rewrite Hz. assert (Hr0 : r = 0) by nia. rewrite Hr0. reflexivity.
  - rewrite Z.abs_eq by lia.
    destruct (nearest_float_fraction (g * 1000000) A 19)
      as (m2 & E2 & -> & HE2 & Hm2);
      [lia..|change (2 ^ (19 + 1)) with 1048576; lia|].
    cbn [mantissa exponent].
    rewrite (Z.max_l 0 (- E2)), (Z.max_r 0 (- - E2)) by lia.
    rewrite Z.opp_involutive, Z.pow_0_r, Z.mul_1_r.
    set (B := 2 ^ E2) in *.
    assert (HB : 8589934592 <= B).
    { change 8589934592 with (2 ^ 33). apply Z.pow_le_mono_r; lia. }
    assert (Hsgn : Z.sgn g = 1) by (apply Z.sgn_pos; lia).
    rewrite Hsgn, Z.mul_1_l.
    assert (Hus : round_half_even m2 B = 1000 * r).
    { apply round_half_even_unique; [lia|].
      set (delta := 1000 * m - p * A) in *.
      set (delta2 := m2 * A - g * 1000000 * B) in *.
      set (D := m2 - 1000 * r * B).
      assert (HD : D * A = 1000 * (delta * B) + delta2)
        by (unfold D, delta2; nia).
      assert (Hd1 : - 500 <= delta <= 500) by lia.
      assert (Hd1B : - 500 * B <= delta * B <= 500 * B) by nia.
      assert (HAB : 1000000 * B + A < A * B) by nia.
      assert (H2 : - (A * B) < 2 * (D * A) < A * B) by lia.
      assert (HDB : - B < 2 * D < B) by (clear - H2 HA; nia).
      unfold D in HDB. lia. }
    rewrite Hus.
    destruct (Z.leb_spec 1000000 (1000 * r)); [lia|].
    destruct (Z.ltb_spec (1000 * r) 0); [lia|]. reflexivity.
Qed.

(** A publish time between the epoch and [2 ^ 33] seconds after it is
    rendered exactly. *)
Lemma utcfromtimestamp_exact p x :
  0 < p < exact_limit_ms ->
  truediv p 1000 = Return x ->
  utcfromtimestamp x = Return (p * 1000).
Proof.
  intros Hp Hx. unfold utcfromtimestamp.
  rewrite (to_timeval_exact p x Hp Hx). unfold exact_limit_ms in Hp.
  pose proof (Z.div_mod p 1000 ltac:(lia)) as Hdm.
  pose proof (Z.mod_pos_bound p 1000 ltac:(lia)) as Hr.
  set (s := p / 1000) in *.
  assert (Hs : 0 <= s < 8589934592) by lia.
  change (- 2 ^ 63) with (-9223372036854775808).
  change (2 ^ 63) with 9223372036854775808.
  destruct (Z.ltb_spec s (-9223372036854775808)); [lia|].
  destruct (Z.ltb_spec 9223372036854775808 s); [lia|].
  destruct (Z.ltb_spec s (-67768040609740800)); [lia|].
  destruct (Z.ltb_spec 67768036191676799 s); [lia|].
  destruct (Z.ltb_spec s (-62135596800)); [lia|].
  destruct (Z.ltb_spec 253402300799 s); [lia|].
  cbn [orb]. f_equal. lia.
Qed.

(** *** The feed fetcher *)

(** The three cases of the window. *)
Lemma feed_window_skip now time_delta i rest :
  dated i = false ->
  feed_window now time_delta (i :: rest) = feed_window now time_delta rest.
Proof.
  intros Hi. unfold feed_window. rewrite filter_cons_False; [done|].
  by apply Is_true_false_2.
Qed.

Lemma feed_window_break now time_delta i rest :
  dated i = true -> aged_out now time_delta i = true ->
  feed_window now time_delta (i :: rest) = [].
Proof.
  intros Hi Hout. unfold feed_window.
  rewrite filter_cons_True by by apply Is_true_true_2.
  cbn [take_until]. by rewrite Hout.
Qed.

Lemma feed_window_keep now time_delta i rest :
  dated i = true -> aged_out now time_delta i = false ->
  feed_window now time_delta (i :: rest)
  = i :: feed_window now time_delta rest.
Proof.
  intros Hi Hin. unfold feed_window.
  rewrite filter_cons_True by by apply Is_true_true_2.
  cbn [take_until]. by rewrite Hin.
Qed.

Lemma delta_days_exact now ms :
  delta_days now (ms * 1000) = age_in_days now ms.
Proof. unfold delta_days, age_in_days. reflexivity. Qed.

(** On publish times below the limit the loop, with its float division,
    computes the window of the exact ages. *)
Lemma feed_articles_window now time_delta data env s :
  Forall plausible data ->
  feed_articles now time_delta data env s
  = (Return (to_Article <$> feed_window now time_delta data), s).
Proof.
  induction 1 as [|i rest Hi _ IH]; [reflexivity|].
  cbn [feed_articles]. unfold plausible in Hi.
  destruct (Feedly.published i) as [published|] eqn:Hpub.
  - destruct (Z.eqb_spec published 0) as [->|Hnz].
    + rewrite feed_window_skip; [exact IH|].
      unfold dated. by rewrite Hpub.
    + assert (Hp : 0 < published < exact_limit_ms) by lia.
      assert (Hdated : dated i = true).
      { unfold dated. rewrite Hpub. by apply negb_true_iff, Z.eqb_neq. }
      destruct (truediv_returns published Hp) as [x Hx].
      erewrite bind_step; [|unfold lift; by rewrite Hx].
      erewrite bind_step;
        [|unfold lift; by rewrite (utcfromtimestamp_exact published x Hp Hx)].
      rewrite delta_days_exact.
      destruct (age_in_days now published =? time_delta) eqn:Hage.
      * rewrite feed_window_break; [reflexivity|done|].
        unfold aged_out. by rewrite Hpub.
      * rewrite feed_window_keep; [|done|unfold aged_out; by rewrite Hpub].
        erewrite bind_step by exact IH.
        rewrite fmap_cons. unfold to_Article at 2. by rewrite Hpub.
  - rewrite feed_window_skip; [exact IH|]. unfold dated. by rewrite Hpub.
Qed.

(** Once an item is aged out, it and everything after it are left out. *)
Lemma take_until_stop {A} (stop : A -> bool) before x after :
  stop x = true ->
  take_until stop (before ++ x :: after) = take_until stop before.
Proof.
  intros Hx. induction before as [|y before IH]; simpl.
  - by rewrite Hx.
  - destruct (stop y); [done|]. by rewrite IH.
Qed.

Lemma take_until_not_stop {A} (stop : A -> bool) l x :
  x ∈ take_until stop l -> stop x = false.
Proof.
  induction l as [|y l IH]; simpl.
  - by intros ?%elem_of_nil.
  - destruct (stop y) eqn:Hy; [by intros ?%elem_of_nil|].
    intros [->|Hx]%elem_of_cons; auto.
Qed.

Lemma take_until_sublist {A} (stop : A -> bool) l :
  take_until stop l `sublist_of` l.
Proof.
  induction l as [|y l IH]; simpl; [done|].
  destruct (stop y); [apply sublist_nil_l|by apply sublist_skip].
Qed.

Lemma feed_window_stop now time_delta before i after :
  dated i = true -> aged_out now time_delta i = true ->
  feed_window now time_delta (before ++ i :: after)
  = feed_window now time_delta before.
Proof.
  intros Hdated Hout. unfold feed_window.
  rewrite filter_app, filter_cons_True by by apply Is_true_true_2.
  by apply take_until_stop.
Qed.

Lemma feed_window_dated now time_delta data i :
  i ∈ feed_window now time_delta data ->
  dated i = true /\ aged_out now time_delta i = false.
Proof.
  intros Hi. split.
  - eapply elem_of_sublist in Hi; [|apply take_until_sublist].
    apply list_elem_of_filter in Hi as [Hd _]. by apply Is_true_true_1.
  - by eapply take_until_not_stop.
Qed.

Lemma insert_by_engagement_perm a l : insert_by_engagement a l ≡ₚ a :: l.
Proof.
  induction l as [|b l IH]; simpl; [done|].
  destruct (Article.engagement a <? Article.engagement b); [|done].
  rewrite IH. apply Permutation_swap.
Qed.

Lemma sort_by_engagement_perm l : sort_by_engagement l ≡ₚ l.
Proof.
  induction l as [|a l IH]; simpl; [done|].
  by rewrite insert_by_engagement_perm, IH.
Qed.

Lemma insert_by_engagement_hd a b l :
  by_engagement b a -> HdRel by_engagement b l ->
  HdRel by_engagement b (insert_by_engagement a l).
Proof.
  intros Hba Hbl. destruct l as [|c l]; simpl; [by constructor|].
  destruct (Article.engagement a <? Article.engagement c);
    constructor; [by inversion Hbl|done].
Qed.

Lemma insert_by_engagement_sorted a l :
  Sorted by_engagement l -> Sorted by_engagement (insert_by_engagement a l).
Proof.
  induction 1 as [|b l Hl IH Hhd]; simpl.
  - by repeat constructor.
  - destruct (Z.ltb_spec (Article.engagement a) (Article.engagement b)).
    + constructor; [done|].
      apply insert_by_engagement_hd; [unfold by_engagement; lia|done].
    + constructor; [by constructor|]. constructor. unfold by_engagement. lia.
Qed.

Lemma sort_by_engagement_sorted l : Sorted by_engagement (sort_by_engagement l).
Proof.
  induction l as [|a l IH]; simpl; [constructor|].
  by apply insert_by_engagement_sorted.
Qed.

Lemma get_feed_unfold time_delta count kwargs env s response :
  feedly_api env (sent s) = Some response ->
  Feedly.items response <> [] ->
  Forall plausible (Feedly.items response) ->
  get_feed time_delta count kwargs env s
  = (Return (sort_by_engagement
               (to_Article
                  <$> feed_window (utcnow_oracle env (clock_reads s))
                        time_delta (Feedly.items response))),
     set_clock_reads (S (clock_reads s))
       (set_sent (sent s ++ [GetFeedlyStream kwargs]) s)).
Proof.
  intros Hanswer Hitems Hplausible. unfold get_feed.
  erewrite bind_step; [|unfold make_request; by rewrite Hanswer].
  destruct (Feedly.items response) as [|i data] eqn:Hdata; [done|].
  erewrite bind_step by reflexivity.
  erewrite bind_step by (by apply feed_articles_window).
  reflexivity.
Qed.

Lemma get_feed_sorted_window time_delta count kwargs env s response :
  feedly_api env (sent s) = Some response ->
  Feedly.items response <> [] ->
  Forall plausible (Feedly.items response) ->
  let now := utcnow_oracle env (clock_reads s) in
  exists articles,
    (get_feed time_delta count kwargs env s).1 = Return articles
    /\ articles
       ≡ₚ to_Article <$> feed_window now time_delta (Feedly.items response)
    /\ Sorted by_engagement articles
    /\ forall a, a ∈ articles ->
         age_in_days now (Article.published a) <> time_delta.
Proof.
  intros Hanswer Hitems Hplausible now.
  rewrite (get_feed_unfold _ _ _ _ _ _ Hanswer Hitems Hplausible). fold now.
  eexists. split; [reflexivity|]. split_and!.
  - by rewrite sort_by_engagement_perm.
  - apply sort_by_engagement_sorted.
  - intros a. rewrite sort_by_engagement_perm.
    intros (i & -> & Hi)%list_elem_of_fmap.
    apply feed_window_dated in Hi as [Hdated Hfresh].
    unfold dated, aged_out in *. simpl.
    destruct (Feedly.published i) as [published|]; [|done].
    simpl. by apply Z.eqb_neq.
Qed.

(** Three dated items aged zero days with engagements 5, 10 and 2, looked
    back one day, come out as 10, 5, 2; what follows the first item aged
    one day is left out. *)
Lemma get_feed_scenario count kwargs env s response i1 i2 i3 p1 p2 p3 later :
  feedly_api env (sent s) = Some response ->
  Forall plausible (Feedly.items response) ->
  let now := utcnow_oracle env (clock_reads s) in
  Feedly.published i1 = Some p1 -> Feedly.published i2 = Some p2 ->
  Feedly.published i3 = Some p3 ->
  p1 <> 0 -> p2 <> 0 -> p3 <> 0 ->
  age_in_days now p1 = 0 -> age_in_days now p2 = 0 ->
  age_in_days now p3 = 0 ->
  Feedly.engagement i1 = Some 5 -> Feedly.engagement i2 = Some 10 ->
  Feedly.engagement i3 = Some 2 ->
  (Feedly.items response = [i1; i2; i3]
   \/ exists old p, Feedly.published old = Some p /\ p <> 0
        /\ age_in_days now p = 1
        /\ Feedly.items response = [i1; i2; i3] ++ old :: later) ->
  (get_feed 1 count kwargs env s).1
  = Return [to_Article i2; to_Article i1; to_Article i3].
Proof.
  intros Hanswer Hplausible now Hp1 Hp2 Hp3 Hz1 Hz2 Hz3 Ha1 Ha2 Ha3
    He1 He2 He3 Hitems.
  assert (Hkeep : forall i p rest,
            Feedly.published i = Some p -> p <> 0 -> age_in_days now p = 0 ->
            feed_window now 1 (i :: rest) = i :: feed_window now 1 rest).
  { intros i p rest Hp Hz Ha. apply feed_window_keep.
    - unfold dated. rewrite Hp. by apply negb_true_iff, Z.eqb_neq.
    - unfold aged_out. by rewrite Hp, Ha. }
  assert (Hw : feed_window now 1 (Feedly.items response) = [i1; i2; i3]).
  { destruct Hitems as [->|(old & p & Hp & Hz & Hage & ->)].
    - by rewrite (Hkeep _ _ _ Hp1 Hz1 Ha1), (Hkeep _ _ _ Hp2 Hz2 Ha2),
        (Hkeep _ _ _ Hp3 Hz3 Ha3).
    - cbn [app].
      rewrite (Hkeep _ _ _ Hp1 Hz1 Ha1), (Hkeep _ _ _ Hp2 Hz2 Ha2),
        (Hkeep _ _ _ Hp3 Hz3 Ha3).
      rewrite feed_window_break; [done| |].
      + unfold dated. rewrite Hp. by apply negb_true_iff, Z.eqb_neq.
      + unfold aged_out. by rewrite Hp, Hage. }
  assert (Hne : Feedly.items response <> []).
  { destruct Hitems as [->|(? & ? & _ & _ & _ & ->)]; discriminate. }
  rewrite (get_feed_unfold _ _ _ _ _ _ Hanswer Hne Hplausible). fold now.
  cbn [fst]. rewrite Hw. cbn [fmap list_fmap]. unfold to_Article.
  rewrite He1, He2, He3. reflexivity.
Qed.

(** C5: on a feed whose publish times lie between the epoch and the year
    2242, [get_feed] skips the items without a publish timestamp, stops at
    the first item whose age in whole days equals the lookback window, and
    returns the kept items by decreasing engagement; three items aged zero
    days with engagements 5, 10, 2 and a lookback of one day come out as
    10, 5, 2, and no returned article is aged exactly the lookback. *)
Theorem get_feed_spec time_delta count kwargs env s response :
  feedly_api env (sent s) = Some response ->
  Feedly.items response <> [] ->
  Forall plausible (Feedly.items response) ->
  let now := utcnow_oracle env (clock_reads s) in
  (exists articles,
     (get_feed time_delta count kwargs env s).1 = Return articles
     /\ articles
        ≡ₚ to_Article <$> feed_window now time_delta (Feedly.items response)
     /\ Sorted by_engagement articles
     /\ forall a, a ∈ articles ->
          age_in_days now (Article.published a) <> time_delta)
  /\ (forall i1 i2 i3 p1 p2 p3,
        time_delta = 1 ->
        Feedly.items response = [i1; i2; i3] ->
        Feedly.published i1 = Some p1 -> Feedly.published i2 = Some p2 ->
        Feedly.published i3 = Some p3 ->
        p1 <> 0 -> p2 <> 0 -> p3 <> 0 ->
        age_in_days now p1 = 0 -> age_in_days now p2 = 0 ->
        age_in_days now p3 = 0 ->
        Feedly.engagement i1 = Some 5 -> Feedly.engagement i2 = Some 10 ->
        Feedly.engagement i3 = Some 2 ->
        (get_feed time_delta count kwargs env s).1
        = Return [to_Article i2; to_Article i1; to_Article i3]).
Proof.
  intros Hanswer Hitems Hplausible now. split.
  - by apply get_feed_sorted_window.
  - intros i1 i2 i3 p1 p2 p3 -> Hthree Hp1 Hp2 Hp3 Hz1 Hz2 Hz3 Ha1 Ha2 Ha3
      He1 He2 He3.
    exact (get_feed_scenario count kwargs env s response i1 i2 i3 p1 p2 p3 []
             Hanswer Hplausible Hp1 Hp2 Hp3 Hz1 Hz2 Hz3 Ha1 Ha2 Ha3
             He1 He2 He3 (or_introl Hthree)).
Qed.

Lemma get_feed_spec_witness :
  let env := sample_env (sample_config [] 0 0) mixed_feed [] in
  let s := sample_state "" "" in
  feedly_api env (sent s) = Some (feed_answer mixed_feed)
  /\ Feedly.items (feed_answer mixed_feed) <> []
  /\ Forall plausible (Feedly.items (feed_answer mixed_feed))
  /\ age_in_days sample_now fresh_ms = 0
  /\ age_in_days sample_now day_old_ms = 1
  /\ feed_window sample_now 1 mixed_feed = sample_feed
  /\ (get_feed 1 100 [] env s).1
     = Return [to_Article (story fresh_ms 10 "http://blog.example/b");
               to_Article (story fresh_ms 5 "http://blog.example/a");
               to_Article (story fresh_ms 2 "http://blog.example/c")].
Proof.
  intros env s.
  assert (Hanswer : feedly_api env (sent s) = Some (feed_answer mixed_feed))
    by reflexivity.
  assert (Hitems : Feedly.items (feed_answer mixed_feed) <> [])
    by discriminate.
  assert (Hplausible : Forall plausible (Feedly.items (feed_answer mixed_feed))).
  { repeat constructor; by vm_compute. }
  destruct (proj1 (get_feed_spec 1 100 [] env s _ Hanswer Hitems Hplausible))
    as (articles & Hrun & _).
  split_and!; [done..|by vm_compute|by vm_compute|by vm_compute|].
  rewrite Hrun. revert Hrun. vm_compute. by intros [= <-].
Defined.

(** A story aged exactly one day ends the loop: it is left out, and so is
    the fresh story behind it. *)
Example get_feed_drops_day_old :
  (get_feed 1 100 []
     (sample_env (sample_config [] 0 0)
        (sample_feed ++ [story day_old_ms 99 "http://blog.example/old";
                         story fresh_ms 50 "http://blog.example/late"]) [])
     (sample_state "" "")).1
  = Return [to_Article (story fresh_ms 10 "http://blog.example/b");
            to_Article (story fresh_ms 5 "http://blog.example/a");
            to_Article (story fresh_ms 2 "http://blog.example/c")].
Proof. vm_compute. reflexivity. Qed.

(** A publish time given in microseconds is beyond the year 9999:
    [utcfromtimestamp] raises [ValueError], and so does [get_feed], after
    its request. *)
Example get_feed_far_future_raises :
  let env := sample_env (sample_config [] 0 0)
               [story (fresh_ms * 1000) 5 "http://blog.example/a"] [] in
  get_feed 1 100 [] env (sample_state "" "")
  = (Raised ValueError,
     set_clock_reads 1
       (set_sent [GetFeedlyStream []] (sample_state "" ""))).
Proof. vm_compute. reflexivity. Qed.

(** Beyond the limit the rounding of [published / 1000] shows: what was
    published at 2299-12-31 23:59:59.999 is exactly one day old at
    2300-01-01 23:59:59.999, but comes out one microsecond later and so
    zero days old. *)
Example utcfromtimestamp_rounds :
  let now := {| year := 2300; month := 1; day := 1; hour := 23; minute := 59;
                second := 59; microsecond := 999000 |} in
  age_in_days now 10413791999999 = 1
  /\ match truediv 10413791999999 1000 with
     | Return x => utcfromtimestamp x = Return 10413791999999001
     | _ => False
     end
  /\ delta_days now 10413791999999001 = 0.
Proof. vm_compute. done. Qed.

Lemma randint_range a b env s :
  a <= b ->
  exists v, randint a b env s = (Return v, set_draws (S (draws s)) s)
            /\ a <= v <= b.
Proof.
  intros Hab. unfold randint, randbelow, mbind, M_bind, mret, M_ret.
  eexists. split; [reflexivity|].
  pose proof (Nat.mod_upper_bound (entropy env (draws s)) (Z.to_nat (b - a + 1))).
  lia.
Qed.

Lemma datetime_new_Return y m d hh mm ss env s t s' :
  datetime_new y m d hh mm ss env s = (Return t, s') ->
  s' = s /\ 0 <= hh <= 23
  /\ t = {| year := y; month := m; day := d; hour := hh; minute := mm;
            second := ss; microsecond := 0 |}.
Proof.
  unfold datetime_new.
  destruct (_ && _) eqn:Hok; [|discriminate].
  intros [= <- <-]. repeat (apply andb_prop in Hok as [Hok ?]).
  repeat match goal with H : (_ <=? _) = true |- _ => apply Z.leb_le in H end.
  split_and!; [done|lia..|done].
Qed.

(** *** The time-slot generator *)

Lemma hour_of_timegm t :
  0 <= hour t <= 23 -> 0 <= minute t <= 59 -> 0 <= second t <= 59 ->
  hour_of_timestamp (timegm t) = hour t.
Proof.
  intros Hh Hm Hs. unfold hour_of_timestamp, timegm.
  generalize (ymd2ord (year t) (month t) 1 - EPOCH_ORD + day t - 1).
  intros days. cbv zeta.
  replace (((days * 24 + hour t) * 60 + minute t) * 60 + second t)
    with ((days * 24 + hour t) * 3600 + (minute t * 60 + second t)) by lia.
  rewrite Z.div_add_l, (Z.div_small (_ + _)) by lia.
  rewrite Z.add_0_r, Z.add_comm, Z.mod_add by lia.
  apply Z.mod_small. lia.
Qed.

Lemma posting_times_from_spec today posting_hrs env s timestamps s' :
  0 <= minute today <= 59 -> 0 <= second today <= 59 ->
  0 <= microsecond today <= 999999 ->
  posting_times_from today posting_hrs env s = (Return timestamps, s') ->
  forall t, t ∈ timestamps ->
    (exists configured, configured ∈ posting_hrs
       /\ (hour today <> configured /\ hour_of_timestamp t = configured
           \/ hour today = configured /\ hour_of_timestamp t = configured + 1))
    /\ to_micros today < t * 1000000.
Proof.
  intros Hmin Hsec Hus.
  revert s timestamps s'.
  induction posting_hrs as [|configured rest IH];
    intros s timestamps s' Hrun t Ht.
  - injection Hrun as <- _. by apply elem_of_nil in Ht.
  - cbn [posting_times_from] in Hrun.
    destruct (Z.ltb_spec configured (hour today)) as [Hpast|Hahead].
    + destruct (IH _ _ _ Hrun t Ht) as [(c & Hc & Hhour) Hlater].
      split; [|done]. exists c. split; [apply elem_of_cons; by right|done].
    + apply bind_Return in Hrun as (mm & s1 & Hmm & Hrun).
      apply bind_Return in Hrun as (ss & s2 & Hss & Hrun).
      apply bind_Return in Hrun as (posting_time & s3 & Hnew & Hrun).
      apply bind_Return in Hrun as (later & s4 & Hrest & Hrun).
      injection Hrun as <- _.
      destruct (randint_range 1 59 env s) as (mm' & Hmm' & Hmm_range); [lia|].
      destruct (randint_range 1 59 env s1) as (ss' & Hss' & Hss_range); [lia|].
      rewrite Hmm in Hmm'. injection Hmm' as <- _.
      rewrite Hss in Hss'. injection Hss' as <- _.
      apply datetime_new_Return in Hnew as (_ & Hhour & ->).
      apply elem_of_cons in Ht as [->|Ht].
      * split.
        -- exists configured. split; [apply elem_of_cons; by left|].
           rewrite hour_of_timegm by (simpl; lia). simpl.
           destruct (Z.eqb_spec (hour today) configured); [right|left]; done.
        -- unfold to_micros, timegm. simpl.
           generalize (ymd2ord (year today) (month today) 1). intros ord.
           destruct (Z.eqb_spec (hour today) configured); lia.
      * destruct (IH _ _ _ Hrest t Ht) as [(c & Hc & Hhour') Hlater].
        split; [|done]. exists c. split; [apply elem_of_cons; by right|done].
Qed.

Lemma get_posting_times_unfold env s :
  get_posting_times env s
  = posting_times_from (utcnow_oracle env (clock_reads s))
      (posting_hours (config env)) env (set_clock_reads (S (clock_reads s)) s).
Proof. reflexivity. Qed.

(** C3: every timestamp produced by [get_posting_times] has, as its hour,
    a configured hour, or that hour plus one when it is the current hour,
    and none is earlier than the time of generation. *)
Theorem get_posting_times_spec env s timestamps s' :
  let today := utcnow_oracle env (clock_reads s) in
  valid_datetime today ->
  get_posting_times env s = (Return timestamps, s') ->
  forall t, t ∈ timestamps ->
    (exists configured, configured ∈ posting_hours (config env)
       /\ (hour today <> configured /\ hour_of_timestamp t = configured
           \/ hour today = configured /\ hour_of_timestamp t = configured + 1))
    /\ to_micros today < t * 1000000.
Proof.
  intros today (_ & _ & _ & _ & Hmin & Hsec & Hus) Hrun.
  rewrite get_posting_times_unfold in Hrun.
  by eapply posting_times_from_spec.
Qed.

Lemma get_posting_times_spec_witness :
  let env := sample_env (sample_config [9; 14; 20] 2 1) [] [] in
  let s := sample_state "" "" in
  valid_datetime (utcnow_oracle env (clock_reads s))
  /\ (get_posting_times env s).1 = Return [1709305451; 1709324305]
  /\ forall t, t ∈ [1709305451; 1709324305] ->
       (exists configured, configured ∈ [9; 14; 20]
          /\ (14 <> configured /\ hour_of_timestamp t = configured
              \/ 14 = configured /\ hour_of_timestamp t = configured + 1))
       /\ to_micros sample_now < t * 1000000.
Proof.
  intros env s.
  assert (Hvalid : valid_datetime (utcnow_oracle env (clock_reads s))).
  { vm_compute. intuition discriminate. }
  assert (Hrun : get_posting_times env s
                 = (Return [1709305451; 1709324305],
                    (get_posting_times env s).2)).
  { vm_compute. reflexivity. }
  split_and!; [done|by rewrite Hrun|].
  exact (get_posting_times_spec env s _ _ Hvalid Hrun).
Defined.

Lemma datetime_new_ok y m d hh mm ss env s :
  1 <= y <= 9999 -> 1 <= m <= 12 -> 1 <= d <= days_in_month y m ->
  0 <= hh <= 23 -> 0 <= mm <= 59 -> 0 <= ss <= 59 ->
  datetime_new y m d hh mm ss env s
  = (Return {| year := y; month := m; day := d; hour := hh; minute := mm;
               second := ss; microsecond := 0 |}, s).
Proof.
  intros. unfold datetime_new.
  repeat match goal with
         | |- context [?a <=? ?b] =>
             rewrite (proj2 (Z.leb_le a b)) by lia
         end.
  reflexivity.
Qed.

(** The generator returns unless an hour above 23 is asked for: a
    configured hour above 23 that is not yet past, or hour 23 bumped to 24
    when the run happens during hour 23. *)
Lemma posting_times_from_returns today posting_hrs env s :
  valid_datetime today ->
  (forall configured, configured ∈ posting_hrs -> configured <= 23) ->
  (hour today = 23 -> 23 ∉ posting_hrs) ->
  exists timestamps s',
    posting_times_from today posting_hrs env s = (Return timestamps, s').
Proof.
  intros (Hy & Hm & Hd & Hh & _) Hmax Hbump. revert s.
  induction posting_hrs as [|configured rest IH]; intros s.
  - by eexists _, _.
  - cbn [posting_times_from].
    assert (Hrest : forall c, c ∈ rest -> c <= 23).
    { intros c Hc. apply Hmax, elem_of_cons. by right. }
    assert (Hrest' : hour today = 23 -> 23 ∉ rest).
    { intros H23 Hin. apply (Hbump H23), elem_of_cons. by right. }
    destruct (Z.ltb_spec configured (hour today)) as [Hpast|Hahead];
      [by apply IH|].
    destruct (randint_range 1 59 env s) as (mm & Hmm & Hmm_range); [lia|].
    rewrite (bind_step _ _ _ _ _ _ Hmm).
    destruct (randint_range 1 59 env (set_draws (S (draws s)) s))
      as (ss & Hss & Hss_range); [lia|].
    rewrite (bind_step _ _ _ _ _ _ Hss).
    assert (Hc : configured <= 23).
    { apply Hmax, elem_of_cons. by left. }
    assert (Hne : hour today = configured -> configured <> 23).
    { intros Heq ->. apply (Hbump Heq), elem_of_cons. by left. }
    erewrite bind_step; last first.
    { apply datetime_new_ok; try lia.
      destruct (Z.eqb_spec (hour today) configured); lia. }
    destruct (IH Hrest Hrest' (set_draws (S (draws (set_draws (S (draws s)) s)))
                                 (set_draws (S (draws s)) s)))
      as (later & s' & Hlater).
    rewrite (bind_step _ _ _ _ _ _ Hlater). by eexists _, _.
Qed.

Lemma get_posting_times_returns env s :
  valid_datetime (utcnow_oracle env (clock_reads s)) ->
  (forall configured, configured ∈ posting_hours (config env) ->
                      configured <= 23) ->
  (hour (utcnow_oracle env (clock_reads s)) = 23 ->
   23 ∉ posting_hours (config env)) ->
  exists timestamps s', get_posting_times env s = (Return timestamps, s').
Proof.
  intros. rewrite get_posting_times_unfold.
  by apply posting_times_from_returns.
Qed.

(** *** The post scheduler *)

Lemma schedule_buffer_list status_text ps scheduled env s :
  schedule_buffer status_text (ProfileList ps) scheduled env s
  = (Raised NotImplementedError, s).
Proof. reflexivity. Qed.

(** What the profile lookup does before the timestamp is looked at. *)
Lemma schedule_buffer_profile status_text p scheduled env s :
  (exists e, schedule_buffer status_text (ProfileStr p) scheduled env s
             = (Raised e, s))
  \/ exists profile_id,
       p ∈ ["twitter"; "linkedin"]
       /\ buffer_profiles (config env) !! p = Some profile_id
       /\ schedule_buffer status_text (ProfileStr p) scheduled env s
          = ((if falsy scheduled then mret Now
              else match scheduled with
                   | SchedStr _ => raise NotImplementedError
                   | SchedInt n =>
                       py_assert (len (str n) =? 10);; mret (ScheduledAt n)
                   end) ≫= fun timing =>
             make_request (PostBufferUpdate profile_id status_text timing)
               (fun env log =>
                  buffer_api env log
                    (PostBufferUpdate profile_id status_text timing))) env s.
Proof.
  unfold schedule_buffer.
  rewrite (bind_step ask _ env s env s) by reflexivity.
  unfold py_assert, getkey.
  case_bool_decide as Hp.
  - destruct (buffer_profiles (config env) !! p) as [profile_id|] eqn:Hid.
    + right. exists profile_id. split_and!; [done..|]. reflexivity.
    + left. by exists KeyError.
  - left. by exists AssertionError.
Qed.

Lemma schedule_buffer_no_exit status_text profile scheduled env s code s' :
  schedule_buffer status_text profile scheduled env s <> (SysExit code, s').
Proof.
  destruct profile as [p|ps]; [|by rewrite schedule_buffer_list].
  destruct (schedule_buffer_profile status_text p scheduled env s)
    as [[e ->]|(profile_id & _ & _ & ->)]; [done|].
  unfold mbind, M_bind, make_request, py_assert, raise, mret, M_ret.
  destruct (falsy scheduled).
  - by destruct (buffer_api _ _ _).
  - destruct scheduled as [n|text]; [|done].
    destruct (len (str n) =? 10); [|done].
    by destruct (buffer_api _ _ _).
Qed.

(** C9, as amended: [schedule_buffer] raises before any network call, with
    [NotImplementedError] for a list of profiles, and, for a profile name,
    when the timestamp is a non-zero integer whose [str] is not 10
    characters long or a non-empty string; with a profile that resolves,
    the first is an [AssertionError], the second a
    [NotImplementedError]. *)
Theorem schedule_buffer_rejects status_text env s :
  (forall ps scheduled,
     schedule_buffer status_text (ProfileList ps) scheduled env s
     = (Raised NotImplementedError, s))
  /\ (forall p n, n <> 0 -> len (str n) <> 10 ->
        exists e,
          schedule_buffer status_text (ProfileStr p) (SchedInt n) env s
          = (Raised e, s)
          /\ (p ∈ ["twitter"; "linkedin"] ->
              is_Some (buffer_profiles (config env) !! p) ->
              e = AssertionError))
  /\ (forall p text, text <> "" ->
        exists e,
          schedule_buffer status_text (ProfileStr p) (SchedStr text) env s
          = (Raised e, s)
          /\ (p ∈ ["twitter"; "linkedin"] ->
              is_Some (buffer_profiles (config env) !! p) ->
              e = NotImplementedError)).
Proof.
  split_and!.
  - intros. apply schedule_buffer_list.
  - intros p n Hnz Hlen.
    destruct (schedule_buffer_profile status_text p (SchedInt n) env s)
      as [[e He]|(profile_id & Hp & Hid & ->)].
    + exists e. split; [done|]. intros Hp [profile_id Hid].
      revert He. unfold schedule_buffer.
      rewrite (bind_step ask _ env s env s) by reflexivity.
      unfold py_assert, getkey. rewrite bool_decide_eq_true_2, Hid by done.
      unfold mbind, M_bind, mret, M_ret, raise. cbn [falsy].
      rewrite (proj2 (Z.eqb_neq _ _) Hnz), (proj2 (Z.eqb_neq _ _) Hlen).
      by intros [= <-].
    + exists AssertionError. split; [|done].
      unfold mbind, M_bind, py_assert, raise. cbn [falsy].
      by rewrite (proj2 (Z.eqb_neq _ _) Hnz), (proj2 (Z.eqb_neq _ _) Hlen).
  - intros p text Htext.
    assert (Hfalsy : falsy (SchedStr text) = false).
    { cbn [falsy]. by apply String.eqb_neq. }
    destruct (schedule_buffer_profile status_text p (SchedStr text) env s)
      as [[e He]|(profile_id & Hp & Hid & ->)].
    + exists e. split; [done|]. intros Hp [profile_id Hid].
      revert He. unfold schedule_buffer.
      rewrite (bind_step ask _ env s env s) by reflexivity.
      unfold py_assert, getkey. rewrite bool_decide_eq_true_2, Hid by done.
      unfold mbind, M_bind, mret, M_ret, raise. rewrite Hfalsy.
      by intros [= <-].
    + exists NotImplementedError. split; [|done].
      unfold mbind, M_bind, raise. by rewrite Hfalsy.
Qed.

Lemma schedule_buffer_rejects_witness :
  let env := sample_env (sample_config [] 0 0) [] [] in
  let s := sample_state "" "" in
  schedule_buffer "A story" (ProfileList ["twitter"; "linkedin"])
    (SchedInt 1709305451) env s
  = (Raised NotImplementedError, s)
  /\ schedule_buffer "A story" (ProfileStr "twitter") (SchedInt 1709305451000)
       env s
     = (Raised AssertionError, s)
  /\ schedule_buffer "A story" (ProfileStr "twitter") (SchedStr "tomorrow")
       env s
     = (Raised NotImplementedError, s).
Proof.
  intros env s.
  destruct (schedule_buffer_rejects "A story" env s) as (Hlist & Hint & Hstr).
  split_and!.
  - apply Hlist.
  - destruct (Hint "twitter" 1709305451000) as (e & -> & He);
      [discriminate..|].
    rewrite He; [done|set_solver|by eexists].
  - destruct (Hstr "twitter" "tomorrow") as (e & -> & He); [discriminate|].
    rewrite He; [done|set_solver|by eexists].
Defined.

(** C9, as stated, fails: the integer timestamp [0], whose decimal form has
    one digit, is sent as a post for now, and so is the empty string. *)
Lemma schedule_buffer_zero_posts_now :
  let env := sample_env (sample_config [] 0 0) [] [] in
  let s := sample_state "" "" in
  len (str 0) = 1
  /\ schedule_buffer "A story" (ProfileStr "twitter") (SchedInt 0) env s
     = (Return accepted, set_sent [PostBufferUpdate "5d1a" "A story" Now] s)
  /\ schedule_buffer "A story" (ProfileStr "twitter") (SchedStr "") env s
     = (Return accepted, set_sent [PostBufferUpdate "5d1a" "A story" Now] s).
Proof. vm_compute. done. Qed.

(** *** The pairing of slots and candidates *)

(** The loop body never calls [sys.exit]. *)
Lemma schedule_posts_no_exit posting_times to_schedule index posted env s code s' :
  schedule_posts index posting_times to_schedule posted env s
  <> (SysExit code, s').
Proof.
  revert index posted s.
  induction posting_times as [|i later IH]; intros index posted s; [done|].
  cbn [schedule_posts]. unfold getitem.
  destruct (to_schedule !! index) as [item|]; [|done].
  rewrite (bind_step (mret item) _ env s item s) by reflexivity.
  rewrite (bind_step (print _) _ env s tt _) by reflexivity.
  unfold mbind at 1. unfold M_bind.
  destruct (schedule_buffer _ _ _ env _) as [[tweet|code'|e] s1] eqn:Hsend;
    [|by apply schedule_buffer_no_exit in Hsend|done].
  unfold getfield.
  destruct (Buffer.success tweet) as [[]|]; [| |done].
  - unfold mbind, M_bind, mret, M_ret, print, sleep. apply IH.
  - destruct (Buffer.message tweet) as [msg|]; [|done].
    unfold mbind, M_bind, mret, M_ret, print, sleep. apply IH.
Qed.

Lemma schedule_posts_from_overrun posting_times to_schedule index posted env s :
  (index <= length to_schedule)%nat ->
  (length to_schedule < index + length posting_times)%nat ->
  exists e s',
    schedule_posts index posting_times to_schedule posted env s
    = (Raised e, s').
Proof.
  revert index posted s.
  induction posting_times as [|i later IH]; intros index posted s Hle Hlen.
  - simpl in Hlen. lia.
  - destruct (to_schedule !! index) as [item|] eqn:Hitem.
    + destruct (schedule_posts index (i :: later) to_schedule posted env s)
        as [[posted'|code|e] s'] eqn:Hrun.
      * exfalso. cbn [schedule_posts] in Hrun.
        apply bind_Return in Hrun as (item' & s1 & _ & Hrun).
        apply bind_Return in Hrun as ([] & s2 & _ & Hrun).
        apply bind_Return in Hrun as (tweet & s3 & _ & Hrun).
        apply bind_Return in Hrun as (ok & s4 & _ & Hrun).
        apply bind_Return in Hrun as (posted1 & s5 & _ & Hrun).
        apply bind_Return in Hrun as ([] & s6 & _ & Hrun).
        apply lookup_lt_Some in Hitem.
        destruct (IH (S index) posted1 s6) as (e & s7 & He);
          [lia|simpl in Hlen; lia|congruence].
      * by apply schedule_posts_no_exit in Hrun.
      * by eexists _, _.
    + exists IndexError, s. cbn [schedule_posts]. unfold getitem.
      by rewrite Hitem.
Qed.

(** C1, on the code: when there are more time slots than candidates, the
    pairing loop of [main] does not leave the excess slots unused; it
    cannot finish and raises. *)
Theorem schedule_posts_overrun posting_times to_schedule posted env s :
  (length to_schedule < length posting_times)%nat ->
  exists e s',
    schedule_posts 0 posting_times to_schedule posted env s = (Raised e, s').
Proof.
  intros Hlen. apply schedule_posts_from_overrun; lia.
Qed.

(** With one candidate for two slots, the first slot is scheduled and the
    second raises [IndexError]. *)
Lemma schedule_posts_overrun_witness :
  let env := sample_env (sample_config [] 0 0) [] [] in
  let s := sample_state "" "" in
  (length lone_post < length two_slots)%nat
  /\ (exists e s',
        schedule_posts 0 two_slots lone_post [] env s
        = (Raised e, s'))
  /\ (schedule_posts 0 two_slots lone_post [] env s).1
     = Raised IndexError
  /\ sent (schedule_posts 0 two_slots lone_post [] env s).2
     = [PostBufferUpdate "5d1a" "One http://site.example/news/one"
          (ScheduledAt 1709305451)].
Proof.
  intros env s.
  assert (Hlen : (length lone_post < length two_slots)%nat)
    by (simpl; lia).
  split_and!; [done| |vm_compute; reflexivity..].
  exact (schedule_posts_overrun two_slots lone_post []
           env s Hlen).
Defined.

(** The same through [main]: the run raises [IndexError] after the first
    post was scheduled, and neither state file is written. *)
Example main_overrun :
  let s := sample_state "2024-02-29" "" in
  (main short_env s).1 = Raised IndexError
  /\ filter (fun r => is_schedule r) (sent (main short_env s).2)
     = [PostBufferUpdate "5d1a" "A story http://blog.example/a"
          (ScheduledAt 1709305451)]
  /\ posted_txt (main short_env s).2 = posted_txt s
  /\ done_today_txt (main short_env s).2 = done_today_txt s.
Proof. vm_compute. done. Qed.

(** *** Texts: [split], [strip] and the reading of lines *)

Lemma isspace_false_eqb c c' :
  isspace c = false -> isspace c' = true -> Ascii.eqb c c' = false.
Proof.
  intros Hc Hc'. destruct (Ascii.eqb_spec c c') as [->|]; congruence.
Qed.

Lemma all_chars_app p a b :
  all_chars p (a +:+ b) = all_chars p a && all_chars p b.
Proof.
  induction a as [|c a IH]; simpl; [done|]. by rewrite IH, andb_assoc.
Qed.

Lemma all_chars_impl (p q : ascii -> bool) s :
  (forall c, p c = true -> q c = true) ->
  all_chars p s = true -> all_chars q s = true.
Proof.
  intros Hpq. induction s as [|c s IH]; simpl; [done|].
  intros [Hc Hs]%andb_prop. by rewrite (Hpq c Hc), IH.
Qed.

Lemma split_head sep a b :
  all_chars (fun c => negb (Ascii.eqb c sep)) a = true ->
  split sep (a +:+ String sep b) = a :: split sep b.
Proof.
  induction a as [|c a IH]; simpl.
  - intros _. by rewrite Ascii.eqb_refl.
  - intros [Hc Ha]%andb_prop. apply negb_true_iff in Hc.
    by rewrite Hc, (IH Ha).
Qed.

Lemma translate_newlines_plain after_cr s :
  no_whitespace s -> translate_newlines after_cr s = s.
Proof.
  unfold no_whitespace. revert after_cr.
  induction s as [|c s IH]; intros after_cr; simpl; [done|].
  intros [Hc Hs]%andb_prop. apply negb_true_iff in Hc.
  rewrite (isspace_false_eqb c CR), (isspace_false_eqb c LF) by done.
  by rewrite IH.
Qed.

Lemma lstrip_plain s : no_whitespace s -> lstrip s = s.
Proof.
  unfold no_whitespace. destruct s as [|c s]; simpl; [done|].
  intros [Hc _]%andb_prop. apply negb_true_iff in Hc. by rewrite Hc.
Qed.

Lemma rstrip_plain s : no_whitespace s -> rstrip s = s.
Proof.
  unfold no_whitespace. induction s as [|c s IH]; simpl; [done|].
  intros [Hc Hs]%andb_prop. apply negb_true_iff in Hc.
  rewrite (IH Hs), Hc. by destruct s.
Qed.

Lemma strip_plain s : no_whitespace s -> strip s = s.
Proof.
  intros Hs. unfold strip. by rewrite rstrip_plain, lstrip_plain.
Qed.

(** A line read back: the terminator goes, the text stays. *)
Lemma rstrip_line s : no_whitespace s -> rstrip (s +:+ String LF "") = s.
Proof.
  unfold no_whitespace. induction s as [|c s IH]; simpl; [done|].
  intros [Hc Hs]%andb_prop. apply negb_true_iff in Hc.
  rewrite (IH Hs), Hc. by destruct s.
Qed.

Lemma strip_line s : no_whitespace s -> strip (s +:+ String LF "") = s.
Proof.
  intros Hs. unfold strip. by rewrite rstrip_line, lstrip_plain.
Qed.

Lemma isspace_digit n : isspace (digit n) = false.
Proof.
  unfold digit.
  repeat match goal with
         | |- context [match ?x with _ => _ end] => destruct x
         end; reflexivity.
Qed.

Lemma no_whitespace_strftime_date t : no_whitespace (strftime_date t).
Proof.
  unfold no_whitespace, strftime_date, pad4, pad2. simpl.
  by rewrite !isspace_digit.
Qed.

Lemma split_strftime t :
  split " " (strftime t) !! 0%nat = Some (strftime_date t).
Proof.
  unfold strftime.
  change (" " +:+ strftime_time t) with (String " " (strftime_time t)).
  rewrite split_head; [done|].
  eapply all_chars_impl; [|apply no_whitespace_strftime_date].
  intros c Hc. apply negb_true_iff in Hc. apply negb_true_iff.
  by apply isspace_false_eqb.
Qed.

Lemma marker_round_trip t :
  strip (read (strftime_date t)) = strftime_date t.
Proof.
  unfold read, universal_newlines.
  rewrite translate_newlines_plain by apply no_whitespace_strftime_date.
  apply strip_plain, no_whitespace_strftime_date.
Qed.

Lemma translate_newlines_line after_cr a b :
  translate_newlines after_cr (a +:+ String LF b)
  = translate_newlines after_cr (a +:+ String LF "")
    +:+ translate_newlines false b.
Proof.
  revert after_cr. induction a as [|c a IH]; intros after_cr; simpl.
  - by destruct after_cr.
  - destruct (Ascii.eqb c CR); [by rewrite IH|].
    destruct (Ascii.eqb c LF); [destruct after_cr|]; by rewrite IH.
Qed.

Lemma translate_newlines_ends after_cr a :
  after_cr = false \/ a <> "" ->
  exists x, translate_newlines after_cr (a +:+ String LF "")
            = x +:+ String LF "".
Proof.
  revert after_cr. induction a as [|c a IH]; intros after_cr Hstart; simpl.
  - destruct Hstart as [->|]; [by exists ""|done].
  - destruct (Ascii.eqb c CR).
    + destruct a as [|c' a]; [by exists ""|].
      destruct (IH true) as [x Hx]; [by right|].
      exists (String LF x). by rewrite Hx.
    + destruct (IH false) as [x Hx]; [by left|].
      destruct (Ascii.eqb c LF); [destruct after_cr|].
      * by exists x.
      * exists (String LF x). by rewrite Hx.
      * exists (String c x). by rewrite Hx.
Qed.

Lemma translate_newlines_plain_line u :
  no_whitespace u ->
  translate_newlines false (u +:+ String LF "") = u +:+ String LF "".
Proof.
  unfold no_whitespace. induction u as [|c u IH]; simpl; [done|].
  intros [Hc Hu]%andb_prop. apply negb_true_iff in Hc.
  rewrite (isspace_false_eqb c CR), (isspace_false_eqb c LF) by done.
  by rewrite IH.
Qed.

Lemma splitlines_keep_nonempty x :
  splitlines_keep (x +:+ String LF "") <> [].
Proof.
  destruct x as [|c x]; simpl; [done|].
  destruct (Ascii.eqb c LF); [done|].
  by destruct (splitlines_keep (x +:+ String LF "")).
Qed.

Lemma splitlines_keep_line x y :
  splitlines_keep ((x +:+ String LF "") +:+ y)
  = splitlines_keep (x +:+ String LF "") ++ splitlines_keep y.
Proof.
  induction x as [|c x IH]; simpl.
  - reflexivity.
  - destruct (Ascii.eqb c LF); [by rewrite IH|].
    rewrite IH. pose proof (splitlines_keep_nonempty x).
    by destruct (splitlines_keep (x +:+ String LF "")).
Qed.

Lemma splitlines_keep_plain_line u :
  no_whitespace u ->
  splitlines_keep (u +:+ String LF "") = [u +:+ String LF ""].
Proof.
  unfold no_whitespace. induction u as [|c u IH]; simpl.
  - reflexivity.
  - intros [Hc Hu]%andb_prop. apply negb_true_iff in Hc.
    by rewrite (isspace_false_eqb c LF), (IH Hu) by done.
Qed.

(** *** The history file *)

Lemma load_posted_dump_cons i history :
  load_posted (dump_posted (i :: history))
  = load_posted (str_opt i +:+ String LF "")
    ++ load_posted (dump_posted history).
Proof.
  unfold load_posted, readlines, universal_newlines. cbn [dump_posted foldr].
  change (String LF "" +:+ ?t) with (String LF t).
  rewrite translate_newlines_line.
  destruct (translate_newlines_ends false (str_opt i)) as [x ->]; [by left|].
  by rewrite splitlines_keep_line, map_app.
Qed.

Lemma load_posted_plain_line u :
  no_whitespace u -> load_posted (u +:+ String LF "") = [Some u].
Proof.
  intros Hu. unfold load_posted, readlines, universal_newlines.
  rewrite translate_newlines_plain_line, splitlines_keep_plain_line by done.
  simpl. by rewrite strip_line.
Qed.

(** A URL without whitespace that is in the history when it is written is
    in the history that the next run loads. *)
Lemma load_posted_dump_elem history u :
  Some u ∈ history -> no_whitespace u ->
  Some u ∈ load_posted (dump_posted history).
Proof.
  intros Hin Hu. induction history as [|i history IH].
  - by apply elem_of_nil in Hin.
  - rewrite load_posted_dump_cons. apply elem_of_app.
    apply elem_of_cons in Hin as [<-|Hin].
    + left. simpl. rewrite load_posted_plain_line by done.
      apply elem_of_cons. by left.
    + right. by apply IH.
Qed.

(** X1: a history of URLs without whitespace, written to [posted.txt]
    as at the end of [main] and read back as at its start, gives back the
    very list. *)
Lemma load_posted_dump history :
  Forall (fun i => exists u, i = Some u /\ no_whitespace u) history ->
  load_posted (dump_posted history) = history.
Proof.
  induction 1 as [|i history (u & -> & Hu) _ IH]; [done|].
  rewrite load_posted_dump_cons, IH. simpl.
  by rewrite load_posted_plain_line.
Qed.

(** The loop only appends to the history, and what it appends are URLs of
    candidates. *)
Lemma schedule_posts_appends posting_times to_schedule index posted env s
    posted' s' :
  schedule_posts index posting_times to_schedule posted env s
  = (Return posted', s') ->
  exists added,
    posted' = posted ++ added
    /\ forall u, u ∈ added -> exists item, item ∈ to_schedule /\ u = url item.
Proof.
  revert index posted s.
  induction posting_times as [|i later IH]; intros index posted s Hrun.
  - injection Hrun as <- _. exists []. split; [by rewrite app_nil_r|].
    by intros u ?%elem_of_nil.
  - cbn [schedule_posts] in Hrun.
    apply bind_Return in Hrun as (item & s1 & Hitem & Hrun).
    apply bind_Return in Hrun as ([] & s2 & _ & Hrun).
    apply bind_Return in Hrun as (tweet & s3 & _ & Hrun).
    apply bind_Return in Hrun as (ok & s4 & _ & Hrun).
    apply bind_Return in Hrun as (posted1 & s5 & Hposted1 & Hrun).
    apply bind_Return in Hrun as ([] & s6 & _ & Hrun).
    apply IH in Hrun as (added & -> & Hadded).
    assert (Hin : item ∈ to_schedule).
    { unfold getitem in Hitem.
      destruct (to_schedule !! index) as [item'|] eqn:Hlookup; [|done].
      injection Hitem as <- _. by eapply list_elem_of_lookup_2. }
    destruct ok.
    + apply bind_Return in Hposted1 as ([] & s7 & _ & Hposted1).
      injection Hposted1 as <- _.
      exists (url item :: added). split; [by rewrite <- app_assoc|].
      intros u [->|Hu]%elem_of_cons; eauto.
    + apply bind_Return in Hposted1 as ([] & s7 & _ & Hposted1).
      apply bind_Return in Hposted1 as (msg & s8 & _ & Hposted1).
      apply bind_Return in Hposted1 as ([] & s9 & _ & Hposted1).
      apply bind_Return in Hposted1 as ([] & s10 & _ & Hposted1).
      injection Hposted1 as <- _. by exists added.
Qed.

(** *** The orchestrator *)

Ltac step := erewrite bind_step by reflexivity.

Lemma sum_values_two_sources feedly clicky :
  sum_values {[ "feedly" := feedly; "clicky" := clicky ]} = feedly + clicky.
Proof.
  unfold sum_values.
  rewrite map_fold_insert_L; [|intros; lia|done].
  rewrite <- insert_empty, map_fold_insert_L; [|intros; lia|done].
  rewrite map_fold_empty. lia.
Qed.

(** [main] up to the marker check, when called without an argument. *)
Lemma main_cycle env s content :
  length (argv env) <> 2%nat ->
  done_today_txt s = Some content ->
  let now := utcnow_oracle env (clock_reads s) in
  main env s
  = if String.eqb (strip (read content)) (strftime_date now)
    then (SysExit 0,
          set_stdout (stdout (at_marker_check now s)
                      ++ ["Already scheduled today! Exiting..."])
            (at_marker_check now s))
    else schedule_cycle now env (at_marker_check now s).
Proof.
  intros Hargs Hmarker now. unfold main.
  step. cbv zeta. rewrite bool_decide_eq_false_2 by done.
  step. step.
  erewrite bind_step; last first.
  { unfold open_read. cbn [done_today_txt set_stdout set_clock_reads].
    rewrite Hmarker. reflexivity. }
  erewrite bind_step; last first.
  { unfold getitem. rewrite split_strftime. reflexivity. }
  fold now. destruct (String.eqb _ _); reflexivity.
Qed.

Lemma main_no_marker_file env s :
  length (argv env) <> 2%nat ->
  done_today_txt s = None ->
  main env s
  = (Raised FileNotFoundError,
     at_marker_check (utcnow_oracle env (clock_reads s)) s).
Proof.
  intros Hargs Hmarker. unfold main.
  step. cbv zeta. rewrite bool_decide_eq_false_2 by done.
  step. step.
  erewrite bind_raise; [reflexivity|].
  unfold open_read. cbn [done_today_txt set_stdout set_clock_reads].
  by rewrite Hmarker.
Qed.

(** Called with one argument, [main] ends in [sys.exit] or raises. *)
Lemma main_with_argument env s s' :
  length (argv env) = 2%nat -> main env s <> (Return tt, s').
Proof.
  intros Hargs Hrun. unfold main in Hrun.
  apply bind_Return in Hrun as (env' & s1 & [= <- <-] & Hrun).
  cbv zeta in Hrun. rewrite bool_decide_eq_true_2 in Hrun by done.
  apply bind_Return in Hrun as (arg & s1 & _ & Hrun).
  destruct (String.eqb arg "streams");
    by apply bind_Return in Hrun as ([] & s2 & _ & Hrun).
Qed.

Lemma main_Return env s s' :
  main env s = (Return tt, s') ->
  let now := utcnow_oracle env (clock_reads s) in
  length (argv env) <> 2%nat
  /\ marker_is now s = false
  /\ schedule_cycle now env (at_marker_check now s) = (Return tt, s').
Proof.
  intros Hrun now.
  destruct (decide (length (argv env) = 2%nat)) as [Hargs|Hargs];
    [by apply main_with_argument in Hrun|].
  split; [done|]. unfold marker_is.
  destruct (done_today_txt s) as [content|] eqn:Hmarker.
  - rewrite (main_cycle _ _ _ Hargs Hmarker) in Hrun. fold now in Hrun.
    by destruct (String.eqb _ _).
  - by rewrite (main_no_marker_file _ _ Hargs Hmarker) in Hrun.
Qed.

(** A write that returns has put the text into the file. *)
Lemma open_write_Return name set text env s s' :
  open_write name set text env s = (Return tt, s') ->
  disk_fault env name = None /\ s' = set (Some text) s.
Proof.
  unfold open_write.
  destruct (disk_fault env name) as [[|written]|]; [done..|].
  by intros [= <-].
Qed.

(** What a cycle that completes has done. *)
Lemma schedule_cycle_Return now env s s' :
  schedule_cycle now env s = (Return tt, s') ->
  exists content posting_times to_schedule history sa sb,
    schedule_posts 0 posting_times to_schedule (load_posted content) env sa
    = (Return history, sb)
    /\ s' = set_done_today (Some (strftime_date now))
              (set_posted (Some (dump_posted history)) sb).
Proof.
  intros Hrun. unfold schedule_cycle in Hrun.
  apply bind_Return in Hrun as (env' & s0 & [= <- <-] & Hrun).
  apply bind_Return in Hrun as (feedly_count & s1 & _ & Hrun).
  apply bind_Return in Hrun as (clicky_count & s2 & _ & Hrun).
  apply bind_Return in Hrun as ([] & s3 & _ & Hrun).
  apply bind_Return in Hrun as (feedly & s4 & _ & Hrun).
  apply bind_Return in Hrun as (clicky & s5 & _ & Hrun).
  apply bind_Return in Hrun as (content & s6 & _ & Hrun).
  apply bind_Return in Hrun as (posting_times & s7 & _ & Hrun).
  apply bind_Return in Hrun as (to_schedule & s8 & _ & Hrun).
  apply bind_Return in Hrun as (history & s9 & Hloop & Hrun).
  apply bind_Return in Hrun as ([] & s10 & [_ ->]%open_write_Return & Hrun).
  apply bind_Return in Hrun as (today & s11 & Htoday & Hrun).
  unfold getitem in Htoday. rewrite split_strftime in Htoday.
  injection Htoday as <- <-. apply open_write_Return in Hrun as [_ ->].
  by eexists content, posting_times, to_schedule, history, s8, s9.
Qed.

(** A run that completes leaves the date of its start in the marker. *)
Lemma main_Return_marker env s s' :
  main env s = (Return tt, s') ->
  done_today_txt s'
  = Some (strftime_date (utcnow_oracle env (clock_reads s))).
Proof.
  intros (_ & _ & Hcycle)%main_Return.
  by apply schedule_cycle_Return in Hcycle as (? & ? & ? & ? & ? & ? & _ & ->).
Qed.

(** C6, as amended: in a run without argument whose marker is not today's
    date, if the number of posting hours differs from the sum of the
    counts of the [articles] table, [main] raises before any request is
    sent; the exception is the [AssertionError] when the marker file and
    both counts exist. *)
Theorem main_rejects_hour_mismatch env s :
  let now := utcnow_oracle env (clock_reads s) in
  length (argv env) <> 2%nat ->
  marker_is now s = false ->
  Z.of_nat (length (posting_hours (config env)))
  <> sum_values (articles (config env)) ->
  exists e s',
    main env s = (Raised e, s') /\ sent s' = sent s
    /\ (is_Some (done_today_txt s) ->
        is_Some (articles (config env) !! "feedly") ->
        is_Some (articles (config env) !! "clicky") ->
        e = AssertionError).
Proof.
  intros now Hargs Hmarker Hcount. unfold marker_is in Hmarker.
  destruct (done_today_txt s) as [content|] eqn:Hfile.
  - rewrite (main_cycle _ _ _ Hargs Hfile). fold now. rewrite Hmarker.
    unfold schedule_cycle. step. unfold getkey.
    destruct (articles (config env) !! "feedly") as [feedly_count|].
    + step. destruct (articles (config env) !! "clicky") as [clicky_count|].
      * step. apply Z.eqb_neq in Hcount. rewrite Hcount.
        by eexists AssertionError, _.
      * eexists KeyError, _. split_and!; [done..|]. by intros _ _ [].
    + eexists KeyError, _. split_and!; [done..|]. by intros _ [].
  - rewrite (main_no_marker_file _ _ Hargs Hfile).
    eexists _, _. split_and!; [done..|]. by intros [].
Qed.

Lemma main_rejects_hour_mismatch_witness :
  let s := sample_state "2024-02-29" "" in
  length (argv mismatched_env) <> 2%nat
  /\ marker_is sample_now s = false
  /\ Z.of_nat (length (posting_hours (config mismatched_env))) <> 2 + 1
  /\ (main mismatched_env s).1 = Raised AssertionError
  /\ sent (main mismatched_env s).2 = [].
Proof.
  intros s.
  assert (Hargs : length (argv mismatched_env) <> 2%nat) by discriminate.
  assert (Hmarker : marker_is sample_now s = false) by reflexivity.
  assert (Hcount : Z.of_nat (length (posting_hours (config mismatched_env)))
                   <> sum_values (articles (config mismatched_env))).
  { cbn [mismatched_env sample_env sample_config config articles].
    rewrite sum_values_two_sources. discriminate. }
  destruct (main_rejects_hour_mismatch mismatched_env s Hargs Hmarker Hcount)
    as (e & s' & Hrun & Hsent & He).
  rewrite Hrun. cbn [fst snd]. rewrite Hsent.
  rewrite He by (by eexists). split_and!; done.
Defined.

(** C6, as stated, fails: with two posting hours for three articles and a
    marker that is today's date, the run does not fail; it exits with
    code 0. *)
Lemma main_mismatch_already_ran_exits :
  let s := sample_state "2024-03-01" "" in
  Z.of_nat (length (posting_hours (config mismatched_env))) <> 2 + 1
  /\ (main mismatched_env s).1 = SysExit 0.
Proof. vm_compute. split; [discriminate|reflexivity]. Qed.

(** C7, as amended: a run without argument whose marker is today's date
    exits with code 0 and sends no request; this is so in particular for a
    run that starts on the date on which an earlier run that completed had
    started. *)
Theorem main_idempotent env s :
  let now := utcnow_oracle env (clock_reads s) in
  length (argv env) <> 2%nat ->
  (marker_is now s = true
   \/ exists env0 s0 s0',
        main env0 s0 = (Return tt, s0')
        /\ done_today_txt s = done_today_txt s0'
        /\ strftime_date now
           = strftime_date (utcnow_oracle env0 (clock_reads s0))) ->
  exists s',
    main env s = (SysExit 0, s') /\ sent s' = sent s
    /\ posted_txt s' = posted_txt s /\ done_today_txt s' = done_today_txt s.
Proof.
  intros now Hargs Hmarker.
  assert (Htoday : marker_is now s = true).
  { destruct Hmarker as [|(env0 & s0 & s0' & Hrun & Hfile & Hdate)]; [done|].
    unfold marker_is.
    rewrite Hfile, (main_Return_marker _ _ _ Hrun), <- Hdate.
    rewrite marker_round_trip. apply String.eqb_refl. }
  unfold marker_is in Htoday.
  destruct (done_today_txt s) as [content|] eqn:Hfile; [|done].
  rewrite (main_cycle _ _ _ Hargs Hfile). fold now. rewrite Htoday.
  by eexists.
Qed.

Lemma main_idempotent_witness :
  let first := main ordinary_env (sample_state "2024-02-29" "") in
  let second := main ordinary_env first.2 in
  first.1 = Return tt
  /\ second.1 = SysExit 0
  /\ sent second.2 = sent first.2.
Proof.
  intros first second.
  assert (Hfirst : main ordinary_env (sample_state "2024-02-29" "")
                   = (Return tt, first.2)).
  { vm_compute. reflexivity. }
  destruct (main_idempotent ordinary_env first.2) as (s' & Hrun & Hsent & _).
  - discriminate.
  - right. eexists _, _, _. split_and!; [exact Hfirst|reflexivity..].
  - split_and!; [vm_compute; reflexivity| |].
    + unfold second. by rewrite Hrun.
    + unfold second. by rewrite Hrun.
Defined.

(** C7, as stated, fails: on a day on which Feedly answers without items,
    the first run fetches and exits with code 1 without writing the marker,
    and a second run on the same date fetches again. *)
Lemma main_twice_fetches_twice :
  let first := main empty_feed_env (sample_state "2024-02-29" "") in
  let second := main empty_feed_env first.2 in
  first.1 = SysExit 1
  /\ second.1 = SysExit 1
  /\ utcnow_oracle empty_feed_env (clock_reads first.2)
     = utcnow_oracle empty_feed_env 0
  /\ filter (fun r => is_fetch r) (sent first.2) = [GetFeedlyStream []]
  /\ filter (fun r => is_fetch r) (sent second.2)
     = [GetFeedlyStream []; GetFeedlyStream []].
Proof. vm_compute. done. Qed.

(** ** Further properties of the functions *)

(** *** [check_posted] *)

(** X2: [check_posted] returns the first [count] candidates whose URL is not
    in the history, in their order: it fills its quota whenever that many
    are there, and returns fewer only when they run out. *)
Theorem check_posted_first_fresh {A} `{Candidate A} (source : list A) count
    posted :
  0 <= count ->
  check_posted source count posted
  = take (Z.to_nat count) (filter (fun i => url i ∉ posted) source)
  /\ Z.of_nat (length (check_posted source count posted))
     = Z.min count
         (Z.of_nat (length (filter (fun i => url i ∉ posted) source))).
Proof.
  intros Hcount. unfold check_posted.
  rewrite check_posted_from_take by done. rewrite Z.sub_0_r.
  split; [done|]. rewrite length_take. lia.
Qed.

Lemma check_posted_first_fresh_witness :
  0 <= 2
  /\ check_posted sample_candidates 2 sample_history
     = [CArticle.make "One" "http://site.example/news/one";
        CArticle.make "Three" "http://site.example/news/three"]
  /\ check_posted sample_candidates 5 sample_history
     = [CArticle.make "One" "http://site.example/news/one";
        CArticle.make "Three" "http://site.example/news/three"].
Proof.
  split; [lia|]. split.
  - rewrite (proj1 (check_posted_first_fresh sample_candidates 2
                      sample_history ltac:(lia))).
    reflexivity.
  - rewrite (proj1 (check_posted_first_fresh sample_candidates 5
                      sample_history ltac:(lia))).
    reflexivity.
Defined.

(** X3: with a negative [count] the test [added == count] never holds, and
    [check_posted] returns every candidate that is not in the history. *)
Theorem check_posted_negative_count {A} `{Candidate A} (source : list A)
    count posted :
  count < 0 ->
  check_posted source count posted
  = filter (fun i => url i ∉ posted) source.
Proof.
  intros Hcount. unfold check_posted.
  apply check_posted_from_unbounded. lia.
Qed.

Lemma check_posted_negative_count_witness :
  -1 < 0
  /\ check_posted sample_candidates (-1) sample_history
     = [CArticle.make "One" "http://site.example/news/one";
        CArticle.make "Three" "http://site.example/news/three"].
Proof.
  split; [lia|].
  rewrite (check_posted_negative_count sample_candidates (-1) sample_history)
    by lia.
  reflexivity.
Defined.

(** *** [get_feed] *)

(** X4: an answer without items ends the run with exit code 1, whether or not
    it carries an error code, after the one request and without reading
    the clock or touching a state file. *)
Theorem get_feed_empty_answer time_delta count kwargs env s response :
  feedly_api env (sent s) = Some response ->
  Feedly.items response = [] ->
  exists s',
    get_feed time_delta count kwargs env s = (SysExit 1, s')
    /\ sent s' = sent s ++ [GetFeedlyStream kwargs]
    /\ clock_reads s' = clock_reads s
    /\ done_today_txt s' = done_today_txt s
    /\ posted_txt s' = posted_txt s.
Proof.
  intros Hanswer Hitems.
  unfold get_feed, make_request, mbind, M_bind. rewrite Hanswer.
  cbv beta iota zeta. rewrite Hitems.
  destruct (Feedly.errorCode response) as [code|];
    [destruct (code =? 0)|]; by eexists.
Qed.

Lemma get_feed_empty_answer_witness :
  let s := sample_state "2024-02-29" "" in
  feedly_api empty_feed_env (sent s) = Some (feed_answer [])
  /\ (get_feed 1 100 [] empty_feed_env s).1 = SysExit 1
  /\ sent (get_feed 1 100 [] empty_feed_env s).2 = [GetFeedlyStream []].
Proof.
  intros s.
  destruct (get_feed_empty_answer 1 100 [] empty_feed_env s (feed_answer [])
              eq_refl eq_refl) as (s' & Hrun & Hsent & _).
  rewrite Hrun. split_and!; [done..|]. exact Hsent.
Defined.

Lemma insert_by_engagement_filter a l e :
  filter (fun b => Article.engagement b = e) (insert_by_engagement a l)
  = filter (fun b => Article.engagement b = e) (a :: l).
Proof.
  induction l as [|b l IH]; [done|]. cbn [insert_by_engagement].
  destruct (Z.ltb_spec (Article.engagement a) (Article.engagement b)); [|done].
  rewrite (filter_cons _ b (insert_by_engagement a l)), IH.
  rewrite !filter_cons. repeat case_decide; try done; lia.
Qed.

Lemma sort_by_engagement_filter l e :
  filter (fun b => Article.engagement b = e) (sort_by_engagement l)
  = filter (fun b => Article.engagement b = e) l.
Proof.
  induction l as [|a l IH]; [done|]. cbn [sort_by_engagement foldr].
  fold (sort_by_engagement l).
  rewrite insert_by_engagement_filter, !filter_cons. by rewrite IH.
Qed.

(** X5: the sort is stable: on a feed whose publish times lie between the
    epoch and the year 2242, the articles of [get_feed] that have the same
    engagement come out in the order of the feed. *)
Theorem get_feed_ties_keep_order time_delta count kwargs env s response :
  feedly_api env (sent s) = Some response ->
  Feedly.items response <> [] ->
  Forall plausible (Feedly.items response) ->
  let now := utcnow_oracle env (clock_reads s) in
  exists articles,
    (get_feed time_delta count kwargs env s).1 = Return articles
    /\ forall e,
         filter (fun a => Article.engagement a = e) articles
         = filter (fun a => Article.engagement a = e)
             (to_Article <$> feed_window now time_delta (Feedly.items response)).
Proof.
  intros Hanswer Hitems Hplausible now.
  rewrite (get_feed_unfold _ _ _ _ _ _ Hanswer Hitems Hplausible). fold now.
  eexists. split; [reflexivity|]. intros e.
  by rewrite sort_by_engagement_filter.
Qed.

Lemma get_feed_ties_keep_order_witness :
  let feed := [story fresh_ms 5 "http://blog.example/a";
               story fresh_ms 10 "http://blog.example/b";
               story fresh_ms 5 "http://blog.example/c";
               story day_old_ms 5 "http://blog.example/old"] in
  let env := sample_env (sample_config [] 0 0) feed [] in
  let s := sample_state "" "" in
  feedly_api env (sent s) = Some (feed_answer feed)
  /\ Forall plausible feed
  /\ (get_feed 1 100 [] env s).1
     = Return [to_Article (story fresh_ms 10 "http://blog.example/b");
               to_Article (story fresh_ms 5 "http://blog.example/a");
               to_Article (story fresh_ms 5 "http://blog.example/c")].
Proof.
  intros feed env s.
  assert (Hplausible : Forall plausible feed).
  { repeat constructor; by vm_compute. }
  split; [reflexivity|]. split; [done|].
  destruct (get_feed_ties_keep_order 1 100 [] env s (feed_answer feed)
              eq_refl ltac:(discriminate) Hplausible) as (articles & Hrun & _).
  rewrite Hrun. revert Hrun. vm_compute. by intros [= <-].
Defined.

Lemma take_until_all {A} (stop : A -> bool) (l : list A) :
  Forall (fun x => stop x = false) l -> take_until stop l = l.
Proof.
  induction 1 as [|x l Hx _ IH]; [done|]. simpl. by rewrite Hx, IH.
Qed.

(** X6: the loop stops only at an item aged exactly [time_delta]: on a feed
    whose publish times lie between the epoch and the year 2242, when no
    item has that age, every dated item is returned, also those older than
    the lookback window. *)
Theorem get_feed_keeps_older time_delta count kwargs env s response :
  feedly_api env (sent s) = Some response ->
  Feedly.items response <> [] ->
  Forall plausible (Feedly.items response) ->
  let now := utcnow_oracle env (clock_reads s) in
  Forall (fun i => aged_out now time_delta i = false) (Feedly.items response) ->
  exists articles,
    (get_feed time_delta count kwargs env s).1 = Return articles
    /\ articles
       ≡ₚ to_Article <$> filter (fun i => dated i) (Feedly.items response).
Proof.
  intros Hanswer Hitems Hplausible now Hages.
  rewrite (get_feed_unfold _ _ _ _ _ _ Hanswer Hitems Hplausible). fold now.
  eexists. split; [reflexivity|].
  rewrite sort_by_engagement_perm. unfold feed_window.
  rewrite take_until_all; [done|].
  apply Forall_forall. intros i [_ Hi]%list_elem_of_filter.
  by eapply Forall_forall in Hages.
Qed.

Lemma get_feed_keeps_older_witness :
  let feed := [story fresh_ms 5 "http://blog.example/a";
               story two_days_old_ms 7 "http://blog.example/old"] in
  let env := sample_env (sample_config [] 0 0) feed [] in
  let s := sample_state "" "" in
  age_in_days sample_now two_days_old_ms = 2
  /\ Forall plausible feed
  /\ Forall (fun i => aged_out sample_now 1 i = false) feed
  /\ (get_feed 1 100 [] env s).1
     = Return [to_Article (story two_days_old_ms 7 "http://blog.example/old");
               to_Article (story fresh_ms 5 "http://blog.example/a")]
  /\ exists articles,
       (get_feed 1 100 [] env s).1 = Return articles
       /\ articles ≡ₚ to_Article <$> filter (fun i => dated i) feed.
Proof.
  intros feed env s.
  assert (Hplausible : Forall plausible feed).
  { repeat constructor; by vm_compute. }
  assert (Hages : Forall (fun i => aged_out sample_now 1 i = false) feed).
  { repeat constructor. }
  split_and!; [by vm_compute|done|done|vm_compute; reflexivity|].
  exact (get_feed_keeps_older 1 100 [] env s (feed_answer feed)
           eq_refl ltac:(discriminate) Hplausible Hages).
Defined.

(** *** [get_clicky] *)

(** X7: an answer without a result set, or whose first result set has no date
    bucket, raises [IndexError] once the request is made. *)
Theorem get_clicky_malformed_answer date output limit env s response :
  clicky_api env (sent s) = Some response ->
  (response = []
   \/ exists first rest, response = first :: rest /\ Clicky.dates first = []) ->
  get_clicky date output limit env s
  = (Raised IndexError,
     set_sent (sent s ++ [GetClickyPages date output limit]) s).
Proof.
  intros Hanswer Hshape.
  unfold get_clicky, make_request, getitem, mbind, M_bind, mret, M_ret.
  rewrite Hanswer. cbv beta iota zeta.
  destruct Hshape as [->|(first & rest & -> & Hdates)]; [done|].
  cbn [lookup list_lookup]. by rewrite Hdates.
Qed.

Lemma get_clicky_malformed_answer_witness :
  let env := at_time sample_now
               {| argv := []; config := sample_config [] 0 0;
                  utcnow_oracle := fun _ => sample_now;
                  entropy := fun n => n;
                  feedly_api := fun _ => None;
                  clicky_api := fun _ => Some [ {| Clicky.dates := [] |} ];
                  buffer_api := fun _ _ => None;
                  profiles_api := fun _ => None;
                  disk_fault := fun _ => None |} in
  (get_clicky "today" "json" 50 env (sample_state "" "")).1
  = Raised IndexError.
Proof.
  intros env.
  rewrite (get_clicky_malformed_answer "today" "json" 50 env
             (sample_state "" "") [ {| Clicky.dates := [] |} ] eq_refl).
  - reflexivity.
  - right. by eexists _, _.
Defined.

(** *** [schedule_buffer] *)

(** X8: with a profile name that is allowed and configured, and a timestamp
    that is zero or whose [str] has 10 characters, [schedule_buffer] makes
    exactly one request, which carries the profile id, the text, and either
    the "now" flag (for zero) or the timestamp, and returns the answer. *)
Theorem schedule_buffer_sends_one_update status_text p n env s profile_id r :
  p ∈ ["twitter"; "linkedin"] ->
  buffer_profiles (config env) !! p = Some profile_id ->
  n = 0 \/ len (str n) = 10 ->
  let update :=
    PostBufferUpdate profile_id status_text
      (if n =? 0 then Now else ScheduledAt n) in
  buffer_api env (sent s) update = Some r ->
  schedule_buffer status_text (ProfileStr p) (SchedInt n) env s
  = (Return r, set_sent (sent s ++ [update]) s).
Proof.
  intros Hp Hid Hn update Hanswer. unfold schedule_buffer.
  rewrite (bind_step ask _ env s env s) by reflexivity.
  unfold py_assert, getkey. rewrite bool_decide_eq_true_2, Hid by done.
  unfold mbind, M_bind, mret, M_ret, make_request. cbn [falsy].
  subst update. destruct (Z.eqb_spec n 0) as [->|Hnz].
  - by rewrite Hanswer.
  - destruct Hn as [|Hlen]; [done|].
    rewrite (proj2 (Z.eqb_eq _ _) Hlen). by rewrite Hanswer.
Qed.

Lemma schedule_buffer_sends_one_update_witness :
  let env := sample_env (sample_config [] 0 0) [] [] in
  let s := sample_state "" "" in
  len (str 1709305451) = 10
  /\ schedule_buffer "A story" (ProfileStr "twitter") (SchedInt 1709305451)
       env s
     = (Return accepted,
        set_sent [PostBufferUpdate "5d1a" "A story" (ScheduledAt 1709305451)]
          s).
Proof.
  intros env s. split; [reflexivity|].
  apply (schedule_buffer_sends_one_update "A story" "twitter" 1709305451
           env s "5d1a" accepted);
    [compute_done|reflexivity|by right|reflexivity].
Defined.

(** X9: a profile name other than ['twitter'] and ['linkedin'] fails the
    assertion, and an allowed name that the configuration lacks raises
    [KeyError]; either way no request is made, whatever the timestamp. *)
Theorem schedule_buffer_bad_profile status_text p scheduled env s :
  (p ∉ ["twitter"; "linkedin"] ->
   schedule_buffer status_text (ProfileStr p) scheduled env s
   = (Raised AssertionError, s))
  /\ (p ∈ ["twitter"; "linkedin"] ->
      buffer_profiles (config env) !! p = None ->
      schedule_buffer status_text (ProfileStr p) scheduled env s
      = (Raised KeyError, s)).
Proof.
  split.
  - intros Hp. unfold schedule_buffer.
    rewrite (bind_step ask _ env s env s) by reflexivity.
    unfold py_assert. by rewrite bool_decide_eq_false_2.
  - intros Hp Hid. unfold schedule_buffer.
    rewrite (bind_step ask _ env s env s) by reflexivity.
    unfold py_assert, getkey. by rewrite bool_decide_eq_true_2, Hid.
Qed.

Lemma schedule_buffer_bad_profile_witness :
  let env := sample_env (sample_config [] 0 0) [] [] in
  let s := sample_state "" "" in
  schedule_buffer "A story" (ProfileStr "facebook") (SchedInt 1709305451)
    env s
  = (Raised AssertionError, s)
  /\ schedule_buffer "A story" (ProfileStr "linkedin") (SchedInt 1709305451)
       env s
     = (Raised KeyError, s).
Proof.
  intros env s.
  destruct (schedule_buffer_bad_profile "A story" "facebook"
              (SchedInt 1709305451) env s) as [Hbad _].
  destruct (schedule_buffer_bad_profile "A story" "linkedin"
              (SchedInt 1709305451) env s) as [_ Hmissing].
  split; [apply Hbad; compute_done|apply Hmissing; [compute_done|reflexivity]].
Defined.

(** *** [get_posting_times] *)

Lemma datetime_new_cases y m d hh mm ss env s :
  (0 <= hh <= 23
   /\ datetime_new y m d hh mm ss env s
      = (Return {| year := y; month := m; day := d; hour := hh;
                   minute := mm; second := ss; microsecond := 0 |}, s))
  \/ datetime_new y m d hh mm ss env s = (Raised ValueError, s).
Proof.
  destruct (datetime_new y m d hh mm ss env s) as [[t|code|e] s'] eqn:Hnew.
  - apply datetime_new_Return in Hnew as (-> & ? & ->). by left.
  - unfold datetime_new in Hnew. by destruct (_ && _).
  - unfold datetime_new in Hnew. destruct (_ && _); [done|].
    right. by injection Hnew as <- <-.
Qed.

Lemma datetime_new_hour_24 y m d hh mm ss env s :
  23 < hh -> datetime_new y m d hh mm ss env s = (Raised ValueError, s).
Proof.
  intros Hhh.
  destruct (datetime_new_cases y m d hh mm ss env s) as [[? _]|]; [lia|done].
Qed.

(** What each returned timestamp is: one for each configured hour that is
    not past, in order, at the target hour, with a minute and a second
    between 1 and 59. *)
Lemma posting_times_from_shape today posting_hrs env s timestamps s' :
  posting_times_from today posting_hrs env s = (Return timestamps, s') ->
  Forall2
    (fun t configured =>
       exists mm ss,
         1 <= mm <= 59 /\ 1 <= ss <= 59
         /\ 0 <= target_hour (hour today) configured <= 23
         /\ t = timegm {| year := year today; month := month today;
                          day := day today;
                          hour := target_hour (hour today) configured;
                          minute := mm; second := ss; microsecond := 0 |})
    timestamps
    (filter (fun configured => hour today <= configured) posting_hrs)
  /\ sent s' = sent s /\ done_today_txt s' = done_today_txt s
  /\ posted_txt s' = posted_txt s
  /\ draws s' = (draws s + 2 * length timestamps)%nat.
Proof.
  revert s timestamps s'.
  induction posting_hrs as [|configured rest IH]; intros s timestamps s' Hrun.
  - injection Hrun as <- <-. split_and!; [constructor|done..|simpl; lia].
  - cbn [posting_times_from] in Hrun.
    destruct (Z.ltb_spec configured (hour today)) as [Hpast|Hahead].
    + rewrite filter_cons_False by lia. by apply IH.
    + rewrite filter_cons_True by done.
      apply bind_Return in Hrun as (mm & s1 & Hmm & Hrun).
      apply bind_Return in Hrun as (ss & s2 & Hss & Hrun).
      apply bind_Return in Hrun as (posting_time & s3 & Hnew & Hrun).
      apply bind_Return in Hrun as (later & s4 & Hrest & Hrun).
      injection Hrun as <- <-.
      destruct (randint_range 1 59 env s) as (mm' & Hmm' & Hmm_range); [lia|].
      destruct (randint_range 1 59 env s1) as (ss' & Hss' & Hss_range); [lia|].
      rewrite Hmm in Hmm'. injection Hmm' as <- ->.
      rewrite Hss in Hss'. injection Hss' as <- ->.
      apply datetime_new_Return in Hnew as (-> & Hhour & ->).
      apply IH in Hrest as (Hlater & Hsent & Hdone & Hposted & Hdraws).
      split_and!.
      * constructor; [|done]. exists mm, ss. unfold target_hour.
        split_and!; first [lia | reflexivity].
      * by rewrite Hsent.
      * by rewrite Hdone.
      * by rewrite Hposted.
      * rewrite Hdraws. simpl. lia.
Qed.

(** X10: [get_posting_times] gives one timestamp for each configured hour that
    is not past, in the configured order; its hour is the configured hour,
    or one more for the current hour. *)
Theorem get_posting_times_hours env s timestamps s' :
  let today := utcnow_oracle env (clock_reads s) in
  get_posting_times env s = (Return timestamps, s') ->
  hour_of_timestamp <$> timestamps
  = target_hour (hour today)
    <$> filter (fun configured => hour today <= configured)
          (posting_hours (config env)).
Proof.
  intros today Hrun. rewrite get_posting_times_unfold in Hrun.
  apply posting_times_from_shape in Hrun as [Hshape _]. fold today in Hshape.
  induction Hshape as [|t configured ts cs (mm & ss & Hmm & Hss & Hhour & Ht) _ IH];
    [done|].
  rewrite !fmap_cons, IH. f_equal. rewrite Ht.
  apply hour_of_timegm; simpl; lia.
Qed.

Lemma get_posting_times_hours_witness :
  let env := sample_env (sample_config [9; 14; 20] 2 1) [] [] in
  let s := sample_state "" "" in
  hour_of_timestamp <$> [1709305451; 1709324305] = [15; 20]
  /\ target_hour 14 <$> filter (fun configured => 14 <= configured) [9; 14; 20]
     = [15; 20].
Proof.
  intros env s.
  assert (Hrun : get_posting_times env s
                 = (Return [1709305451; 1709324305],
                    (get_posting_times env s).2)).
  { vm_compute. reflexivity. }
  pose proof (get_posting_times_hours env s _ _ Hrun) as Hhours.
  split; [|reflexivity]. rewrite Hhours. reflexivity.
Defined.

(** X11: every timestamp of [get_posting_times] has a minute and a second
    between 1 and 59: no post is scheduled on the full hour or the full
    minute. *)
Theorem get_posting_times_minutes env s timestamps s' t :
  get_posting_times env s = (Return timestamps, s') ->
  t ∈ timestamps ->
  1 <= minute_of_timestamp t <= 59 /\ 1 <= second_of_timestamp t <= 59.
Proof.
  intros Hrun Ht. rewrite get_posting_times_unfold in Hrun.
  apply posting_times_from_shape in Hrun as [Hshape _].
  apply list_elem_of_lookup in Ht as [k Hk].
  destruct (Forall2_lookup_l _ _ _ _ _ Hshape Hk)
    as (configured & _ & mm & ss & Hmm & Hss & Hhour & ->).
  unfold minute_of_timestamp, second_of_timestamp, timegm. simpl.
  generalize (ymd2ord (year (utcnow_oracle env (clock_reads s)))
                (month (utcnow_oracle env (clock_reads s))) 1).
  intros ord. Z.div_mod_to_equations. lia.
Qed.

Lemma get_posting_times_minutes_witness :
  let env := sample_env (sample_config [9; 14; 20] 2 1) [] [] in
  let s := sample_state "" "" in
  1709305451 ∈ [1709305451; 1709324305]
  /\ 1 <= minute_of_timestamp 1709305451 <= 59
  /\ 1 <= second_of_timestamp 1709305451 <= 59.
Proof.
  intros env s.
  assert (Hrun : get_posting_times env s
                 = (Return [1709305451; 1709324305],
                    (get_posting_times env s).2)).
  { vm_compute. reflexivity. }
  assert (Hin : 1709305451 ∈ [1709305451; 1709324305])
    by (apply elem_of_cons; by left).
  split; [done|].
  exact (get_posting_times_minutes env s _ _ _ Hrun Hin).
Defined.

Lemma posting_times_from_hour_24 today posting_hrs env s :
  Exists (fun configured =>
            hour today <= configured
            /\ 23 < target_hour (hour today) configured) posting_hrs ->
  (posting_times_from today posting_hrs env s).1 = Raised ValueError.
Proof.
  revert s. induction posting_hrs as [|configured rest IH]; intros s Hbad.
  - by apply Exists_nil in Hbad.
  - cbn [posting_times_from].
    destruct (Z.ltb_spec configured (hour today)) as [Hpast|Hahead].
    + apply IH. apply Exists_cons in Hbad as [[? _]|]; [lia|done].
    + destruct (randint_range 1 59 env s) as (mm & Hmm & _); [lia|].
      rewrite (bind_step _ _ _ _ _ _ Hmm).
      destruct (randint_range 1 59 env (set_draws (S (draws s)) s))
        as (ss & Hss & _); [lia|].
      rewrite (bind_step _ _ _ _ _ _ Hss).
      fold (target_hour (hour today) configured).
      match goal with
      | |- context [datetime_new ?y ?m ?d ?hh ?a ?b] =>
          destruct (datetime_new_cases y m d hh a b env
                      (set_draws (S (draws (set_draws (S (draws s)) s)))
                         (set_draws (S (draws s)) s)))
            as [[Hhour Hnew]|Hnew]
      end.
      * rewrite (bind_step _ _ _ _ _ _ Hnew).
        apply Exists_cons in Hbad as [[_ ?]|Hbad]; [lia|].
        specialize (IH (set_draws (S (draws (set_draws (S (draws s)) s)))
                          (set_draws (S (draws s)) s)) Hbad).
        destruct (posting_times_from today rest env _) as [[?|?|e] s3] eqn:Hrest;
          try discriminate.
        rewrite (bind_raise _ _ _ _ _ _ Hrest). exact IH.
      * by rewrite (bind_raise _ _ _ _ _ _ Hnew).
Qed.

(** X12: a configured hour that is not past and whose target hour is above 23
    - hour 23 itself during hour 23, or a configured hour above 23 - makes
    [get_posting_times] raise [ValueError]: no timestamp is returned, not
    even for the other hours. *)
Theorem get_posting_times_hour_24 env s :
  let today := utcnow_oracle env (clock_reads s) in
  Exists (fun configured =>
            hour today <= configured
            /\ 23 < target_hour (hour today) configured)
    (posting_hours (config env)) ->
  (get_posting_times env s).1 = Raised ValueError.
Proof.
  intros today Hbad. rewrite get_posting_times_unfold.
  by apply posting_times_from_hour_24.
Qed.

Lemma get_posting_times_hour_24_witness :
  let env := at_time late_now
               (sample_env (sample_config [22; 23] 1 1) [] []) in
  (get_posting_times env (sample_state "" "")).1 = Raised ValueError.
Proof.
  intros env. apply (get_posting_times_hour_24 env (sample_state "" "")).
  apply Exists_cons_tl, Exists_cons_hd. vm_compute.
  split; [discriminate|reflexivity].
Defined.

(** *** Frames *)

#[export] Instance same_files_frame : Frame (fun _ => True) same_files.
Proof.
  split; unfold same_files; try done.
  intros s1 s2 s3 [H1 H2] [H3 H4]. split; congruence.
Qed.

#[export] Instance same_sent_frame : Frame (fun _ => False) same_sent.
Proof.
  split; unfold same_sent; try done.
  intros s1 s2 s3 H1 H2. congruence.
Qed.

#[export] Instance same_posts_frame :
  Frame (fun r => is_schedule r = false) same_posts.
Proof.
  split; unfold same_posts; try done.
  - intros s1 s2 s3 H1 H2. by rewrite H2.
  - intros r s Hr. cbn [sent set_sent].
    rewrite filter_app, filter_cons_False, filter_nil, app_nil_r; [done|].
    by apply Is_true_false_2.
Qed.

Lemma bind_cases {A B} (m : M A) (f : A -> M B) env s o s' :
  (m ≫= f) env s = (o, s') ->
  (exists a s1, m env s = (Return a, s1) /\ f a env s1 = (o, s'))
  \/ (exists code, m env s = (SysExit code, s') /\ o = SysExit code)
  \/ (exists e, m env s = (Raised e, s') /\ o = Raised e).
Proof.
  unfold mbind, M_bind.
  destruct (m env s) as [[a|code|e] s1]; intros Hrun.
  - left. by eexists _, _.
  - right. left. injection Hrun as <- <-. by eexists.
  - right. right. injection Hrun as <- <-. by eexists.
Qed.

Section frames.
Context {allowed : Request -> Prop} {P : relation State} `{!Frame allowed P}.

Lemma preserves_ret {A} (a : A) : preserves P (mret a).
Proof. intros env s o s' [= <- <-]. apply frame_refl. Qed.

Lemma preserves_raise {A} e : preserves P (@raise A e).
Proof. intros env s o s' [= <- <-]. apply frame_refl. Qed.

Lemma preserves_sys_exit {A} code : preserves P (@sys_exit A code).
Proof. intros env s o s' [= <- <-]. apply frame_refl. Qed.

Lemma preserves_bind {A B} (m : M A) (f : A -> M B) :
  preserves P m -> (forall a, preserves P (f a)) -> preserves P (m ≫= f).
Proof.
  intros Hm Hf env s o s'
    [(a & s1 & Hrun & Hrest)|[(code & Hrun & _)|(e & Hrun & _)]]%bind_cases.
  - eapply frame_trans; [by eapply Hm|by eapply Hf].
  - by eapply Hm.
  - by eapply Hm.
Qed.

Lemma preserves_ask : preserves P ask.
Proof. intros env s o s' [= <- <-]. apply frame_refl. Qed.

Lemma preserves_py_assert b : preserves P (py_assert b).
Proof. destruct b; [apply preserves_ret|apply preserves_raise]. Qed.

Lemma preserves_getitem {A} (l : list A) i : preserves P (getitem l i).
Proof.
  unfold getitem. destruct (l !! i); [apply preserves_ret|apply preserves_raise].
Qed.

Lemma preserves_getkey {A} (d : gmap string A) k : preserves P (getkey d k).
Proof.
  unfold getkey. destruct (d !! k); [apply preserves_ret|apply preserves_raise].
Qed.

Lemma preserves_getfield {A} (field : option A) : preserves P (getfield field).
Proof. destruct field; [apply preserves_ret|apply preserves_raise]. Qed.

Lemma preserves_print text : preserves P (print text).
Proof. intros env s o s' [= <- <-]. apply frame_stdout. Qed.

Lemma preserves_sleep seconds : preserves P (sleep seconds).
Proof. intros env s o s' [= <- <-]. apply frame_slept. Qed.

Lemma preserves_utcnow : preserves P utcnow.
Proof. intros env s o s' [= <- <-]. apply frame_clock_reads. Qed.

Lemma preserves_randbelow n : preserves P (randbelow n).
Proof. intros env s o s' [= <- <-]. apply frame_draws. Qed.

Lemma preserves_randint a b : preserves P (randint a b).
Proof.
  apply preserves_bind; [apply preserves_randbelow|intros; apply preserves_ret].
Qed.

Lemma preserves_open_read file : preserves P (open_read file).
Proof.
  intros env s o s'. unfold open_read.
  destruct (file s); intros [= <- <-]; apply frame_refl.
Qed.

Lemma preserves_datetime_new y m d hh mm ss :
  preserves P (datetime_new y m d hh mm ss).
Proof.
  unfold datetime_new.
  destruct (_ && _); [apply preserves_ret|apply preserves_raise].
Qed.

Lemma preserves_lift {A} (o : outcome A) : preserves P (lift o).
Proof. intros env s o' s' [= <- <-]. apply frame_refl. Qed.

Lemma preserves_feed_articles now time_delta data :
  preserves P (feed_articles now time_delta data).
Proof.
  induction data as [|i rest IH]; [apply preserves_ret|].
  cbn [feed_articles]. destruct (Feedly.published i) as [published|]; [|done].
  destruct (published =? 0); [done|].
  apply preserves_bind; [apply preserves_lift|]. intros seconds.
  apply preserves_bind; [apply preserves_lift|]. intros t.
  destruct (_ =? _); [apply preserves_ret|].
  apply preserves_bind; [done|]. intros; apply preserves_ret.
Qed.

Lemma preserves_make_request {A} r (remote : Env -> list Request -> option A) :
  allowed r -> preserves P (make_request r remote).
Proof.
  intros Hr env s o s'. unfold make_request.
  destruct (remote env (sent s)); intros [= <- <-]; by apply frame_request.
Qed.

Lemma preserves_get_feed time_delta count kwargs :
  allowed (GetFeedlyStream kwargs) ->
  preserves P (get_feed time_delta count kwargs).
Proof.
  intros Hr. unfold get_feed.
  apply preserves_bind; [by apply preserves_make_request|].
  intros response. destruct (Feedly.items response).
  - destruct (Feedly.errorCode response) as [code|]; [destruct (code =? 0)|];
      (apply preserves_bind;
       [apply preserves_print|intros; apply preserves_sys_exit]).
  - apply preserves_bind; [apply preserves_utcnow|]. intros now.
    apply preserves_bind; [apply preserves_feed_articles|].
    intros; apply preserves_ret.
Qed.

Lemma preserves_clicky_articles items : preserves P (clicky_articles items).
Proof.
  induction items as [|i rest IH]; [apply preserves_ret|].
  cbn [clicky_articles]. apply preserves_bind; [apply preserves_getitem|].
  intros segment. apply preserves_bind; [done|].
  intros articles. destruct (_ && _); apply preserves_ret.
Qed.

Lemma preserves_get_clicky date output limit :
  allowed (GetClickyPages date output limit) ->
  preserves P (get_clicky date output limit).
Proof.
  intros Hr. unfold get_clicky.
  apply preserves_bind; [by apply preserves_make_request|].
  intros response. apply preserves_bind; [apply preserves_getitem|].
  intros first. apply preserves_bind; [apply preserves_getitem|].
  intros bucket. apply preserves_clicky_articles.
Qed.

Lemma preserves_schedule_buffer status_text profile scheduled :
  (forall profile_ids text timing,
     allowed (PostBufferUpdate profile_ids text timing)) ->
  preserves P (schedule_buffer status_text profile scheduled).
Proof.
  intros Hr. unfold schedule_buffer.
  apply preserves_bind; [apply preserves_ask|]. intros env.
  apply preserves_bind.
  { destruct profile; [|apply preserves_raise].
    apply preserves_bind; [apply preserves_py_assert|].
    intros; apply preserves_getkey. }
  intros profile_id. apply preserves_bind.
  { destruct (falsy scheduled); [apply preserves_ret|].
    destruct scheduled; [|apply preserves_raise].
    apply preserves_bind; [apply preserves_py_assert|].
    intros; apply preserves_ret. }
  intros timing. by apply preserves_make_request.
Qed.

Lemma preserves__get_buffer_profiles :
  allowed GetBufferProfiles -> preserves P _get_buffer_profiles.
Proof.
  intros Hr. unfold _get_buffer_profiles.
  apply preserves_bind; [by apply preserves_make_request|].
  intros response. induction response as [|i rest IH]; [apply preserves_ret|].
  cbn [foldr]. apply preserves_bind; [apply preserves_print|done].
Qed.

Lemma preserves_posting_times_from today posting_hrs :
  preserves P (posting_times_from today posting_hrs).
Proof.
  induction posting_hrs as [|configured rest IH]; [apply preserves_ret|].
  cbn [posting_times_from]. destruct (_ <? _); [done|].
  apply preserves_bind; [apply preserves_randint|]. intros mm.
  apply preserves_bind; [apply preserves_randint|]. intros ss.
  apply preserves_bind; [apply preserves_datetime_new|]. intros posting_time.
  apply preserves_bind; [done|]. intros; apply preserves_ret.
Qed.

Lemma preserves_get_posting_times : preserves P get_posting_times.
Proof.
  unfold get_posting_times.
  apply preserves_bind; [apply preserves_ask|]. intros env.
  apply preserves_bind; [apply preserves_utcnow|]. intros today.
  apply preserves_posting_times_from.
Qed.

Lemma preserves_shuffle_from {A} i (x : list A) :
  preserves P (shuffle_from i x).
Proof.
  revert x. induction i as [|i IH]; intros x; [apply preserves_ret|].
  cbn [shuffle_from]. apply preserves_bind; [apply preserves_randbelow|].
  intros j. apply IH.
Qed.

Lemma preserves_shuffle {A} (x : list A) : preserves P (shuffle x).
Proof. apply preserves_shuffle_from. Qed.

Lemma preserves_schedule_posts index posting_times to_schedule posted :
  (forall profile_ids text timing,
     allowed (PostBufferUpdate profile_ids text timing)) ->
  preserves P (schedule_posts index posting_times to_schedule posted).
Proof.
  intros Hr. revert index posted.
  induction posting_times as [|i later IH]; intros index posted;
    [apply preserves_ret|].
  cbn [schedule_posts].
  apply preserves_bind; [apply preserves_getitem|]. intros item.
  apply preserves_bind; [apply preserves_print|]. intros _.
  apply preserves_bind; [by apply preserves_schedule_buffer|]. intros tweet.
  apply preserves_bind; [apply preserves_getfield|]. intros ok.
  apply preserves_bind.
  { destruct ok.
    - apply preserves_bind; [apply preserves_print|].
      intros; apply preserves_ret.
    - apply preserves_bind; [apply preserves_print|]. intros _.
      apply preserves_bind; [apply preserves_getfield|]. intros msg.
      apply preserves_bind; [apply preserves_print|]. intros _.
      apply preserves_bind; [apply preserves_print|].
      intros; apply preserves_ret. }
  intros posted'. apply preserves_bind; [apply preserves_sleep|].
  intros _. apply IH.
Qed.

Lemma returns_or_bind {A B} (m : M A) (f : A -> M B) :
  preserves P m -> (forall a, returns_or P (f a)) -> returns_or P (m ≫= f).
Proof.
  intros Hm Hf env s o s'
    [(a & s1 & Hrun & Hrest)|[(code & Hrun & _)|(e & Hrun & _)]]%bind_cases.
  - destruct (Hf _ _ _ _ _ Hrest) as [?|[?|Hrel]]; [by left|by right; left|].
    right. right. eapply frame_trans; [by eapply Hm|done].
  - right. right. by eapply Hm.
  - right. right. by eapply Hm.
Qed.

End frames.

(** *** [main]: arguments and state files *)

Lemma preserves_returns_or {allowed P} `{!Frame allowed P} {A} (m : M A) :
  preserves P m -> returns_or P m.
Proof. intros Hm env s o s' Hrun. right. right. by eapply Hm. Qed.

(** The two writes at the end of [main]: when they go through, both files
    hold the new content; they send no request; and they end otherwise only
    by the [OSError] of a write that the disk makes fail. *)
Lemma main_persist_Return now history env s s' :
  (write_posted (dump_posted history);;
   today ← getitem (split " " (strftime now)) 0;
   write_done_today today) env s
  = (Return tt, s') ->
  s' = set_done_today (Some (strftime_date now))
         (set_posted (Some (dump_posted history)) s).
Proof.
  intros Hrun.
  apply bind_Return in Hrun as ([] & s1 & [_ ->]%open_write_Return & Hrun).
  apply bind_Return in Hrun as (today & s2 & Htoday & Hrun).
  unfold getitem in Htoday. rewrite split_strftime in Htoday.
  injection Htoday as <- <-. by apply open_write_Return in Hrun as [_ ->].
Qed.

Lemma open_write_cases name set text env s o s' :
  open_write name set text env s = (o, s') ->
  (o = Return tt /\ s' = set (Some text) s)
  \/ (o = Raised OSError /\ is_Some (disk_fault env name)
      /\ (s' = s \/ exists written, s' = set (Some written) s)).
Proof.
  unfold open_write.
  destruct (disk_fault env name) as [[|written]|]; intros [= <- <-].
  - right. split_and!; [done|by eexists|by left].
  - right. split_and!; [done|by eexists|right; by eexists].
  - by left.
Qed.

Lemma main_persist_same_sent now history :
  preserves same_sent
    (write_posted (dump_posted history);;
     today ← getitem (split " " (strftime now)) 0;
     write_done_today today).
Proof.
  intros env s o s'
    [(a & s1 & Hrun & Hrest)|[(code & Hrun & _)|(e & Hrun & _)]]%bind_cases.
  - apply open_write_cases in Hrun as [[_ ->]|(_ & _ & [->|[w ->]])];
      (apply bind_cases in Hrest
         as [(today & s2 & Htoday & Hrest)|[(c & Ht & _)|(e & Ht & _)]];
       [apply (preserves_getitem (P := same_sent)) in Htoday;
        apply open_write_cases in Hrest
          as [[_ ->]|(_ & _ & [->|[w' ->]])]; exact Htoday
       |by apply (preserves_getitem (P := same_sent)) in Ht..]).
  - apply open_write_cases in Hrun as [[_ ->]|(_ & _ & [->|[w ->]])]; done.
  - apply open_write_cases in Hrun as [[_ ->]|(_ & _ & [->|[w ->]])]; done.
Qed.

Lemma main_persist_fails now history env s o s' :
  (write_posted (dump_posted history);;
   today ← getitem (split " " (strftime now)) 0;
   write_done_today today) env s
  = (o, s') ->
  (exists a, o = Return a)
  \/ (o = Raised OSError /\ exists name, is_Some (disk_fault env name)).
Proof.
  intros [(a & s1 & Hrun & Hrest)|[(code & Hrun & ->)|(e & Hrun & ->)]]%bind_cases.
  - apply bind_cases in Hrest
      as [(today & s2 & Htoday & Hrest)|[(c & Ht & _)|(e & Ht & _)]].
    + apply open_write_cases in Hrest as [[-> _]|(-> & Hfault & _)];
        [by left; eexists|right; split; [done|by eexists]].
    + unfold getitem in Ht. rewrite split_strftime in Ht. done.
    + unfold getitem in Ht. rewrite split_strftime in Ht. done.
  - by apply open_write_cases in Hrun as [[? _]|(? & _)].
  - apply open_write_cases in Hrun as [[? _]|(Ho & Hfault & _)]; [done|].
    right. split; [done|by eexists].
Qed.

Lemma main_returns_or_same_files : returns_or same_files main.
Proof.
  unfold main.
  apply returns_or_bind; [apply preserves_ask|]. intros env. cbv zeta.
  destruct (bool_decide _).
  - apply preserves_returns_or.
    apply preserves_bind; [apply preserves_getitem|]. intros arg.
    destruct (String.eqb arg "streams").
    + apply preserves_bind; [by apply preserves__get_buffer_profiles|].
      intros; apply preserves_sys_exit.
    + apply preserves_bind; [apply preserves_print|].
      intros; apply preserves_sys_exit.
  - apply returns_or_bind; [apply preserves_utcnow|]. intros now.
    apply returns_or_bind; [apply preserves_print|]. intros _.
    apply returns_or_bind; [apply preserves_open_read|]. intros content.
    apply returns_or_bind; [apply preserves_getitem|]. intros today.
    destruct (String.eqb _ _).
    { apply preserves_returns_or.
      apply preserves_bind; [apply preserves_print|].
      intros; apply preserves_sys_exit. }
    apply returns_or_bind; [apply preserves_getkey|]. intros feedly_count.
    apply returns_or_bind; [apply preserves_getkey|]. intros clicky_count.
    apply returns_or_bind; [apply preserves_py_assert|]. intros _.
    apply returns_or_bind; [by apply preserves_get_feed|]. intros feedly.
    apply returns_or_bind; [by apply preserves_get_clicky|]. intros clicky.
    apply returns_or_bind; [apply preserves_open_read|]. intros history.
    apply returns_or_bind; [apply preserves_get_posting_times|].
    intros posting_times.
    apply returns_or_bind; [apply preserves_shuffle|]. intros to_schedule.
    apply returns_or_bind; [by apply preserves_schedule_posts|].
    intros posted. intros env' s o s' Hrun.
    apply main_persist_fails in Hrun as [?|?]; [by left|by right; left].
Qed.

(** X13: the state files are written only in the last step of [main]: when
    [main] ends through [sys.exit] or by raising, both [done_today.txt] and
    [posted.txt] are as they were, unless what it raised is the [OSError]
    of a write of that last step which the disk made fail. *)
Theorem main_no_partial_state env s o s' :
  main env s = (o, s') ->
  o <> Return tt ->
  o <> Raised OSError \/ (forall name, disk_fault env name = None) ->
  done_today_txt s' = done_today_txt s /\ posted_txt s' = posted_txt s.
Proof.
  intros Hrun Ho Hdisk.
  destruct (main_returns_or_same_files _ _ _ _ Hrun)
    as [[[] ->]|[[-> [name Hfault]]|]]; [done| |done].
  destruct Hdisk as [|Hdisk]; [done|].
  rewrite Hdisk in Hfault. by destruct Hfault.
Qed.

Lemma main_no_partial_state_witness :
  let s := sample_state "2024-02-29" "http://blog.example/z" in
  (main short_env s).1 = Raised IndexError
  /\ filter (fun r => is_schedule r) (sent (main short_env s).2) <> []
  /\ done_today_txt (main short_env s).2 = Some "2024-02-29"
  /\ posted_txt (main short_env s).2 = Some "http://blog.example/z".
Proof.
  intros s.
  assert (Hrun : main short_env s = (Raised IndexError, (main short_env s).2)).
  { vm_compute. reflexivity. }
  split_and!; [by rewrite Hrun|by vm_compute|..];
    by apply (main_no_partial_state short_env s _ _ Hrun);
      [|left].
Defined.

(** When the disk refuses the marker, the history is already rewritten:
    the run ends by [OSError] with the new history in [posted.txt] and the
    old date in [done_today.txt]. *)
Example main_marker_write_fails :
  let env := with_disk_fault marker_locked ordinary_env in
  let s := sample_state "2024-02-29" "" in
  (main env s).1 = Raised OSError
  /\ posted_txt (main env s).2
     = Some (dump_posted [Some "http://site.example/news/my-article";
                          Some "http://blog.example/b"])
  /\ done_today_txt (main env s).2 = Some "2024-02-29".
Proof. vm_compute. done. Qed.

Lemma _get_buffer_profiles_prints response env s :
  exists s',
    foldr (fun i rest => print (profile_line i);; rest) (mret tt) response
      env s
    = (Return tt, s')
    /\ stdout s' = stdout s ++ (profile_line <$> response)
    /\ sent s' = sent s.
Proof.
  revert s. induction response as [|i rest IH]; intros s.
  - eexists. split_and!; [reflexivity|by rewrite app_nil_r|done].
  - cbn [foldr]. erewrite bind_step by reflexivity.
    destruct (IH (set_stdout (stdout s ++ [profile_line i]) s))
      as (s' & -> & Hout & Hsent).
    eexists. split_and!; [reflexivity| |done].
    rewrite Hout. cbn [stdout set_stdout]. by rewrite <- app_assoc.
Qed.

Lemma _get_buffer_profiles_run env s profiles :
  profiles_api env (sent s) = Some profiles ->
  exists s',
    _get_buffer_profiles env s = (Return tt, s')
    /\ stdout s' = stdout s ++ (profile_line <$> profiles)
    /\ sent s' = sent s ++ [GetBufferProfiles].
Proof.
  intros Hanswer. unfold _get_buffer_profiles.
  erewrite bind_step; last first.
  { unfold make_request. rewrite Hanswer. reflexivity. }
  destruct (_get_buffer_profiles_prints profiles env
              (set_sent (sent s ++ [GetBufferProfiles]) s))
    as (s' & Hrun & Hout & Hsent).
  exists s'. split_and!; [exact Hrun|exact Hout|exact Hsent].
Qed.

(** X14: called with the one argument ["streams"], [main] makes the single
    request for the Buffer profiles, prints one line for each profile of
    the answer, in order, and exits with code 0. Called with any other
    single argument it exits with code 1 and makes no request. *)
Theorem main_with_one_argument env s arg :
  length (argv env) = 2%nat ->
  argv env !! 1%nat = Some arg ->
  (arg = "streams" ->
   forall profiles,
     profiles_api env (sent s) = Some profiles ->
     exists s',
       main env s = (SysExit 0, s')
       /\ sent s' = sent s ++ [GetBufferProfiles]
       /\ stdout s' = stdout s ++ (profile_line <$> profiles))
  /\ (arg <> "streams" ->
      exists s', main env s = (SysExit 1, s') /\ sent s' = sent s).
Proof.
  intros Hlen Harg. split.
  - intros -> profiles Hanswer. unfold main.
    erewrite bind_step by reflexivity. cbv zeta.
    rewrite bool_decide_eq_true_2 by done.
    erewrite bind_step; last first.
    { unfold getitem. rewrite Harg. reflexivity. }
    rewrite String.eqb_refl.
    destruct (_get_buffer_profiles_run env s profiles Hanswer)
      as (s' & Hrun & Hout & Hsent).
    rewrite (bind_step _ _ _ _ _ _ Hrun). by exists s'.
  - intros Hne. unfold main.
    erewrite bind_step by reflexivity. cbv zeta.
    rewrite bool_decide_eq_true_2 by done.
    erewrite bind_step; last first.
    { unfold getitem. rewrite Harg. reflexivity. }
    rewrite (proj2 (String.eqb_neq _ _) Hne).
    erewrite bind_step by reflexivity. by eexists.
Qed.

Lemma main_with_one_argument_witness :
  let s := sample_state "2024-02-29" "" in
  (main (with_argument "streams") s).1 = SysExit 0
  /\ sent (main (with_argument "streams") s).2 = [GetBufferProfiles]
  /\ stdout (main (with_argument "streams") s).2
     = ["twitter" +:+ String TAB "5d1a"; "linkedin" +:+ String TAB "77f0"]
  /\ (main (with_argument "profiles") s).1 = SysExit 1
  /\ sent (main (with_argument "profiles") s).2 = [].
Proof.
  intros s.
  destruct (main_with_one_argument (with_argument "streams") s "streams"
              eq_refl eq_refl) as [Hstreams _].
  destruct (Hstreams eq_refl _ eq_refl) as (s1 & Hrun1 & Hsent1 & Hout1).
  destruct (main_with_one_argument (with_argument "profiles") s "profiles"
              eq_refl eq_refl) as [_ Hother].
  destruct (Hother ltac:(discriminate)) as (s2 & Hrun2 & Hsent2).
  rewrite Hrun1, Hrun2. cbn [fst snd].
  rewrite Hsent1, Hout1, Hsent2. by split_and!.
Defined.

(** *** The scheduling loop *)

Lemma schedule_buffer_update status_text p n env s profile_id r :
  p ∈ ["twitter"; "linkedin"] ->
  buffer_profiles (config env) !! p = Some profile_id ->
  n = 0 \/ len (str n) = 10 ->
  buffer_api env (sent s)
    (PostBufferUpdate profile_id status_text
       (if n =? 0 then Now else ScheduledAt n)) = Some r ->
  schedule_buffer status_text (ProfileStr p) (SchedInt n) env s
  = (Return r,
     set_sent (sent s ++ [PostBufferUpdate profile_id status_text
                            (if n =? 0 then Now else ScheduledAt n)]) s).
Proof.
  intros Hp Hid Hn Hanswer. unfold schedule_buffer.
  rewrite (bind_step ask _ env s env s) by reflexivity.
  unfold py_assert, getkey. rewrite bool_decide_eq_true_2, Hid by done.
  unfold mbind, M_bind, mret, M_ret, make_request. cbn [falsy].
  destruct (Z.eqb_spec n 0) as [->|Hnz].
  - by rewrite Hanswer.
  - destruct Hn as [|Hlen]; [done|].
    rewrite (proj2 (Z.eqb_eq _ _) Hlen). by rewrite Hanswer.
Qed.

Lemma schedule_buffer_Return status_text p n env s r s' :
  schedule_buffer status_text (ProfileStr p) (SchedInt n) env s
  = (Return r, s') ->
  exists profile_id,
    buffer_profiles (config env) !! p = Some profile_id
    /\ (n = 0 \/ len (str n) = 10)
    /\ s' = set_sent
              (sent s ++ [PostBufferUpdate profile_id status_text
                            (if n =? 0 then Now else ScheduledAt n)]) s.
Proof.
  destruct (schedule_buffer_profile status_text p (SchedInt n) env s)
    as [[e ->]|(profile_id & _ & Hid & ->)]; [done|].
  intros Hrun. exists profile_id. split; [done|].
  revert Hrun. unfold mbind, M_bind, py_assert, mret, M_ret, raise,
    make_request. cbn [falsy].
  destruct (Z.eqb_spec n 0) as [->|Hnz].
  - destruct (buffer_api _ _ _); intros [= <- <-]. split; [by left|done].
  - destruct (Z.eqb_spec (len (str n)) 10) as [Hlen|]; [|done].
    destruct (buffer_api _ _ _); intros [= <- <-]. split; [by right|done].
Qed.

Lemma schedule_posts_from_pairs index posting_times to_schedule posted env s
    posted' s' profile_id :
  buffer_profiles (config env) !! "twitter" = Some profile_id ->
  schedule_posts index posting_times to_schedule posted env s
  = (Return posted', s') ->
  sent s' = sent s ++ zip_with (update_for profile_id) posting_times
                        (drop index to_schedule)
  /\ (length posting_times <= length (drop index to_schedule))%nat.
Proof.
  intros Hid. revert index posted s.
  induction posting_times as [|i later IH]; intros index posted s Hrun.
  - injection Hrun as _ <-. split; [by rewrite app_nil_r|simpl; lia].
  - cbn [schedule_posts] in Hrun.
    apply bind_Return in Hrun as (item & s1 & Hitem & Hrun).
    apply bind_Return in Hrun as ([] & s2 & Hprint & Hrun).
    apply bind_Return in Hrun as (tweet & s3 & Hsend & Hrun).
    apply bind_Return in Hrun as (ok & s4 & Hok & Hrun).
    apply bind_Return in Hrun as (posted1 & s5 & Hnote & Hrun).
    apply bind_Return in Hrun as ([] & s6 & Hsleep & Hrun).
    unfold getitem in Hitem.
    destruct (to_schedule !! index) as [item'|] eqn:Hlookup; [|done].
    injection Hitem as -> <-.
    injection Hprint as <-.
    apply schedule_buffer_Return in Hsend as (id' & Hid' & _ & ->).
    rewrite Hid in Hid'. injection Hid' as <-.
    assert (Hs4 : sent s4 = sent s ++ [update_for profile_id i item]).
    { apply (preserves_getfield (P := same_sent)) in Hok. by rewrite Hok. }
    assert (Hs5 : sent s5 = sent s4).
    { revert Hnote. destruct ok.
      - apply (preserves_bind (P := same_sent)); [apply preserves_print|].
        intros; apply preserves_ret.
      - apply (preserves_bind (P := same_sent)); [apply preserves_print|].
        intros _.
        apply (preserves_bind (P := same_sent)); [apply preserves_getfield|].
        intros msg.
        apply (preserves_bind (P := same_sent)); [apply preserves_print|].
        intros _.
        apply (preserves_bind (P := same_sent)); [apply preserves_print|].
        intros; apply preserves_ret. }
    injection Hsleep as <-.
    apply IH in Hrun as [Hsent Hlen].
    rewrite (drop_S _ _ _ Hlookup). cbn [zip_with length]. split; [|lia].
    rewrite Hsent. cbn [sent set_slept]. rewrite Hs5, Hs4.
    by rewrite <- app_assoc.
Qed.

(** X15: when the loop of [main] completes, it has sent exactly one request for
    each time slot, in order: the request of slot [k] carries the text of
    candidate [k] and the timestamp of slot [k], so there were at least as
    many candidates as slots and the candidates beyond the slots were not
    used. *)
Theorem schedule_posts_pairs posting_times to_schedule posted env s posted' s'
    profile_id :
  buffer_profiles (config env) !! "twitter" = Some profile_id ->
  schedule_posts 0 posting_times to_schedule posted env s
  = (Return posted', s') ->
  sent s' = sent s ++ zip_with (update_for profile_id) posting_times to_schedule
  /\ (length posting_times <= length to_schedule)%nat.
Proof.
  intros Hid Hrun.
  by destruct (schedule_posts_from_pairs _ _ _ _ _ _ _ _ _ Hid Hrun).
Qed.

Lemma schedule_posts_pairs_witness :
  let env := sample_env (sample_config [] 0 0) [] [] in
  let s := sample_state "" "" in
  sent (schedule_posts 0 [1709305451] two_posts [] env s).2
  = [PostBufferUpdate "5d1a" "One http://site.example/news/one"
       (ScheduledAt 1709305451)].
Proof.
  intros env s.
  assert (Hrun : schedule_posts 0 [1709305451] two_posts [] env s
                 = (Return [Some "http://site.example/news/one"],
                    (schedule_posts 0 [1709305451] two_posts [] env s).2)).
  { vm_compute. reflexivity. }
  destruct (schedule_posts_pairs [1709305451] two_posts [] env s _ _ "5d1a"
              eq_refl Hrun) as [Hsent _].
  rewrite Hsent. reflexivity.
Defined.

Lemma schedule_posts_from_completes index posting_times to_schedule posted
    env s profile_id ok :
  buffer_profiles (config env) !! "twitter" = Some profile_id ->
  Forall (fun t => t = 0 \/ len (str t) = 10) posting_times ->
  (length posting_times <= length (drop index to_schedule))%nat ->
  buffer_answers env ok ->
  exists s',
    schedule_posts index posting_times to_schedule posted env s
    = (Return
         (posted ++
          if ok
          then url <$> take (length posting_times) (drop index to_schedule)
          else []),
       s').
Proof.
  intros Hid Htimes Hlen Hapi. revert index posted s Hlen.
  induction Htimes as [|i later Hi _ IH]; intros index posted s Hlen.
  - eexists. cbn [schedule_posts length]. rewrite take_0.
    destruct ok; by rewrite app_nil_r.
  - destruct (drop index to_schedule) as [|item rest] eqn:Hdrop;
      [simpl in Hlen; lia|].
    assert (Hitem : to_schedule !! index = Some item).
    { rewrite <- (Nat.add_0_r index), <- lookup_drop. by rewrite Hdrop. }
    assert (Hrest : drop (S index) to_schedule = rest).
    { rewrite (drop_S _ _ _ Hitem) in Hdrop. by injection Hdrop. }
    cbn [schedule_posts].
    erewrite bind_step; [|unfold getitem; rewrite Hitem; reflexivity].
    erewrite bind_step by reflexivity.
    match goal with
    | |- context [(schedule_buffer ?text _ _ ≫= _) _ ?st] =>
        destruct (Hapi (sent st)
                    (PostBufferUpdate profile_id text
                       (if i =? 0 then Now else ScheduledAt i)))
          as (tweet & Htweet & Hok & Hmsg);
        rewrite (bind_step _ _ _ _ _ _
                   (schedule_buffer_update text "twitter" i env st profile_id
                      tweet ltac:(compute_done) Hid Hi Htweet))
    end.
    erewrite bind_step; [|unfold getfield; rewrite Hok; reflexivity].
    destruct ok.
    + erewrite bind_step by reflexivity.
      erewrite bind_step by reflexivity.
      edestruct (IH (S index) (posted ++ [url item])) as (s' & ->).
      { rewrite Hrest. simpl in Hlen. lia. }
      exists s'. rewrite Hrest. cbn [length take fmap list_fmap].
      by rewrite <- app_assoc.
    + destruct (Hmsg eq_refl) as [msg Hmessage].
      erewrite bind_step; last first.
      { erewrite bind_step by reflexivity.
        erewrite bind_step; [|unfold getfield; rewrite Hmessage; reflexivity].
        erewrite bind_step by reflexivity.
        erewrite bind_step by reflexivity. reflexivity. }
      erewrite bind_step by reflexivity.
      edestruct (IH (S index) posted) as (s' & ->).
      { rewrite Hrest. simpl in Hlen. lia. }
      by exists s'.
Qed.

(** X16: with at least as many candidates as slots, timestamps that pass the
    check of [schedule_buffer], and a Buffer that answers, the loop of
    [main] completes: when Buffer accepts the posts, the history gains the
    URLs of the first candidates, one for each slot, in order; when Buffer
    refuses them, the loop still goes through every slot and the history is
    as it was. *)
Theorem schedule_posts_completes posting_times to_schedule posted env s
    profile_id ok :
  buffer_profiles (config env) !! "twitter" = Some profile_id ->
  Forall (fun t => t = 0 \/ len (str t) = 10) posting_times ->
  (length posting_times <= length to_schedule)%nat ->
  buffer_answers env ok ->
  exists s',
    schedule_posts 0 posting_times to_schedule posted env s
    = (Return
         (posted ++
          if ok then url <$> take (length posting_times) to_schedule else []),
       s').
Proof.
  intros Hid Htimes Hlen Hapi.
  by apply (schedule_posts_from_completes 0 _ _ _ _ _ profile_id).
Qed.

Lemma schedule_posts_completes_witness :
  let s := sample_state "" "" in
  buffer_answers refusing_env false
  /\ (schedule_posts 0 two_slots two_posts [Some "http://blog.example/z"]
        refusing_env s).1
     = Return [Some "http://blog.example/z"]
  /\ length (sent (schedule_posts 0 two_slots two_posts
                     [Some "http://blog.example/z"] refusing_env s).2)
     = 2%nat.
Proof.
  intros s.
  assert (Hapi : buffer_answers refusing_env false).
  { intros log r. exists refused. split_and!; [done..|]. by eexists. }
  split; [done|].
  destruct (schedule_posts_completes two_slots two_posts
              [Some "http://blog.example/z"] refusing_env s "5d1a" false)
    as (s' & Hrun); [reflexivity| |simpl; lia|done|].
  { repeat constructor; by right. }
  split; [by rewrite Hrun|]. vm_compute. reflexivity.
Defined.

(** *** The history across a run *)

Lemma swap_perm {A} i j (x : list A) : swap i j x ≡ₚ x.
Proof.
  unfold swap.
  destruct (x !! i) as [xi|] eqn:Hi; [|done].
  destruct (x !! j) as [xj|] eqn:Hj; [|done].
  by apply Permutation_insert_swap.
Qed.

Lemma shuffle_from_perm {A} i (x : list A) env s x' s' :
  shuffle_from i x env s = (Return x', s') -> x' ≡ₚ x.
Proof.
  revert x s. induction i as [|i IH]; intros x s Hrun.
  - by injection Hrun as <- _.
  - cbn [shuffle_from] in Hrun.
    apply bind_Return in Hrun as (j & s1 & _ & Hrun).
    apply IH in Hrun. by rewrite Hrun, swap_perm.
Qed.

Lemma load_posted_dump_witness :
  Forall (fun i => exists u, i = Some u /\ no_whitespace u)
    [Some "http://blog.example/a"; Some "http://site.example/news/one"]
  /\ load_posted
       (dump_posted
          [Some "http://blog.example/a"; Some "http://site.example/news/one"])
     = [Some "http://blog.example/a"; Some "http://site.example/news/one"].
Proof.
  assert (Hplain : Forall (fun i => exists u, i = Some u /\ no_whitespace u)
                     [Some "http://blog.example/a";
                      Some "http://site.example/news/one"]).
  { repeat constructor; by eexists. }
  split; [done|]. exact (load_posted_dump _ Hplain).
Defined.

(** X17: a run that completes keeps every entry of the history it loaded, in
    order, and adds to it only URLs that were not among them: no URL of
    the history is posted again. *)
Theorem main_keeps_history env s s' :
  main env s = (Return tt, s') ->
  exists content added,
    posted_txt s = Some content
    /\ posted_txt s' = Some (dump_posted (load_posted content ++ added))
    /\ forall u, u ∈ added -> u ∉ load_posted content.
Proof.
  intros (_ & _ & Hrun)%main_Return. unfold schedule_cycle in Hrun.
  set (s0 := at_marker_check (utcnow_oracle env (clock_reads s)) s) in Hrun.
  assert (Hs0 : posted_txt s0 = posted_txt s) by reflexivity.
  apply bind_Return in Hrun as (env' & s1 & [= <- <-] & Hrun).
  apply bind_Return in Hrun as (feedly_count & s1 & H1 & Hrun).
  apply bind_Return in Hrun as (clicky_count & s2 & H2 & Hrun).
  apply bind_Return in Hrun as ([] & s3 & H3 & Hrun).
  apply bind_Return in Hrun as (feedly & s4 & H4 & Hrun).
  apply bind_Return in Hrun as (clicky & s5 & H5 & Hrun).
  apply bind_Return in Hrun as (content & s6 & H6 & Hrun).
  apply bind_Return in Hrun as (posting_times & s7 & _ & Hrun).
  apply bind_Return in Hrun as (to_schedule & s8 & Hshuffle & Hrun).
  apply bind_Return in Hrun as (history & s9 & Hloop & Hrun).
  apply main_persist_Return in Hrun as ->.
  apply (preserves_getkey (P := same_files)) in H1 as [_ H1].
  apply (preserves_getkey (P := same_files)) in H2 as [_ H2].
  apply (preserves_py_assert (P := same_files)) in H3 as [_ H3].
  apply (preserves_get_feed (P := same_files)) in H4 as [_ H4]; [|done].
  apply (preserves_get_clicky (P := same_files)) in H5 as [_ H5]; [|done].
  assert (Hcontent : posted_txt s = Some content).
  { unfold open_read in H6.
    destruct (posted_txt s5) as [content'|] eqn:Hfile; [|done].
    injection H6 as <- _. congruence. }
  apply shuffle_from_perm in Hshuffle.
  destruct (schedule_posts_appends _ _ _ _ _ _ _ _ Hloop)
    as (added & -> & Hadded).
  exists content, added. split_and!; [done..|].
  intros u (item & Hitem & ->)%Hadded.
  rewrite Hshuffle in Hitem.
  apply elem_of_app in Hitem
    as [(a & -> & Ha)%list_elem_of_fmap|(c & -> & Hc)%list_elem_of_fmap].
  - by apply check_posted_from_fresh in Ha.
  - by apply check_posted_from_fresh in Hc.
Qed.

Lemma main_keeps_history_witness :
  let s := sample_state "2024-02-29"
             ("http://blog.example/b" +:+ String LF "") in
  main ordinary_env s = (Return tt, (main ordinary_env s).2)
  /\ posted_txt (main ordinary_env s).2
     = Some (dump_posted [Some "http://blog.example/b";
                          Some "http://site.example/news/my-article";
                          Some "http://blog.example/a"])
  /\ exists content added,
       posted_txt s = Some content
       /\ posted_txt (main ordinary_env s).2
          = Some (dump_posted (load_posted content ++ added))
       /\ forall u, u ∈ added -> u ∉ load_posted content.
Proof.
  intros s.
  assert (Hrun : main ordinary_env s = (Return tt, (main ordinary_env s).2)).
  { vm_compute. reflexivity. }
  split_and!; [done|vm_compute; reflexivity|].
  exact (main_keeps_history ordinary_env s _ Hrun).
Defined.

(** *** The requests of a run *)

Lemma appends_quiet {A} env (Q : list Request -> Prop) (m : M A) :
  preserves same_sent m -> Q [] -> appends env Q m.
Proof.
  intros Hm HQ s o s' Hrun. exists []. split; [|done].
  rewrite app_nil_r. by eapply Hm.
Qed.

Lemma appends_weaken {A} env (Q Q' : list Request -> Prop) (m : M A) :
  (forall reqs, Q reqs -> Q' reqs) -> appends env Q m -> appends env Q' m.
Proof.
  intros HQ Hm s o s' Hrun.
  destruct (Hm _ _ _ Hrun) as (reqs & ? & ?). exists reqs. auto.
Qed.

Lemma appends_bind {A B} env (Q1 Q2 Q : list Request -> Prop) (m : M A)
    (f : A -> M B) :
  appends env Q1 m ->
  (forall a s s1, m env s = (Return a, s1) -> appends env Q2 (f a)) ->
  (forall r1, Q1 r1 -> Q r1) ->
  (forall r1 r2, Q1 r1 -> Q2 r2 -> Q (r1 ++ r2)) ->
  appends env Q (m ≫= f).
Proof.
  intros Hm Hf Hstop Hgo s o s'
    [(a & s1 & Hrun & Hrest)|[(code & Hrun & _)|(e & Hrun & _)]]%bind_cases.
  - destruct (Hm _ _ _ Hrun) as (r1 & Hs1 & Hr1).
    destruct (Hf _ _ _ Hrun _ _ _ Hrest) as (r2 & Hs' & Hr2).
    exists (r1 ++ r2). split; [|by apply Hgo].
    by rewrite Hs', Hs1, <- app_assoc.
  - destruct (Hm _ _ _ Hrun) as (r1 & ? & ?). exists r1. auto.
  - destruct (Hm _ _ _ Hrun) as (r1 & ? & ?). exists r1. auto.
Qed.

(** A quiet step in front of [f]. *)
Lemma appends_after {A B} env (Q : list Request -> Prop) (m : M A)
    (f : A -> M B) :
  preserves same_sent m ->
  (forall a s s1, m env s = (Return a, s1) -> appends env Q (f a)) ->
  Q [] ->
  appends env Q (m ≫= f).
Proof.
  intros Hm Hf HQ.
  eapply (appends_bind env (fun r => r = []) Q Q); [|exact Hf| |].
  - by apply appends_quiet.
  - by intros r1 ->.
  - by intros r1 r2 ->.
Qed.

Lemma appends_make_request {A B} env r
    (remote : Env -> list Request -> option A) (f : A -> M B) :
  (forall a, preserves same_sent (f a)) ->
  appends env (fun reqs => reqs = [r]) (make_request r remote ≫= f).
Proof.
  intros Hf.
  eapply (appends_bind env (fun reqs => reqs = [r]) (fun reqs => reqs = [])).
  - intros s o s'. unfold make_request.
    destruct (remote env (sent s)); intros [= <- <-]; by exists [r].
  - intros a _ _ _. by apply appends_quiet.
  - done.
  - intros r1 r2 -> ->. done.
Qed.

Lemma appends_get_feed env time_delta count kwargs :
  appends env (fun reqs => reqs = [GetFeedlyStream kwargs])
    (get_feed time_delta count kwargs).
Proof.
  unfold get_feed. apply appends_make_request.
  intros response. destruct (Feedly.items response).
  - destruct (Feedly.errorCode response) as [code|]; [destruct (code =? 0)|];
      (apply preserves_bind;
       [apply preserves_print|intros; apply preserves_sys_exit]).
  - apply preserves_bind; [apply preserves_utcnow|]. intros now.
    apply preserves_bind; [apply preserves_feed_articles|].
    intros; apply preserves_ret.
Qed.

Lemma appends_get_clicky env date output limit :
  appends env (fun reqs => reqs = [GetClickyPages date output limit])
    (get_clicky date output limit).
Proof.
  unfold get_clicky. apply appends_make_request.
  intros response. apply preserves_bind; [apply preserves_getitem|].
  intros first. apply preserves_bind; [apply preserves_getitem|].
  intros bucket. apply preserves_clicky_articles.
Qed.

Lemma posts_within_nil n : posts_within n [].
Proof. split; [constructor|simpl; lia]. Qed.

Lemma posts_within_app n1 n2 r1 r2 :
  posts_within n1 r1 -> posts_within n2 r2 -> posts_within (n1 + n2) (r1 ++ r2).
Proof.
  intros [H1 Hn1] [H2 Hn2]. split; [by apply Forall_app|].
  rewrite length_app. lia.
Qed.

Lemma posts_within_mono n n' reqs :
  (n <= n')%nat -> posts_within n reqs -> posts_within n' reqs.
Proof. intros Hn [? ?]. split; [done|lia]. Qed.

Lemma appends_schedule_buffer env status_text profile scheduled :
  appends env (posts_within 1)
    (schedule_buffer status_text profile scheduled).
Proof.
  intros s o s' Hrun.
  destruct profile as [p|ps].
  - destruct (schedule_buffer_profile status_text p scheduled env s)
      as [[e He]|(profile_id & _ & _ & Heq)].
    + rewrite He in Hrun. injection Hrun as _ <-.
      exists []. split; [by rewrite app_nil_r|apply posts_within_nil].
    + rewrite Heq in Hrun. revert Hrun.
      unfold mbind, M_bind, py_assert, raise, mret, M_ret, make_request.
      destruct (falsy scheduled);
        [|destruct scheduled; [destruct (_ =? 10)|]];
        try destruct (buffer_api _ _ _); intros [= <- <-];
        first [ by eexists [_]; split; [done|by repeat constructor]
              | exists []; split;
                [by rewrite app_nil_r|apply posts_within_nil] ].
  - rewrite schedule_buffer_list in Hrun. injection Hrun as _ <-.
    exists []. split; [by rewrite app_nil_r|apply posts_within_nil].
Qed.

Lemma appends_schedule_posts env index posting_times to_schedule posted :
  appends env (posts_within (length posting_times))
    (schedule_posts index posting_times to_schedule posted).
Proof.
  revert index posted.
  induction posting_times as [|i later IH]; intros index posted.
  - apply appends_quiet; [apply preserves_ret|apply posts_within_nil].
  - cbn [schedule_posts length].
    apply appends_after; [apply preserves_getitem| |apply posts_within_nil].
    intros item _ _ _.
    apply appends_after; [apply preserves_print| |apply posts_within_nil].
    intros _ _ _ _.
    eapply (appends_bind env (posts_within 1) (posts_within (length later))).
    + apply appends_schedule_buffer.
    + intros tweet _ _ _.
      apply appends_after; [apply preserves_getfield| |apply posts_within_nil].
      intros ok _ _ _.
      apply appends_after; [| |apply posts_within_nil].
      * destruct ok.
        -- apply preserves_bind; [apply preserves_print|].
           intros; apply preserves_ret.
        -- apply preserves_bind; [apply preserves_print|]. intros _.
           apply preserves_bind; [apply preserves_getfield|]. intros msg.
           apply preserves_bind; [apply preserves_print|]. intros _.
           apply preserves_bind; [apply preserves_print|].
           intros; apply preserves_ret.
      * intros posted' _ _ _.
        apply appends_after; [apply preserves_sleep| |apply posts_within_nil].
        intros _ _ _ _. apply IH.
    + intros r1. apply posts_within_mono. lia.
    + intros r1 r2 H1 H2. apply (posts_within_app 1 _ _ _ H1 H2).
Qed.

Lemma get_posting_times_length env s timestamps s' :
  get_posting_times env s = (Return timestamps, s') ->
  (length timestamps <= length (posting_hours (config env)))%nat.
Proof.
  intros Hrun. rewrite get_posting_times_unfold in Hrun.
  apply posting_times_from_shape in Hrun as [Hshape _].
  rewrite (Forall2_length _ _ _ Hshape). apply length_filter.
Qed.

Lemma cycle_requests_nil n : cycle_requests n [].
Proof.
  exists []. split; [apply posts_within_nil|apply prefix_nil].
Qed.

(** X18: in a run without argument, the requests are, in this order: the one
    Feedly request, the one Clicky request, and then scheduling requests,
    at most one for each configured posting hour; a run that stops early
    has sent a beginning of that sequence. No post is scheduled before both
    fetches have returned, and no source is fetched twice. *)
Theorem main_request_order env s o s' :
  length (argv env) <> 2%nat ->
  main env s = (o, s') ->
  exists reqs,
    sent s' = sent s ++ reqs
    /\ cycle_requests (length (posting_hours (config env))) reqs.
Proof.
  intros Hargs. revert s o s'.
  change (appends env
            (cycle_requests (length (posting_hours (config env)))) main).
  set (n := length (posting_hours (config env))).
  unfold main.
  apply appends_after; [apply preserves_ask| |apply cycle_requests_nil].
  intros env' s s1 [= <- _]. cbv zeta.
  rewrite bool_decide_eq_false_2 by done.
  apply appends_after; [apply preserves_utcnow| |apply cycle_requests_nil].
  intros now _ _ _.
  apply appends_after; [apply preserves_print| |apply cycle_requests_nil].
  intros _ _ _ _.
  apply appends_after; [apply preserves_open_read| |apply cycle_requests_nil].
  intros content _ _ _.
  apply appends_after; [apply preserves_getitem| |apply cycle_requests_nil].
  intros today _ _ _.
  destruct (String.eqb _ _).
  { apply appends_quiet; [|apply cycle_requests_nil].
    apply preserves_bind; [apply preserves_print|].
    intros; apply preserves_sys_exit. }
  apply appends_after; [apply preserves_getkey| |apply cycle_requests_nil].
  intros feedly_count _ _ _.
  apply appends_after; [apply preserves_getkey| |apply cycle_requests_nil].
  intros clicky_count _ _ _.
  apply appends_after; [apply preserves_py_assert| |apply cycle_requests_nil].
  intros _ _ _ _.
  eapply (appends_bind env _
            (fun r => r = [] \/ exists posts,
                        posts_within n posts
                        /\ r = GetClickyPages "today" "json" 50 :: posts));
    [apply appends_get_feed| | |].
  2:{ intros r1 ->. exists []. split; [apply posts_within_nil|].
      by exists [GetClickyPages "today" "json" 50]. }
  2:{ intros r1 r2 -> [->|(posts & Hposts & ->)].
      - exists []. split; [apply posts_within_nil|].
        by exists [GetClickyPages "today" "json" 50].
      - exists posts. split; [done|]. by exists []; rewrite app_nil_r. }
  intros feedly _ _ _.
  eapply (appends_bind env _ (posts_within n));
    [apply appends_get_clicky| | |].
  2:{ intros r1 ->. right. exists []. split; [apply posts_within_nil|done]. }
  2:{ intros r1 r2 -> Hposts. right. by exists r2. }
  intros clicky _ _ _.
  apply appends_after; [apply preserves_open_read| |apply posts_within_nil].
  intros history _ _ _.
  apply appends_after;
    [apply preserves_get_posting_times| |apply posts_within_nil].
  intros posting_times s2 s3 Htimes%get_posting_times_length.
  apply appends_after; [apply preserves_shuffle| |apply posts_within_nil].
  intros to_schedule _ _ _.
  eapply (appends_bind env (posts_within (length posting_times))
            (fun r => r = [])).
  - apply appends_schedule_posts.
  - intros posted _ _ _. apply appends_quiet; [|done].
    apply main_persist_same_sent.
  - intros r1. by apply posts_within_mono.
  - intros r1 r2 H1 ->. rewrite app_nil_r. by eapply posts_within_mono.
Qed.

Lemma main_request_order_witness :
  let s := sample_state "2024-02-29" "" in
  length (argv ordinary_env) <> 2%nat
  /\ sent (main ordinary_env s).2
     = [GetFeedlyStream []; GetClickyPages "today" "json" 50;
        PostBufferUpdate "5d1a"
          "A page http://site.example/news/my-article"
          (ScheduledAt 1709305451);
        PostBufferUpdate "5d1a" "A story http://blog.example/b"
          (ScheduledAt 1709324305)]
  /\ exists reqs,
       sent (main ordinary_env s).2 = sent s ++ reqs
       /\ cycle_requests 3 reqs.
Proof.
  intros s.
  assert (Hargs : length (argv ordinary_env) <> 2%nat) by discriminate.
  split_and!; [done|vm_compute; reflexivity|].
  exact (main_request_order ordinary_env s _ _ Hargs
           (surjective_pairing (main ordinary_env s))).
Defined.

(** *** Generated timestamps and the scheduler's check *)

Ltac digit_cases a :=
  let H := fresh in
  assert (H : a = 0 \/ a = 1 \/ a = 2 \/ a = 3 \/ a = 4 \/ a = 5 \/ a = 6
              \/ a = 7 \/ a = 8 \/ a = 9) by lia;
  destruct H as [->|[->|[->|[->|[->|[->|[->|[->|[->| ->]]]]]]]]].

Lemma of_uint_acc_digit_cons a l acc :
  0 <= a < 10 ->
  Pos.of_uint_acc (digit_cons a l) acc
  = Pos.of_uint_acc l (Z.to_pos (a + 10 * Z.pos acc)).
Proof. intros Ha. digit_cases a; simpl; f_equal; lia. Qed.

Lemma of_uint_acc_digits_of k n l acc :
  0 <= n < 10 ^ Z.of_nat k ->
  Pos.of_uint_acc (digits_of k n l) acc
  = Pos.of_uint_acc l (Z.to_pos (n + 10 ^ Z.of_nat k * Z.pos acc)).
Proof.
  revert n l acc. induction k as [|k IH]; intros n l acc Hn.
  - simpl in *. f_equal. lia.
  - rewrite Nat2Z.inj_succ, Z.pow_succ_r in * by lia.
    cbn [digits_of]. rewrite IH by (Z.div_mod_to_equations; lia).
    rewrite of_uint_acc_digit_cons by (Z.div_mod_to_equations; lia).
    f_equal. rewrite Z2Pos.id by (Z.div_mod_to_equations; nia).
    f_equal. Z.div_mod_to_equations; lia.
Qed.

Lemma nb_digits_digits_of k n l :
  Decimal.nb_digits (digits_of k n l) = (k + Decimal.nb_digits l)%nat.
Proof.
  revert n l. induction k as [|k IH]; intros n l; [done|].
  cbn [digits_of]. rewrite IH.
  assert (Decimal.nb_digits (digit_cons (n mod 10) l)
          = S (Decimal.nb_digits l)) as ->; [|lia].
  unfold digit_cons. by repeat case_match.
Qed.

Lemma length_string_of_uint d :
  String.length (NilEmpty.string_of_uint d) = Decimal.nb_digits d.
Proof. induction d; simpl; congruence. Qed.

(** The decimal form of an integer of [k + 1] digits. *)
Lemma to_uint_digits k n :
  10 ^ Z.of_nat k <= n < 10 ^ Z.of_nat (S k) ->
  Pos.to_uint (Z.to_pos n)
  = digit_cons (n / 10 ^ Z.of_nat k)
      (digits_of k (n mod 10 ^ Z.of_nat k) Decimal.Nil).
Proof.
  intros Hn. rewrite Nat2Z.inj_succ, Z.pow_succ_r in Hn by lia.
  assert (Hpow : 0 < 10 ^ Z.of_nat k) by (apply Z.pow_pos_nonneg; lia).
  set (a := n / 10 ^ Z.of_nat k). set (m := n mod 10 ^ Z.of_nat k).
  assert (Ha : 1 <= a < 10) by (subst a; Z.div_mod_to_equations; nia).
  assert (Hm : 0 <= m < 10 ^ Z.of_nat k) by (subst m; Z.div_mod_to_equations; nia).
  assert (Hnam : n = m + 10 ^ Z.of_nat k * a)
    by (subst a m; Z.div_mod_to_equations; nia).
  set (d := digit_cons a (digits_of k m Decimal.Nil)).
  assert (Hof : Pos.of_uint d = N.pos (Z.to_pos n)).
  { assert (Pos.of_uint d
            = N.pos (Pos.of_uint_acc (digits_of k m Decimal.Nil) (Z.to_pos a)))
      as ->.
    { subst d. digit_cases a; try lia; reflexivity. }
    rewrite of_uint_acc_digits_of by done. simpl.
    rewrite Z2Pos.id by lia. by rewrite <- Hnam. }
  assert (Hnorm : Decimal.unorm d = d).
  { subst d. digit_cases a; try lia; reflexivity. }
  pose proof (DecimalPos.Unsigned.to_of d) as Hto.
  rewrite Hof, Hnorm in Hto. exact Hto.
Qed.

(** An integer has a ten-character [str] when it lies between [10^9] and
    [10^10]. *)
Lemma len_str_ten_digits n :
  1000000000 <= n < 10000000000 -> len (str n) = 10.
Proof.
  intros Hn. unfold str, len.
  destruct n as [|p|p]; try lia.
  change (Z.to_int (Z.pos p)) with (Decimal.Pos (Pos.to_uint p)).
  pose proof (to_uint_digits 9 (Z.pos p)) as Hd.
  change (Z.to_pos (Z.pos p)) with p in Hd. rewrite Hd by (simpl; lia).
  unfold NilZero.string_of_int, NilZero.string_of_uint.
  set (a := Z.pos p / 10 ^ Z.of_nat 9).
  assert (Ha : 1 <= a < 10)
    by (subst a; change (10 ^ Z.of_nat 9) with 1000000000;
        Z.div_mod_to_equations; lia).
  assert (String.length
            (NilEmpty.string_of_uint
               (digit_cons a (digits_of 9 (Z.pos p mod 10 ^ Z.of_nat 9)
                                Decimal.Nil))) = 10%nat) as Hlen.
  { rewrite length_string_of_uint.
    assert (Decimal.nb_digits
              (digit_cons a (digits_of 9 (Z.pos p mod 10 ^ Z.of_nat 9)
                               Decimal.Nil))
            = S (Decimal.nb_digits
                   (digits_of 9 (Z.pos p mod 10 ^ Z.of_nat 9) Decimal.Nil)))
      as ->.
    { unfold digit_cons. by repeat case_match. }
    by rewrite nb_digits_digits_of. }
  digit_cases a; try lia; cbn [digit_cons] in *; by rewrite Hlen.
Qed.

Lemma datetime_new_valid y m d hh mm ss env s t s' :
  datetime_new y m d hh mm ss env s = (Return t, s') ->
  valid_datetime t /\ year t = y.
Proof.
  unfold datetime_new.
  destruct (_ && _) eqn:Hok; [|discriminate].
  intros [= <- <-]. repeat (apply andb_prop in Hok as [Hok ?]).
  repeat match goal with H : (_ <=? _) = true |- _ => apply Z.leb_le in H end.
  unfold valid_datetime. simpl. split_and!; lia.
Qed.

Lemma posting_times_from_dates today posting_hrs env s timestamps s' :
  posting_times_from today posting_hrs env s = (Return timestamps, s') ->
  forall t, t ∈ timestamps ->
    exists posting_time,
      valid_datetime posting_time /\ year posting_time = year today
      /\ t = timegm posting_time.
Proof.
  revert s timestamps s'.
  induction posting_hrs as [|configured rest IH];
    intros s timestamps s' Hrun t Ht.
  - injection Hrun as <- _. by apply elem_of_nil in Ht.
  - cbn [posting_times_from] in Hrun.
    destruct (configured <? hour today); [by eapply IH|].
    apply bind_Return in Hrun as (mm & s1 & Hmm & Hrun).
    apply bind_Return in Hrun as (ss & s2 & Hss & Hrun).
    apply bind_Return in Hrun as (posting_time & s3 & Hnew & Hrun).
    apply bind_Return in Hrun as (later & s4 & Hrest & Hrun).
    injection Hrun as <- _.
    apply datetime_new_valid in Hnew as [Hvalid Hyear].
    apply elem_of_cons in Ht as [->|Ht]; [by exists posting_time|].
    by eapply IH.
Qed.

Lemma days_before_month_bounds y m : 0 <= days_before_month y m <= 335.
Proof.
  unfold days_before_month.
  assert (0 <= nth (Z.to_nat m)
                 [0; 0; 31; 59; 90; 120; 151; 181; 212; 243; 273; 304; 334] 0
          <= 334).
  { generalize (Z.to_nat m). intros k.
    do 13 (destruct k as [|k]; [simpl; lia|]). destruct k; simpl; lia. }
  destruct (_ && _); lia.
Qed.

Lemma days_in_month_bound y m : days_in_month y m <= 31.
Proof.
  unfold days_in_month. destruct (_ && _); [lia|].
  generalize (Z.to_nat m). intros k.
  do 13 (destruct k as [|k]; [simpl; lia|]). destruct k; simpl; lia.
Qed.

(** A time of the years 2002 to 2285 has an epoch of ten digits. *)
Lemma timegm_ten_digits t :
  valid_datetime t -> 2002 <= year t <= 2285 ->
  1000000000 <= timegm t < 10000000000.
Proof.
  intros (_ & _ & Hday & Hhour & Hmin & Hsec & _) Hyear.
  pose proof (days_before_month_bounds (year t) (month t)).
  pose proof (days_in_month_bound (year t) (month t)).
  unfold timegm, ymd2ord, days_before_year, EPOCH_ORD.
  Z.div_mod_to_equations. lia.
Qed.

(** X19: while the current UTC year is between 2002 and 2285, every timestamp
    produced by [get_posting_times] is written with ten digits, so the
    ten-character check of [schedule_buffer] accepts it: with the twitter
    profile configured and the remote side answering, [schedule_buffer]
    sends the update scheduled at that timestamp and returns the answer. *)
Theorem get_posting_times_accepted env s timestamps s' t :
  2002 <= year (utcnow_oracle env (clock_reads s)) <= 2285 ->
  get_posting_times env s = (Return timestamps, s') ->
  t ∈ timestamps ->
  len (str t) = 10
  /\ forall status_text profile_id r st,
       buffer_profiles (config env) !! "twitter" = Some profile_id ->
       buffer_api env (sent st)
         (PostBufferUpdate profile_id status_text (ScheduledAt t)) = Some r ->
       schedule_buffer status_text (ProfileStr "twitter") (SchedInt t) env st
       = (Return r,
          set_sent (sent st
                    ++ [PostBufferUpdate profile_id status_text
                          (ScheduledAt t)]) st).
Proof.
  intros Hyear Hrun Ht. rewrite get_posting_times_unfold in Hrun.
  destruct (posting_times_from_dates _ _ _ _ _ _ Hrun t Ht)
    as (posting_time & Hvalid & Hsame & ->).
  assert (Hrange : 1000000000 <= timegm posting_time < 10000000000).
  { apply timegm_ten_digits; [done|]. by rewrite Hsame. }
  pose proof (len_str_ten_digits _ Hrange) as Hlen.
  split; [done|].
  intros status_text profile_id r st Hid Hanswer.
  assert (Hnz : (timegm posting_time =? 0) = false) by (apply Z.eqb_neq; lia).
  pose proof (schedule_buffer_update status_text "twitter"
                (timegm posting_time) env st profile_id r) as Hsend.
  rewrite Hnz in Hsend. apply Hsend; [|done|by right|done].
  apply elem_of_cons. by left.
Qed.


Lemma get_posting_times_accepted_witness :
  let s := sample_state "2024-02-29" "" in
  2002 <= year (utcnow_oracle ordinary_env (clock_reads s)) <= 2285
  /\ (get_posting_times ordinary_env s).1 = Return [1709305451; 1709324305]
  /\ len (str 1709305451) = 10.
Proof.
  intros s.
  assert (Hyear : 2002 <= year (utcnow_oracle ordinary_env (clock_reads s))
                  <= 2285) by (vm_compute; split; discriminate).
  assert (Hrun : get_posting_times ordinary_env s
                 = (Return [1709305451; 1709324305],
                    (get_posting_times ordinary_env s).2))
    by (vm_compute; reflexivity).
  assert (Hin : 1709305451 ∈ [1709305451; 1709324305])
    by (apply elem_of_cons; by left).
  split; [exact Hyear|]. split; [by rewrite Hrun|].
  exact (proj1 (get_posting_times_accepted ordinary_env s _ _ 1709305451
                  Hyear Hrun Hin)).
Defined.

(** *** The history round trip *)

Lemma schedule_buffer_answer status_text p n env s r s' :
  schedule_buffer status_text (ProfileStr p) (SchedInt n) env s
  = (Return r, s') ->
  exists profile_id,
    buffer_profiles (config env) !! p = Some profile_id
    /\ buffer_api env (sent s)
         (PostBufferUpdate profile_id status_text
            (if n =? 0 then Now else ScheduledAt n)) = Some r
    /\ s' = set_sent
              (sent s ++ [PostBufferUpdate profile_id status_text
                            (if n =? 0 then Now else ScheduledAt n)]) s.
Proof.
  destruct (schedule_buffer_profile status_text p (SchedInt n) env s)
    as [[e ->]|(profile_id & _ & Hid & ->)]; [done|].
  intros Hrun. exists profile_id. split; [done|].
  revert Hrun. unfold mbind, M_bind, py_assert, mret, M_ret, raise,
    make_request. cbn [falsy].
  destruct (Z.eqb_spec n 0) as [->|Hnz].
  - destruct (buffer_api _ _ _); by intros [= <- <-].
  - destruct (Z.eqb_spec (len (str n)) 10) as [Hlen|]; [|done].
    destruct (buffer_api _ _ _); by intros [= <- <-].
Qed.

(** What the loop appends are the URLs that Buffer accepted. *)
Lemma schedule_posts_from_history index posting_times to_schedule posted env s
    posted' s' profile_id :
  buffer_profiles (config env) !! "twitter" = Some profile_id ->
  schedule_posts index posting_times to_schedule posted env s
  = (Return posted', s') ->
  posted' = posted ++ accepted_urls env (sent s) profile_id posting_times
                        (drop index to_schedule).
Proof.
  intros Hid. revert index posted s.
  induction posting_times as [|i later IH]; intros index posted s Hrun.
  - injection Hrun as <- _. by rewrite app_nil_r.
  - cbn [schedule_posts] in Hrun.
    apply bind_Return in Hrun as (item & s1 & Hitem & Hrun).
    apply bind_Return in Hrun as ([] & s2 & Hprint & Hrun).
    apply bind_Return in Hrun as (tweet & s3 & Hsend & Hrun).
    apply bind_Return in Hrun as (ok & s4 & Hok & Hrun).
    apply bind_Return in Hrun as (posted1 & s5 & Hnote & Hrun).
    apply bind_Return in Hrun as ([] & s6 & Hsleep & Hrun).
    unfold getitem in Hitem.
    destruct (to_schedule !! index) as [item'|] eqn:Hlookup; [|done].
    injection Hitem as -> <-.
    injection Hprint as <-.
    apply schedule_buffer_answer in Hsend as (id' & Hid' & Hanswer & ->).
    rewrite Hid in Hid'. injection Hid' as <-.
    cbn [sent set_stdout] in Hanswer.
    assert (Hsuccess : Buffer.success tweet = Some ok).
    { unfold getfield in Hok.
      destruct (Buffer.success tweet) as [b|]; [|done].
      by injection Hok as -> _. }
    assert (Hs4 : sent s4 = sent s ++ [update_for profile_id i item]).
    { apply (preserves_getfield (P := same_sent)) in Hok. by rewrite Hok. }
    assert (Hs5 : sent s5 = sent s4).
    { revert Hnote. destruct ok.
      - apply (preserves_bind (P := same_sent)); [apply preserves_print|].
        intros; apply preserves_ret.
      - apply (preserves_bind (P := same_sent)); [apply preserves_print|].
        intros _.
        apply (preserves_bind (P := same_sent)); [apply preserves_getfield|].
        intros msg.
        apply (preserves_bind (P := same_sent)); [apply preserves_print|].
        intros _.
        apply (preserves_bind (P := same_sent)); [apply preserves_print|].
        intros; apply preserves_ret. }
    injection Hsleep as <-.
    apply IH in Hrun. cbn [sent set_slept] in Hrun.
    rewrite Hs5, Hs4 in Hrun.
    rewrite (drop_S _ _ _ Hlookup). cbn [accepted_urls].
    fold (update_for profile_id i item) in Hanswer.
    rewrite Hanswer. cbn [mbind option_bind]. rewrite Hsuccess.
    rewrite Hrun. destruct ok.
    + apply bind_Return in Hnote as ([] & s7 & _ & Hnote).
      injection Hnote as <- _. by rewrite <- app_assoc.
    + apply bind_Return in Hnote as ([] & s7 & _ & Hnote).
      apply bind_Return in Hnote as (msg & s8 & _ & Hnote).
      apply bind_Return in Hnote as ([] & s9 & _ & Hnote).
      apply bind_Return in Hnote as ([] & s10 & _ & Hnote).
      by injection Hnote as <- _.
Qed.

(** Without a twitter profile in the configuration, a loop that completes
    had no slot. *)
Lemma schedule_posts_no_profile index posting_times to_schedule posted env s
    posted' s' :
  buffer_profiles (config env) !! "twitter" = None ->
  schedule_posts index posting_times to_schedule posted env s
  = (Return posted', s') ->
  posting_times = [] /\ posted' = posted /\ s' = s.
Proof.
  intros Hid Hrun. destruct posting_times as [|i later].
  - by injection Hrun as <- <-.
  - cbn [schedule_posts] in Hrun.
    apply bind_Return in Hrun as (item & s1 & _ & Hrun).
    apply bind_Return in Hrun as ([] & s2 & _ & Hrun).
    apply bind_Return in Hrun as (tweet & s3 & Hsend & _).
    apply schedule_buffer_answer in Hsend as (id' & Hid' & _).
    congruence.
Qed.

(** C8, as amended: a run that completes has sent the two fetches and one
    update for each slot, and its history file holds the entries it loaded
    followed by the URLs of the updates that Buffer accepted, one a line;
    every such URL without whitespace is in the list that the next run
    loads from that file, and [check_posted] on that list returns no
    candidate with that URL. *)
Theorem history_round_trip env s s' :
  main env s = (Return tt, s') ->
  exists content profile_id posting_times to_schedule,
    let fetches := [GetFeedlyStream []; GetClickyPages "today" "json" 50] in
    let added :=
      accepted_urls env (sent s ++ fetches) profile_id posting_times
        to_schedule in
    posted_txt s = Some content
    /\ sent s'
       = sent s ++ fetches
         ++ zip_with (update_for profile_id) posting_times to_schedule
    /\ (length posting_times <= length to_schedule)%nat
    /\ posted_txt s' = Some (dump_posted (load_posted content ++ added))
    /\ forall u, Some u ∈ added -> no_whitespace u ->
         forall content', posted_txt s' = Some content' ->
           Some u ∈ load_posted content'
           /\ forall (A : Type) (C : Candidate A) (source : list A) count i,
                i ∈ check_posted source count (load_posted content') ->
                url i <> Some u.
Proof.
  intros (_ & _ & Hrun)%main_Return. unfold schedule_cycle in Hrun.
  set (s0 := at_marker_check (utcnow_oracle env (clock_reads s)) s) in Hrun.
  assert (Hfile0 : posted_txt s0 = posted_txt s) by reflexivity.
  assert (Hsent0 : sent s0 = sent s) by reflexivity.
  apply bind_Return in Hrun as (env' & s1 & [= <- <-] & Hrun).
  apply bind_Return in Hrun as (feedly_count & s1 & H1 & Hrun).
  apply bind_Return in Hrun as (clicky_count & s2 & H2 & Hrun).
  apply bind_Return in Hrun as ([] & s3 & H3 & Hrun).
  apply bind_Return in Hrun as (feedly & s4 & H4 & Hrun).
  apply bind_Return in Hrun as (clicky & s5 & H5 & Hrun).
  apply bind_Return in Hrun as (content & s6 & H6 & Hrun).
  apply bind_Return in Hrun as (posting_times & s7 & H7 & Hrun).
  apply bind_Return in Hrun as (to_schedule & s8 & H8 & Hrun).
  apply bind_Return in Hrun as (history & s9 & Hloop & Hrun).
  apply main_persist_Return in Hrun as ->.
  pose proof (preserves_getkey (P := same_files) _ _ _ _ _ _ H1) as [_ F1].
  pose proof (preserves_getkey (P := same_files) _ _ _ _ _ _ H2) as [_ F2].
  pose proof (preserves_py_assert (P := same_files) _ _ _ _ _ H3) as [_ F3].
  pose proof (preserves_get_feed (P := same_files) _ _ _ I _ _ _ _ H4)
    as [_ F4].
  pose proof (preserves_get_clicky (P := same_files) _ _ _ I _ _ _ _ H5)
    as [_ F5].
  apply (preserves_getkey (P := same_sent)) in H1.
  apply (preserves_getkey (P := same_sent)) in H2.
  apply (preserves_py_assert (P := same_sent)) in H3.
  apply appends_get_feed in H4 as (? & H4 & ->).
  apply appends_get_clicky in H5 as (? & H5 & ->).
  assert (Hcontent : posted_txt s = Some content /\ s6 = s5).
  { unfold open_read in H6.
    destruct (posted_txt s5) as [content'|] eqn:Hfile; [|done].
    injection H6 as <- <-. split; [congruence|done]. }
  destruct Hcontent as [Hcontent ->].
  apply (preserves_get_posting_times (P := same_sent)) in H7.
  apply (preserves_shuffle (P := same_sent)) in H8.
  assert (Hs8 : sent s8
                = sent s ++ [GetFeedlyStream [];
                             GetClickyPages "today" "json" 50]).
  { unfold same_sent in *. rewrite H8, H7, H5, H4, H3, H2, H1, Hsent0.
    by rewrite <- app_assoc. }
  assert (Hloop' : exists profile_id,
            sent s9 = sent s8 ++ zip_with (update_for profile_id)
                                   posting_times to_schedule
            /\ (length posting_times <= length to_schedule)%nat
            /\ history = load_posted content
                         ++ accepted_urls env (sent s8) profile_id
                              posting_times to_schedule).
  { destruct (buffer_profiles (config env) !! "twitter") as [profile_id|]
      eqn:Hid.
    - exists profile_id.
      destruct (schedule_posts_from_pairs _ _ _ _ _ _ _ _ _ Hid Hloop)
        as [Hsent Hlen].
      by rewrite (schedule_posts_from_history _ _ _ _ _ _ _ _ _ Hid Hloop).
    - apply (schedule_posts_no_profile _ _ _ _ _ _ _ _ Hid) in Hloop
        as (-> & -> & ->).
      exists "". split_and!; [by rewrite app_nil_r|simpl; lia|].
      by rewrite app_nil_r. }
  destruct Hloop' as (profile_id & Hs9 & Hlen & ->).
  exists content, profile_id, posting_times, to_schedule. cbv zeta.
  rewrite <- Hs8. split_and!; [done| |done|done|].
  - cbn [sent set_done_today set_posted]. rewrite Hs9, Hs8.
    by rewrite <- app_assoc.
  - cbn [posted_txt set_done_today set_posted].
    intros u Hu Hplain content' [= <-].
    assert (Hloaded : Some u ∈ load_posted
                        (dump_posted
                           (load_posted content
                            ++ accepted_urls env (sent s8) profile_id
                                 posting_times to_schedule))).
    { apply load_posted_dump_elem; [|done]. apply elem_of_app. by right. }
    split; [done|].
    intros A C source count i Hi Hurl.
    apply check_posted_from_fresh in Hi. by rewrite Hurl in Hi.
Qed.

Lemma history_round_trip_witness :
  let s := sample_state "2024-02-29" "" in
  let s' := (main ordinary_env s).2 in
  main ordinary_env s = (Return tt, s')
  /\ posted_txt s'
     = Some (dump_posted [Some "http://site.example/news/my-article";
                          Some "http://blog.example/b"])
  /\ check_posted
       [CArticle.make "A page" "http://site.example/news/my-article";
        CArticle.make "Three" "http://site.example/news/three"] 5
       (load_posted
          (dump_posted [Some "http://site.example/news/my-article";
                        Some "http://blog.example/b"]))
     = [CArticle.make "Three" "http://site.example/news/three"]
  /\ exists content profile_id posting_times to_schedule,
       let fetches := [GetFeedlyStream []; GetClickyPages "today" "json" 50] in
       let added :=
         accepted_urls ordinary_env (sent s ++ fetches) profile_id
           posting_times to_schedule in
       posted_txt s = Some content
       /\ sent s'
          = sent s ++ fetches
            ++ zip_with (update_for profile_id) posting_times to_schedule
       /\ (length posting_times <= length to_schedule)%nat
       /\ posted_txt s' = Some (dump_posted (load_posted content ++ added))
       /\ forall u, Some u ∈ added -> no_whitespace u ->
            forall content', posted_txt s' = Some content' ->
              Some u ∈ load_posted content'
              /\ forall (A : Type) (C : Candidate A) (source : list A) count i,
                   i ∈ check_posted source count (load_posted content') ->
                   url i <> Some u.
Proof.
  intros s s'.
  assert (Hrun : main ordinary_env s = (Return tt, s')).
  { vm_compute. reflexivity. }
  split_and!; [done|vm_compute; reflexivity|vm_compute; reflexivity|].
  exact (history_round_trip ordinary_env s _ Hrun).
Defined.

(** C8, as stated, fails for a URL that ends in a blank: the run writes it
    as it is, the next run loads it stripped, does not recognise the
    candidate, and schedules the same story a second time. *)
Lemma history_padded_url_posted_again :
  let first := main padded_env (sample_state "2024-02-29" "") in
  let second := main (at_time early_next_day padded_env) first.2 in
  first.1 = Return tt
  /\ posted_txt first.2 = Some (dump_posted [Some "http://blog.example/a "])
  /\ load_posted (dump_posted [Some "http://blog.example/a "])
     = [Some "http://blog.example/a"]
  /\ second.1 = Return tt
  /\ filter (fun r => is_schedule r) (sent second.2)
     = [PostBufferUpdate "5d1a" "A story http://blog.example/a "
          (ScheduledAt 1709323451);
        PostBufferUpdate "5d1a" "A story http://blog.example/a "
          (ScheduledAt 1709410705)]
  /\ posted_txt second.2
     = Some (dump_posted [Some "http://blog.example/a";
                          Some "http://blog.example/a "]).
Proof. vm_compute. done. Qed.
